(** * Night sky engine: astronomy.js and the query facades

    A shallow embedding of the position engine of the Night Sky app
    ([src/astronomy.js]) and of the two query facades built on it
    ([calculateVisibleObjects] of [src/app.js] and [calculateAllObjects] of
    the zoomable sky map), with the properties stated about them.  The
    compass label, the draw methods and the object panel of [NightSkyApp]
    follow, and the view of the sky map: its gestures, its projection and
    the constellations it finds in view.

    Numbers.  A JavaScript number is modelled twice.  The main model is an
    extended real: a finite value carried by a real number of the Standard
    Library, the two infinities, and NaN.  Its arithmetic is the exact one:
    rounding to binary64, overflow and the sign of zero are not modelled (a
    zero divisor is read as +0), and the functions of [Math] are the
    mathematical ones, with the results ECMAScript prescribes outside their
    domain.  The properties stated on this model are kept to what rounding
    does not disturb: the structure of the results, and bounds by numbers
    that binary64 holds exactly, on arguments that cannot overflow.  Where
    rounding or overflow decides what the code returns, the code is
    embedded a second time in [Double], on the binary64 numbers themselves,
    and evaluated there. *)

From Stdlib Require Import Reals RNsatz Lra Lia ZArith Bool List String.
From Stdlib Require Import Permutation Sorted.
From Stdlib Require Floats.
Import ListNotations.

Set Implicit Arguments.

(** ** JavaScript numbers *)

Inductive number : Type :=
| Fin (x : R)
| PInf
| NInf
| NaN.

Coercion Fin : R >-> number.

Declare Scope js_scope.
Delimit Scope js_scope with js.
Bind Scope js_scope with number.

Module Num.

Local Open Scope R_scope.

Definition Rltb (x y : R) : bool := if Rlt_dec x y then true else false.
Definition Reqb (x y : R) : bool := if Req_dec_T x y then true else false.

(** The integer part of a quotient, rounded towards zero. *)
Definition trunc (q : R) : Z :=
  if Rle_dec 0 q then Int_part q else (- Int_part (- q))%Z.

(** [x % y] on finite operands with [y <> 0]: the result has the sign of
    the dividend. *)
Definition fmod (x y : R) : R := x - y * IZR (trunc (x / y)).

Definition is_finite (a : number) : bool :=
  match a with Fin _ => true | _ => false end.

Definition neg (a : number) : number :=
  match a with
  | Fin x => Fin (- x)
  | PInf => NInf
  | NInf => PInf
  | NaN => NaN
  end.

Definition add (a b : number) : number :=
  match a, b with
  | NaN, _ | _, NaN => NaN
  | Fin x, Fin y => Fin (x + y)
  | PInf, NInf | NInf, PInf => NaN
  | PInf, _ | _, PInf => PInf
  | NInf, _ | _, NInf => NInf
  end.

Definition sub (a b : number) : number := add a (neg b).

(** The infinity whose sign is that of [x], NaN for zero. *)
Definition signed_inf (x : R) : number :=
  if Rltb 0 x then PInf else if Rltb x 0 then NInf else NaN.

Definition mul (a b : number) : number :=
  match a, b with
  | NaN, _ | _, NaN => NaN
  | Fin x, Fin y => Fin (x * y)
  | Fin x, PInf | PInf, Fin x => signed_inf x
  | Fin x, NInf | NInf, Fin x => signed_inf (- x)
  | PInf, PInf | NInf, NInf => PInf
  | PInf, NInf | NInf, PInf => NInf
  end.

Definition div (a b : number) : number :=
  match a, b with
  | NaN, _ | _, NaN => NaN
  | Fin x, Fin y => if Reqb y 0 then signed_inf x else Fin (x / y)
  | Fin _, (PInf | NInf) => Fin 0
  | PInf, Fin y => if Rltb y 0 then NInf else PInf
  | NInf, Fin y => if Rltb y 0 then PInf else NInf
  | (PInf | NInf), (PInf | NInf) => NaN
  end.

(** The remainder operator [%]. *)
Definition rem (a b : number) : number :=
  match a, b with
  | Fin x, Fin y => if Reqb y 0 then NaN else Fin (fmod x y)
  | Fin x, (PInf | NInf) => Fin x
  | _, _ => NaN
  end.

(** [a < b]; false as soon as an operand is NaN. *)
Definition lt (a b : number) : bool :=
  match a, b with
  | NaN, _ | _, NaN => false
  | Fin x, Fin y => Rltb x y
  | _, NInf => false
  | NInf, _ => true
  | PInf, _ => false
  | _, PInf => true
  end.

Definition gt (a b : number) : bool := lt b a.

Definition abs (a : number) : number :=
  match a with
  | Fin x => Fin (Rabs x)
  | PInf | NInf => PInf
  | NaN => NaN
  end.

(** [Math.min] and [Math.max] of two arguments. *)
Definition min (a b : number) : number :=
  match a, b with
  | NaN, _ | _, NaN => NaN
  | _, _ => if lt b a then b else a
  end.

Definition max (a b : number) : number :=
  match a, b with
  | NaN, _ | _, NaN => NaN
  | _, _ => if lt a b then b else a
  end.

(** [a === b] on numbers; NaN is equal to nothing. *)
Definition eqb (a b : number) : bool :=
  match a, b with
  | Fin x, Fin y => Reqb x y
  | PInf, PInf | NInf, NInf => true
  | _, _ => false
  end.

Definition is_infinite (a : number) : bool :=
  match a with PInf | NInf => true | _ => false end.

(** ToBoolean on a number: zero and NaN are falsy. *)
Definition truthy (a : number) : bool :=
  match a with
  | Fin x => negb (Reqb x 0)
  | PInf | NInf => true
  | NaN => false
  end.

(** [a <= b] and [a >= b]; false as soon as an operand is NaN. *)
Definition le (a b : number) : bool :=
  match a, b with
  | NaN, _ | _, NaN => false
  | _, _ => negb (lt b a)
  end.

Definition ge (a b : number) : bool := le b a.

End Num.

Infix "+" := Num.add : js_scope.
Infix "-" := Num.sub : js_scope.
Infix "*" := Num.mul : js_scope.
Infix "/" := Num.div : js_scope.
Infix "%" := Num.rem (at level 40, left associativity) : js_scope.
Infix "<?" := Num.lt (at level 70) : js_scope.
Infix ">?" := Num.gt (at level 70) : js_scope.

(** ** The [Math] object *)

Module Math.

Local Open Scope R_scope.

Definition PI : number := Fin Rtrigo1.PI.

Definition sin (a : number) : number :=
  match a with Fin x => Fin (Rtrigo_def.sin x) | _ => NaN end.

Definition cos (a : number) : number :=
  match a with Fin x => Fin (Rtrigo_def.cos x) | _ => NaN end.

(** The tangent is the quotient of sine and cosine, infinite at its poles. *)
Definition tan (a : number) : number := Num.div (sin a) (cos a).

Definition asin (a : number) : number :=
  match a with
  | Fin x => if Num.Rltb x (-1) || Num.Rltb 1 x then NaN else Fin (Ratan.asin x)
  | _ => NaN
  end.

Definition acos (a : number) : number :=
  match a with
  | Fin x => if Num.Rltb x (-1) || Num.Rltb 1 x then NaN else Fin (Ratan.acos x)
  | _ => NaN
  end.

(** The angle of the point [(x, y)] in (-PI, PI], for finite coordinates. *)
Definition Ratan2 (y x : R) : R :=
  if Num.Rltb 0 x then atan (y / x)
  else if Num.Rltb x 0 then
    (if Num.Rltb y 0 then atan (y / x) - Rtrigo1.PI else atan (y / x) + Rtrigo1.PI)
  else if Num.Rltb 0 y then Rtrigo1.PI / 2
  else if Num.Rltb y 0 then - (Rtrigo1.PI / 2)
  else 0.

Definition atan2 (y x : number) : number :=
  match y, x with
  | NaN, _ | _, NaN => NaN
  | Fin y, Fin x => Fin (Ratan2 y x)
  | Fin y, PInf => Fin 0
  | Fin y, NInf => if Num.Rltb y 0 then Fin (- Rtrigo1.PI) else Fin Rtrigo1.PI
  | PInf, Fin _ => Fin (Rtrigo1.PI / 2)
  | NInf, Fin _ => Fin (- (Rtrigo1.PI / 2))
  | PInf, PInf => Fin (Rtrigo1.PI / 4)
  | PInf, NInf => Fin (3 * Rtrigo1.PI / 4)
  | NInf, PInf => Fin (- (Rtrigo1.PI / 4))
  | NInf, NInf => Fin (- (3 * Rtrigo1.PI / 4))
  end.

Definition abs := Num.abs.
Definition min := Num.min.
Definition max := Num.max.

(** The nearest integer, a tie going up. *)
Definition round (a : number) : number :=
  match a with
  | Fin x => Fin (IZR (Int_part (x + 0.5)))
  | _ => a
  end.

Definition sqrt (a : number) : number :=
  match a with
  | Fin x => if Num.Rltb x 0 then NaN else Fin (R_sqrt.sqrt x)
  | PInf => PInf
  | _ => NaN
  end.

(** [Math.pow] with an exponent that is a natural number. *)
Fixpoint pow (a : number) (n : nat) : number :=
  match n with
  | O => Fin 1
  | S n' => Num.mul a (pow a n')
  end.

End Math.

(** ** Object literals used as lookup tables

    A property read [o[k]] on an object literal finds the own properties of
    the literal and, failing that, the properties every object inherits from
    [Object.prototype] (built-in functions and the prototype object, all of
    them truthy). *)

Module Obj.

Definition prototype_keys : list string :=
  [ "constructor"; "hasOwnProperty"; "isPrototypeOf"; "propertyIsEnumerable";
    "toLocaleString"; "toString"; "valueOf"; "__proto__";
    "__defineGetter__"; "__defineSetter__"; "__lookupGetter__";
    "__lookupSetter__" ]%string.

Inductive property (A : Type) : Type :=
| Own (a : A)
| Inherited
| Absent.

Arguments Inherited {A}.
Arguments Absent {A}.

Fixpoint own (A : Type) (o : list (string * A)) (k : string) : option A :=
  match o with
  | [] => None
  | (k', v) :: o' => if String.eqb k' k then Some v else own o' k
  end.

Definition inherited (k : string) : bool :=
  existsb (String.eqb k) prototype_keys.

Definition get (A : Type) (o : list (string * A)) (k : string) : property A :=
  match own o k with
  | Some v => Own v
  | None => if inherited k then Inherited else Absent
  end.

(** Reading a numeric field of the result of a lookup: a built-in has no
    such field, the read gives [undefined], which arithmetic turns into
    NaN. *)
Definition field (A : Type) (p : property A) (f : A -> number) : number :=
  match p with
  | Own a => f a
  | _ => NaN
  end.

End Obj.

(** ** Arrays and strings

    An element read [a[index]] with a number as index finds an element
    when the number is a non-negative integer below the length, and gives
    [undefined] ([None]) for every other number. *)

Module Arr.

Definition get (A : Type) (a : list A) (index : number) : option A :=
  match index with
  | Fin x =>
      if Num.Reqb x (IZR (Int_part x)) && negb (Num.Rltb x 0)
      then nth_error a (Z.to_nat (Int_part x))
      else None
  | _ => None
  end.

(** [a.slice(0, n)]. *)
Definition slice_0 (A : Type) (n : nat) (a : list A) : list A := firstn n a.

End Arr.

Module Str.

Local Open Scope string_scope.

Fixpoint drop (n : nat) (s : string) : string :=
  match n, s with
  | S n', String _ s' => drop n' s'
  | _, _ => s
  end.

(** [s.replace(pattern, replacement)] for a string pattern and a
    replacement without [$]: the first occurrence is replaced. *)
Fixpoint replace (pattern replacement s : string) : string :=
  if String.prefix pattern s
  then replacement ++ drop (String.length pattern) s
  else match s with
       | EmptyString => s
       | String c s' => String c (replace pattern replacement s')
       end.

End Str.

(** A value that is either a number or one of the built-ins of
    [Object.prototype], named by its key. *)
Inductive jsval : Type :=
| Num (x : number)
| Builtin (key : string).

(** ToNumber. *)
Definition to_number (v : jsval) : number :=
  match v with
  | Num x => x
  | Builtin _ => NaN
  end.

(** ** class Astronomy *)

Module Astronomy.

Local Open Scope string_scope.
Local Open Scope R_scope.
Local Open Scope js_scope.

Definition J2000 : number := 2451545.0.

Definition deg2rad (deg : number) : number := deg * Math.PI / 180.

Definition rad2deg (rad : number) : number := rad * 180 / Math.PI.

(** [time] is [date.getTime()], in milliseconds. *)
Definition getJulianDate (time : number) : number :=
  (time / 86400000) + 2440587.5.

Definition getLocalSiderealTime (jd longitude : number) : number :=
  let T := (jd - J2000) / 36525 in
  let theta0 := 280.46061837 + 360.98564736629 * (jd - J2000) +
                0.000387933 * T * T - T * T * T / 38710000 in
  let lst := (theta0 + longitude) % 360 in
  if lst <? 0 then lst + 360 else lst.

Record horizontal : Type := { altitude : number; azimuth : number }.

Definition equatorialToHorizontal (ra dec lat lon jd : number) : horizontal :=
  let lst := getLocalSiderealTime jd lon in
  let ha := lst - ra in
  let latRad := deg2rad lat in
  let haRad := deg2rad ha in
  let decRad := deg2rad dec in
  let sinAlt := Math.sin decRad * Math.sin latRad +
                Math.cos decRad * Math.cos latRad * Math.cos haRad in
  let altitude := rad2deg (Math.asin sinAlt) in
  let cosAz := (Math.sin decRad - Math.sin latRad * sinAlt) /
               (Math.cos latRad * Math.cos (Math.asin sinAlt)) in
  let azimuth := rad2deg (Math.acos (Math.max (-1) (Math.min 1 cosAz))) in
  let azimuth := if Math.sin haRad >? 0 then 360 - azimuth else azimuth in
  {| altitude := altitude; azimuth := azimuth |}.

Record equatorial : Type := { ra : number; dec : number }.

Definition getSunPosition (jd : number) : equatorial :=
  let n := jd - J2000 in
  let L := (280.460 + 0.9856474 * n) % 360 in
  let g := deg2rad ((357.528 + 0.9856003 * n) % 360) in
  let lambda := L + 1.915 * Math.sin g + 0.020 * Math.sin (2 * g) in
  let epsilon := 23.439 - 0.0000004 * n in
  let ra := rad2deg (Math.atan2
              (Math.cos (deg2rad epsilon) * Math.sin (deg2rad lambda))
              (Math.cos (deg2rad lambda))) in
  let dec := rad2deg (Math.asin
              (Math.sin (deg2rad epsilon) * Math.sin (deg2rad lambda))) in
  {| ra := (ra + 360) % 360; dec := dec |}.

Definition getMoonPosition (jd : number) : equatorial :=
  let n := jd - J2000 in
  let L := (218.316 + 13.176396 * n) % 360 in
  let M := (134.963 + 13.064993 * n) % 360 in
  let F := (93.272 + 13.229350 * n) % 360 in
  let lambda := L + 6.289 * Math.sin (deg2rad M) in
  let beta := 5.128 * Math.sin (deg2rad F) in
  let epsilon := 23.439 - 0.0000004 * n in
  let ra := rad2deg (Math.atan2
              (Math.sin (deg2rad lambda) * Math.cos (deg2rad epsilon) -
               Math.tan (deg2rad beta) * Math.sin (deg2rad epsilon))
              (Math.cos (deg2rad lambda))) in
  let dec := rad2deg (Math.asin
              (Math.sin (deg2rad beta) * Math.cos (deg2rad epsilon) +
               Math.cos (deg2rad beta) * Math.sin (deg2rad epsilon) *
               Math.sin (deg2rad lambda))) in
  {| ra := (ra + 360) % 360; dec := dec |}.

Definition getMoonPhase (jd : number) : number :=
  let sun := getSunPosition jd in
  let moon := getMoonPosition jd in
  let phase := ra moon - ra sun in
  let phase := if phase <? 0 then phase + 360 else phase in
  let illumination := (1 - Math.cos (deg2rad phase)) / 2 in
  illumination.

(** Mean orbital elements of a planet. *)
Record elements : Type :=
  { L0 : number; w : number; i : number; a : number; e : number }.

Definition planets : list (string * elements) :=
  [ ("Mercury", {| L0 := 252.25; w := 4.09233; i := 7.00; a := 0.387; e := 0.206 |});
    ("Venus", {| L0 := 181.98; w := 1.60214; i := 3.39; a := 0.723; e := 0.007 |});
    ("Mars", {| L0 := 355.43; w := 0.52407; i := 1.85; a := 1.524; e := 0.093 |});
    ("Jupiter", {| L0 := 34.35; w := 0.08309; i := 1.31; a := 5.203; e := 0.048 |});
    ("Saturn", {| L0 := 50.08; w := 0.03346; i := 2.49; a := 9.537; e := 0.054 |}) ].

Definition magnitudes : list (string * number) :=
  [ ("Mercury", Fin 0.0);
    ("Venus", Fin (-4.0));
    ("Mars", Fin 0.5);
    ("Jupiter", Fin (-2.5));
    ("Saturn", Fin 0.5) ].

(** [magnitudes[planet] || 5]. *)
Definition getPlanetMagnitude (planet : string) : jsval :=
  match Obj.get magnitudes planet with
  | Obj.Own m => if Num.truthy m then Num m else Num 5
  | Obj.Inherited => Builtin planet
  | Obj.Absent => Num 5
  end.

Record position : Type :=
  { pos_ra : number; pos_dec : number; pos_magnitude : jsval }.

(** [None] is the [null] returned when [!planets[planet]]. *)
Definition getPlanetPosition (planet : string) (jd : number) : option position :=
  let n := jd - J2000 in
  match Obj.get planets planet with
  | Obj.Absent => None
  | p =>
      let L := (Obj.field p L0 + Obj.field p w * n) % 360 in
      let M := deg2rad L in
      let ra := L in
      let dec := Math.sin (deg2rad (Obj.field p i)) * Math.sin M * 10 in
      Some {| pos_ra := ra; pos_dec := dec;
              pos_magnitude := getPlanetMagnitude planet |}
  end.

End Astronomy.

(** ** The star catalog and the constellation lines *)

Module Star.

(** A record of [getStars()]; [altitude] and [azimuth] are the two fields
    [NightSkyApp.calculateVisibleObjects] stores on it, absent until
    then. *)
Record t : Type :=
  { id : nat;
    name : string;
    ra : number;
    dec : number;
    magnitude : number;
    spectralClass : string;
    altitude : option number;
    azimuth : option number }.

End Star.

Section Catalog.

Local Open Scope string_scope.
Local Open Scope R_scope.

(** Format: [name, RA (hours), Dec (degrees), magnitude, spectral class]. *)
Definition STAR_CATALOG : list (string * number * number * number * string) :=
  [ ("Sirius", Fin 6.752, Fin (-16.716), Fin (-1.46), "A1V");
    ("Canopus", Fin 6.399, Fin (-52.696), Fin (-0.72), "F0Ib");
    ("Arcturus", Fin 14.261, Fin 19.182, Fin (-0.04), "K1.5III");
    ("Rigel Kentaurus", Fin 14.661, Fin (-60.833), Fin (-0.01), "G2V");
    ("Vega", Fin 18.615, Fin 38.783, Fin 0.03, "A0V");
    ("Capella", Fin 5.278, Fin 45.998, Fin 0.08, "G8III");
    ("Rigel", Fin 5.242, Fin (-8.202), Fin 0.12, "B8Ia");
    ("Procyon", Fin 7.655, Fin 5.225, Fin 0.38, "F5IV");
    ("Achernar", Fin 1.629, Fin (-57.237), Fin 0.46, "B3V");
    ("Betelgeuse", Fin 5.919, Fin 7.407, Fin 0.50, "M2Iab");
    ("Hadar", Fin 14.063, Fin (-60.373), Fin 0.61, "B1III");
    ("Altair", Fin 19.846, Fin 8.868, Fin 0.77, "A7V");
    ("Aldebaran", Fin 4.599, Fin 16.509, Fin 0.85, "K5III");
    ("Spica", Fin 13.420, Fin (-11.161), Fin 1.04, "B1V");
    ("Antares", Fin 16.490, Fin (-26.432), Fin 1.09, "M1.5Iab");
    ("Pollux", Fin 7.755, Fin 28.026, Fin 1.14, "K0III");
    ("Fomalhaut", Fin 22.961, Fin (-29.622), Fin 1.16, "A3V");
    ("Deneb", Fin 20.690, Fin 45.280, Fin 1.25, "A2Ia");
    ("Mimosa", Fin 12.795, Fin (-59.689), Fin 1.30, "B0.5III");
    ("Regulus", Fin 10.139, Fin 11.967, Fin 1.35, "B7V");
    ("Adhara", Fin 6.977, Fin (-28.972), Fin 1.50, "B2II");
    ("Castor", Fin 7.577, Fin 31.888, Fin 1.57, "A1V");
    ("Shaula", Fin 17.560, Fin (-37.104), Fin 1.62, "B2IV");
    ("Bellatrix", Fin 5.419, Fin 6.350, Fin 1.64, "B2III");
    ("Elnath", Fin 5.438, Fin 28.608, Fin 1.65, "B7III");
    ("Miaplacidus", Fin 9.220, Fin (-69.717), Fin 1.68, "A2IV");
    ("Alnilam", Fin 5.603, Fin (-1.202), Fin 1.69, "B0Ia");
    ("Alnitak", Fin 5.679, Fin (-1.943), Fin 1.70, "O9Ib");
    ("Alnair", Fin 22.137, Fin (-46.961), Fin 1.74, "B7IV");
    ("Alioth", Fin 12.900, Fin 55.960, Fin 1.77, "A0pCr");
    ("Dubhe", Fin 11.062, Fin 61.751, Fin 1.79, "K1III");
    ("Mirfak", Fin 3.405, Fin 49.861, Fin 1.79, "F5Ib");
    ("Wezen", Fin 7.140, Fin (-26.393), Fin 1.84, "F8Ia");
    ("Alkaid", Fin 13.792, Fin 49.313, Fin 1.86, "B3V");
    ("Sargas", Fin 17.621, Fin (-42.998), Fin 1.87, "F1II");
    ("Avior", Fin 8.375, Fin (-59.509), Fin 1.86, "K3III");
    ("Menkalinan", Fin 6.008, Fin 44.947, Fin 1.90, "A2V");
    ("Atria", Fin 16.811, Fin (-69.028), Fin 1.92, "K2IIb");
    ("Alhena", Fin 6.628, Fin 16.399, Fin 1.93, "A0IV");
    ("Peacock", Fin 20.427, Fin (-56.735), Fin 1.94, "B2IV");
    ("Polaris", Fin 2.530, Fin 89.264, Fin 1.98, "F7Ib");
    ("Mirzam", Fin 6.378, Fin (-17.956), Fin 1.98, "B1II");
    ("Alphard", Fin 9.460, Fin (-8.659), Fin 1.98, "K3II");
    ("Hamal", Fin 2.120, Fin 23.462, Fin 2.00, "K2III");
    ("Kaus Australis", Fin 18.403, Fin (-34.385), Fin 2.02, "B9.5III");
    ("Algieba", Fin 10.332, Fin 19.842, Fin 2.08, "K1III");
    ("Diphda", Fin 0.726, Fin (-17.987), Fin 2.04, "K0III");
    ("Nunki", Fin 18.921, Fin (-26.297), Fin 2.05, "B2.5V");
    ("Mizar", Fin 13.397, Fin 54.925, Fin 2.04, "A2V");
    ("Scheat", Fin 23.063, Fin 28.083, Fin 2.42, "M2.5II") ].

(** Constellation lines (connecting stars by their catalog positions). *)
Definition CONSTELLATIONS : list (string * list (list nat)) :=
  [ ("Ursa Major", [[0; 30]; [30; 33]; [33; 29]; [29; 0]; [30; 48]]);
    ("Orion", [[6; 9; 24]; [24; 26; 27]; [9; 26]]);
    ("Cassiopeia", [[40; 41; 46; 50; 51]]);
    ("Leo", [[19; 44]]);
    ("Scorpius", [[14; 43; 23]]) ]%nat.

Definition raHoursToDegrees (hours : number) : number := (hours * 15)%js.

(** [Array.prototype.map] with the index passed to the callback. *)
Fixpoint mapi_from (A B : Type) (f : A -> nat -> B) (k : nat) (l : list A) : list B :=
  match l with
  | [] => []
  | x :: l' => f x k :: mapi_from f (S k) l'
  end.

Definition mapi (A B : Type) (f : A -> nat -> B) (l : list A) : list B :=
  mapi_from f 0 l.

Definition getStars : list Star.t :=
  mapi (fun star index =>
          let '(name, ra, dec, magnitude, spectralClass) := star in
          {| Star.id := index;
             Star.name := name;
             Star.ra := raHoursToDegrees ra;
             Star.dec := dec;
             Star.magnitude := magnitude;
             Star.spectralClass := spectralClass;
             Star.altitude := None;
             Star.azimuth := None |})
       STAR_CATALOG.

End Catalog.

(** ** The objects of a query result *)

Module SkyObject.

Inductive kind : Type := star | planet | moon.

(** The object literals pushed by the facades: [phase] is present on the
    Moon only, [spectralClass] and [catalogIndex] on the stars of the sky
    map only. *)
Record t : Type :=
  { type : kind;
    name : string;
    magnitude : jsval;
    phase : option number;
    spectralClass : option string;
    altitude : number;
    azimuth : number;
    catalogIndex : option nat }.

(** The comparator [(a, b) => a.magnitude - b.magnitude]. *)
Definition byMagnitude (a b : t) : number :=
  (to_number (magnitude a) - to_number (magnitude b))%js.

(** [a.type === b] on the three kinds. *)
Definition kind_eqb (a b : kind) : bool :=
  match a, b with
  | star, star | planet, planet | moon, moon => true
  | _, _ => false
  end.

End SkyObject.

(** ** [Array.prototype.sort]

    The sort is stable; an element [x] goes behind [y] exactly when
    [compareFn(x, y) > 0] (a NaN result counts as zero).  It is modelled as
    insertion into the sorted tail; the algorithm is left to the
    implementation, which for a comparator that orders the elements
    consistently can only return this same list ([sort_unique] below). *)

Section Sort.

Variable A : Type.
Variable compareFn : A -> A -> number.

Fixpoint insert (x : A) (l : list A) : list A :=
  match l with
  | [] => [x]
  | y :: l' => if (compareFn x y >? 0%R)%js then y :: insert x l' else x :: l
  end.

Fixpoint sort (l : list A) : list A :=
  match l with
  | [] => []
  | x :: l' => insert x (sort l')
  end.

End Sort.

(** ** Loops over an array whose body may not return

    [forEach f l] runs the body [f] on every element in order; the body
    gives back the element as it leaves it and the objects it pushed, or
    [None] when it does not return. *)

Section ForEach.

Variables A B : Type.
Variable f : A -> option (A * list B).

Fixpoint forEach (l : list A) : option (list A * list B) :=
  match l with
  | [] => Some ([], [])
  | x :: l' =>
      match f x with
      | None => None
      | Some (x', pushed) =>
          match forEach l' with
          | None => None
          | Some (l'', pushed') => Some (x' :: l'', pushed ++ pushed')
          end
      end
  end.

End ForEach.

(** ** The drawing context

    A draw method is modelled by the calls it makes on the 2D context, in
    order; an assignment to a property of the context counts as a call. *)

Module Canvas.

Record t : Type := { width : number; height : number }.

(** A text drawn: a fixed string or a name, or the label of the Moon,
    built from the rounded percentage. *)
Inductive text : Type :=
| Plain (s : string)
| MoonLabel (phasePercent : number).

(** A font: a fixed CSS string, or the bold Arial of a computed size. *)
Inductive fontspec : Type :=
| Font (css : string)
| BoldArial (px : number).

Inductive call : Type :=
| fillStyle (style : string)
| fillGradient
| strokeStyle (style : string)
| lineWidth (w : number)
| font (f : fontspec)
| textAlign (a : string)
| createRadialGradient (x0 y0 r0 x1 y1 r1 : number)
| addColorStop (offset : number) (color : string)
| fillRect (x y w h : number)
| beginPath
| moveTo (x y : number)
| lineTo (x y : number)
| stroke
| arc (x y radius startAngle endAngle : number)
| ellipse (x y radiusX radiusY rotation startAngle endAngle : number)
| fill
| fillText (t : text) (x y : number).

End Canvas.

(** A loop whose body makes calls, and may not return. *)
Section ForEachCall.

Variables A B : Type.
Variable f : A -> option (list B).

Fixpoint forEachCall (l : list A) : option (list B) :=
  match l with
  | [] => Some []
  | x :: l' =>
      match f x with
      | None => None
      | Some calls =>
          match forEachCall l' with
          | None => None
          | Some calls' => Some (calls ++ calls')
          end
      end
  end.

End ForEachCall.

(** ** class NightSkyApp (app.js) *)

Module NightSkyApp.

Import Astronomy.
Local Open Scope string_scope.
Local Open Scope R_scope.
Local Open Scope js_scope.

Record t : Type :=
  { latitude : number;
    longitude : number;
    alpha : number;
    beta : number;
    gamma : number;
    compassOffset : number;
    fov : number;
    stars : list Star.t;
    planets : list string;
    visibleObjects : list SkyObject.t }.

(** [while (diff > 180) diff -= 360], at most [fuel] rounds. *)
Fixpoint while_above (fuel : nat) (diff : number) : option number :=
  if diff >? 180 then
    match fuel with
    | O => None
    | S fuel' => while_above fuel' (diff - 360)
    end
  else Some diff.

(** [while (diff < -180) diff += 360], at most [fuel] rounds. *)
Fixpoint while_below (fuel : nat) (diff : number) : option number :=
  if diff <? -180 then
    match fuel with
    | O => None
    | S fuel' => while_below fuel' (diff + 360)
    end
  else Some diff.

Definition angleDifference_fuel (fuel : nat) (a b : number) : option number :=
  let diff := a - b in
  match while_above fuel diff with
  | None => None
  | Some diff => while_below fuel diff
  end.

(** A number of rounds after which the loops have left a finite [diff]. *)
Definition rounds (diff : number) : nat :=
  match diff with
  | Fin x => S (Z.to_nat (up (Rabs x / 360)))
  | _ => O
  end.

(** [None] when the loops do not terminate. *)
Definition angleDifference (a b : number) : option number :=
  angleDifference_fuel (rounds (a - b)) a b.

(** The test shared by the three kinds of body: above the horizon and in
    the field of view.  [angleDifference] is only called once the altitude
    test has passed. *)
Definition inView (app : t) (viewAzimuth viewAltitude : number)
    (pos : horizontal) : option bool :=
  if altitude pos >? 0 then
    match angleDifference (azimuth pos) viewAzimuth with
    | None => None
    | Some d =>
        let azDiff := Math.abs d in
        let altDiff := Math.abs (altitude pos - viewAltitude) in
        Some ((azDiff <? fov app) && (altDiff <? fov app))
    end
  else Some false.

(** The object pushed for a star: [{type, name, magnitude, ...pos}]. *)
Definition starObject (star : Star.t) (pos : horizontal) : SkyObject.t :=
  {| SkyObject.type := SkyObject.star;
     SkyObject.name := Star.name star;
     SkyObject.magnitude := Num (Star.magnitude star);
     SkyObject.phase := None;
     SkyObject.spectralClass := None;
     SkyObject.altitude := altitude pos;
     SkyObject.azimuth := azimuth pos;
     SkyObject.catalogIndex := None |}.

Definition planetObject (planetName : string) (planet : position)
    (pos : horizontal) : SkyObject.t :=
  {| SkyObject.type := SkyObject.planet;
     SkyObject.name := planetName;
     SkyObject.magnitude := pos_magnitude planet;
     SkyObject.phase := None;
     SkyObject.spectralClass := None;
     SkyObject.altitude := altitude pos;
     SkyObject.azimuth := azimuth pos;
     SkyObject.catalogIndex := None |}.

Definition moonObject (phase : number) (moonPos : horizontal) : SkyObject.t :=
  {| SkyObject.type := SkyObject.moon;
     SkyObject.name := "Moon";
     SkyObject.magnitude := Num (-12.74);
     SkyObject.phase := Some phase;
     SkyObject.spectralClass := None;
     SkyObject.altitude := altitude moonPos;
     SkyObject.azimuth := azimuth moonPos;
     SkyObject.catalogIndex := None |}.

(** The star with [star.altitude] and [star.azimuth] assigned. *)
Definition observed (star : Star.t) (pos : horizontal) : Star.t :=
  {| Star.id := Star.id star;
     Star.name := Star.name star;
     Star.ra := Star.ra star;
     Star.dec := Star.dec star;
     Star.magnitude := Star.magnitude star;
     Star.spectralClass := Star.spectralClass star;
     Star.altitude := Some (altitude pos);
     Star.azimuth := Some (azimuth pos) |}.

Definition checkStar (app : t) (jd viewAzimuth viewAltitude : number)
    (star : Star.t) : option (Star.t * list SkyObject.t) :=
  let pos := equatorialToHorizontal
               (Star.ra star) (Star.dec star) (latitude app) (longitude app) jd in
  let star := observed star pos in
  match inView app viewAzimuth viewAltitude pos with
  | None => None
  | Some true => Some (star, [starObject star pos])
  | Some false => Some (star, [])
  end.

Definition checkPlanet (app : t) (jd viewAzimuth viewAltitude : number)
    (planetName : string) : option (string * list SkyObject.t) :=
  match getPlanetPosition planetName jd with
  | Some planet =>
      let pos := equatorialToHorizontal
                   (pos_ra planet) (pos_dec planet) (latitude app) (longitude app) jd in
      match inView app viewAzimuth viewAltitude pos with
      | None => None
      | Some true => Some (planetName, [planetObject planetName planet pos])
      | Some false => Some (planetName, [])
      end
  | None => Some (planetName, [])
  end.

Definition checkMoon (app : t) (jd viewAzimuth viewAltitude : number)
    : option (list SkyObject.t) :=
  let moon := getMoonPosition jd in
  let moonPos := equatorialToHorizontal
                   (ra moon) (dec moon) (latitude app) (longitude app) jd in
  match inView app viewAzimuth viewAltitude moonPos with
  | None => None
  | Some true =>
      let phase := getMoonPhase jd in
      Some [moonObject phase moonPos]
  | Some false => Some []
  end.

(** [now] is the value of [new Date().getTime()] when the method runs.
    The result is the application object as the method leaves it, [None]
    when it does not return. *)
Definition calculateVisibleObjects (now : number) (app : t) : option t :=
  let jd := getJulianDate now in
  let viewAzimuth := (alpha app + compassOffset app) % 360 in
  let viewAltitude := 90 - Math.abs (beta app) in
  match forEach (checkStar app jd viewAzimuth viewAltitude) (stars app) with
  | None => None
  | Some (stars', fromStars) =>
      match forEach (checkPlanet app jd viewAzimuth viewAltitude) (planets app) with
      | None => None
      | Some (planets', fromPlanets) =>
          match checkMoon app jd viewAzimuth viewAltitude with
          | None => None
          | Some fromMoon =>
              Some {| latitude := latitude app;
                      longitude := longitude app;
                      alpha := alpha app;
                      beta := beta app;
                      gamma := gamma app;
                      compassOffset := compassOffset app;
                      fov := fov app;
                      stars := stars';
                      planets := planets';
                      visibleObjects :=
                        sort SkyObject.byMagnitude
                             (fromStars ++ fromPlanets ++ fromMoon) |}
          end
      end
  end.

(** The object after the constructor and [initialize]: located at
    [(lat, lon)], catalog loaded, nothing computed yet. *)
Definition initial (lat lon : number) : t :=
  {| latitude := lat;
     longitude := lon;
     alpha := 0;
     beta := 0;
     gamma := 0;
     compassOffset := 0;
     fov := 60;
     stars := getStars;
     planets := ["Mercury"; "Venus"; "Mars"; "Jupiter"; "Saturn"];
     visibleObjects := [] |}.

(** *** The compass label and the drawing methods *)

Local Open Scope list_scope.

(** [None] is [undefined]. *)
Definition getCompassDirection (degrees : number) : option string :=
  let directions := ["N"; "NE"; "E"; "SE"; "S"; "SW"; "W"; "NW"] in
  let index := Math.round ((degrees % 360) / 45) % 8 in
  Arr.get directions index.

(** A field of a star record read as a number: [undefined] gives NaN. *)
Definition stored (field : option number) : number :=
  match field with
  | Some x => x
  | None => NaN
  end.

(** The map to screen coordinates, written out in each draw method. *)
Definition screenX (app : t) (canvas : Canvas.t) (azDiff : number) : number :=
  Canvas.width canvas / 2 + (azDiff / fov app) * Canvas.width canvas.

Definition screenY (app : t) (canvas : Canvas.t) (altDiff : number) : number :=
  Canvas.height canvas / 2 - (altDiff / fov app) * Canvas.height canvas.

Definition colors : list (string * string) :=
  [ ("O", "rgba(155, 176, 255, 1)");
    ("B", "rgba(170, 191, 255, 1)");
    ("A", "rgba(202, 215, 255, 1)");
    ("F", "rgba(248, 247, 255, 1)");
    ("G", "rgba(255, 244, 234, 1)");
    ("K", "rgba(255, 210, 161, 1)");
    ("M", "rgba(255, 204, 111, 1)") ].

(** [type] is one character, so [colors[type]] is an own property or
    nothing: no key of [Object.prototype] is that short. *)
Definition getStarColor (spectralClass : string) : string :=
  let type := match spectralClass with
              | EmptyString => "A"
              | String c _ => String c EmptyString
              end in
  match Obj.own colors type with
  | Some color => color
  | None => "rgba(255, 255, 255, 1)"
  end.

(** The body of the loop of [drawStars]. *)
Definition drawStar (app : t) (canvas : Canvas.t) (viewAzimuth viewAltitude : number)
    (star : Star.t) : option (list Canvas.call) :=
  if stored (Star.altitude star) >? 0 then
    match angleDifference (stored (Star.azimuth star)) viewAzimuth with
    | None => None
    | Some azDiff =>
        let altDiff := stored (Star.altitude star) - viewAltitude in
        if (Math.abs azDiff <? fov app) && (Math.abs altDiff <? fov app) then
          let x := screenX app canvas azDiff in
          let y := screenY app canvas altDiff in
          let size := Math.max 1 (5 - Star.magnitude star) in
          let color := getStarColor (Star.spectralClass star) in
          Some ([ Canvas.fillStyle color; Canvas.beginPath;
                  Canvas.arc x y size 0 (Math.PI * 2); Canvas.fill ] ++
                if Star.magnitude star <? 1.5 then
                  [ Canvas.fillStyle (Str.replace "1)" "0.3)" color); Canvas.beginPath;
                    Canvas.arc x y (size * 2) 0 (Math.PI * 2); Canvas.fill;
                    Canvas.fillStyle "#fff"; Canvas.font (Canvas.Font "12px Arial");
                    Canvas.fillText (Canvas.Plain (Star.name star)) (x + size + 5) (y - 5) ]
                else [])
        else Some []
    end
  else Some [].

Definition drawStars (app : t) (canvas : Canvas.t) : option (list Canvas.call) :=
  let viewAzimuth := (alpha app + compassOffset app) % 360 in
  let viewAltitude := 90 - Math.abs (beta app) in
  forEachCall (drawStar app canvas viewAzimuth viewAltitude) (stars app).

(** One star index of a constellation line: [started] tells whether the
    path has its first point. *)
Definition drawVertex (app : t) (canvas : Canvas.t) (viewAzimuth viewAltitude : number)
    (started : bool) (starIndex : nat) : option (bool * list Canvas.call) :=
  match nth_error (stars app) starIndex with
  | None => Some (started, [])
  | Some star =>
      if Num.le (stored (Star.altitude star)) 0 then Some (started, [])
      else
        match angleDifference (stored (Star.azimuth star)) viewAzimuth with
        | None => None
        | Some azDiff =>
            let altDiff := stored (Star.altitude star) - viewAltitude in
            if (Math.abs azDiff <? fov app) && (Math.abs altDiff <? fov app) then
              let x := screenX app canvas azDiff in
              let y := screenY app canvas altDiff in
              if started then Some (true, [Canvas.lineTo x y])
              else Some (true, [Canvas.moveTo x y])
            else Some (started, [])
        end
  end.

Fixpoint drawVertices (app : t) (canvas : Canvas.t) (viewAzimuth viewAltitude : number)
    (started : bool) (line : list nat) : option (list Canvas.call) :=
  match line with
  | [] => Some []
  | starIndex :: line' =>
      match drawVertex app canvas viewAzimuth viewAltitude started starIndex with
      | None => None
      | Some (started', calls) =>
          match drawVertices app canvas viewAzimuth viewAltitude started' line' with
          | None => None
          | Some calls' => Some (calls ++ calls')
          end
      end
  end.

Definition drawLine (app : t) (canvas : Canvas.t) (viewAzimuth viewAltitude : number)
    (line : list nat) : option (list Canvas.call) :=
  match drawVertices app canvas viewAzimuth viewAltitude false line with
  | None => None
  | Some calls => Some ([Canvas.beginPath] ++ calls ++ [Canvas.stroke])
  end.

Definition drawConstellations (app : t) (canvas : Canvas.t) : option (list Canvas.call) :=
  let viewAzimuth := (alpha app + compassOffset app) % 360 in
  let viewAltitude := 90 - Math.abs (beta app) in
  match forEachCall
          (fun entry : string * list (list nat) =>
             forEachCall (drawLine app canvas viewAzimuth viewAltitude) (snd entry))
          CONSTELLATIONS with
  | None => None
  | Some calls =>
      Some ([Canvas.strokeStyle "rgba(135, 206, 235, 0.3)"; Canvas.lineWidth 1] ++ calls)
  end.

Definition drawPlanet (app : t) (canvas : Canvas.t) (planet : SkyObject.t)
    : option (list Canvas.call) :=
  let viewAzimuth := (alpha app + compassOffset app) % 360 in
  let viewAltitude := 90 - Math.abs (beta app) in
  match angleDifference (SkyObject.azimuth planet) viewAzimuth with
  | None => None
  | Some azDiff =>
      let altDiff := SkyObject.altitude planet - viewAltitude in
      let x := screenX app canvas azDiff in
      let y := screenY app canvas altDiff in
      Some [ Canvas.fillStyle "#FFD700"; Canvas.beginPath;
             Canvas.arc x y 6 0 (Math.PI * 2); Canvas.fill;
             Canvas.fillStyle "rgba(255, 215, 0, 0.3)"; Canvas.beginPath;
             Canvas.arc x y 12 0 (Math.PI * 2); Canvas.fill;
             Canvas.fillStyle "#FFD700"; Canvas.font (Canvas.Font "bold 14px Arial");
             Canvas.fillText (Canvas.Plain (SkyObject.name planet)) (x + 10) (y - 10) ]
  end.

Definition drawPlanets (app : t) (canvas : Canvas.t) : option (list Canvas.call) :=
  forEachCall (drawPlanet app canvas)
    (filter (fun obj => SkyObject.kind_eqb (SkyObject.type obj) SkyObject.planet)
            (visibleObjects app)).

Definition drawMoon (app : t) (canvas : Canvas.t) : option (list Canvas.call) :=
  match find (fun obj => SkyObject.kind_eqb (SkyObject.type obj) SkyObject.moon)
             (visibleObjects app) with
  | None => Some []
  | Some moon =>
      let viewAzimuth := (alpha app + compassOffset app) % 360 in
      let viewAltitude := 90 - Math.abs (beta app) in
      match angleDifference (SkyObject.azimuth moon) viewAzimuth with
      | None => None
      | Some azDiff =>
          let altDiff := SkyObject.altitude moon - viewAltitude in
          let x := screenX app canvas azDiff in
          let y := screenY app canvas altDiff in
          let radius := 10 in
          let phase := stored (SkyObject.phase moon) in
          Some ([ Canvas.fillStyle "#E0E0E0"; Canvas.beginPath;
                  Canvas.arc x y radius 0 (Math.PI * 2); Canvas.fill ] ++
                (if phase <? 0.99 then
                   let shadowWidth := radius * 2 * (1 - phase) in
                   [ Canvas.fillStyle "#000"; Canvas.beginPath;
                     Canvas.ellipse x y shadowWidth radius 0 0 (Math.PI * 2);
                     Canvas.fill ]
                 else []) ++
                [ Canvas.fillStyle "rgba(224, 224, 224, 0.2)"; Canvas.beginPath;
                  Canvas.arc x y (radius * 2) 0 (Math.PI * 2); Canvas.fill;
                  Canvas.fillStyle "#fff"; Canvas.font (Canvas.Font "bold 14px Arial");
                  Canvas.fillText (Canvas.MoonLabel (Math.round (phase * 100)))
                                  (x + 15) (y - 15) ])
      end
  end.

(** A line of the object panel, by the values the template shows: the
    magnitude is shown for a star only. *)
Record row : Type :=
  { icon : SkyObject.kind;
    label : string;
    direction : option string;
    azimuthShown : number;
    altitudeShown : number;
    magnitudeShown : option jsval }.

(** The lines of the panel; [None] when the panel shows the hint to point
    at the sky instead. *)
Definition updateObjectInfo (app : t) : option (list row) :=
  match visibleObjects app with
  | [] => None
  | _ =>
      let topObjects := Arr.slice_0 10 (visibleObjects app) in
      Some (map (fun obj =>
                   {| icon := SkyObject.type obj;
                      label := SkyObject.name obj;
                      direction := getCompassDirection (SkyObject.azimuth obj);
                      azimuthShown := Math.round (SkyObject.azimuth obj);
                      altitudeShown := Math.round (SkyObject.altitude obj);
                      magnitudeShown :=
                        if SkyObject.kind_eqb (SkyObject.type obj) SkyObject.star
                        then Some (SkyObject.magnitude obj) else None |})
                topObjects)
  end.

Definition drawSkyGradient (canvas : Canvas.t) : list Canvas.call :=
  [ Canvas.createRadialGradient
      (Canvas.width canvas / 2) (Canvas.height canvas) 0
      (Canvas.width canvas / 2) (Canvas.height canvas) (Canvas.height canvas);
    Canvas.addColorStop 0 "rgba(27, 39, 53, 0.3)";
    Canvas.addColorStop 1 "rgba(9, 10, 15, 0)";
    Canvas.fillGradient;
    Canvas.fillRect 0 0 (Canvas.width canvas) (Canvas.height canvas) ].

(** One frame: the object as the frame leaves it, the calls on the
    context and the lines of the panel; [None] when the frame does not
    return. *)
Definition render (now : number) (canvas : Canvas.t) (app : t)
    : option (t * list Canvas.call * option (list row)) :=
  match calculateVisibleObjects now app with
  | None => None
  | Some app' =>
      match drawStars app' canvas with
      | None => None
      | Some fromStars =>
          match drawConstellations app' canvas with
          | None => None
          | Some fromConstellations =>
              match drawPlanets app' canvas with
              | None => None
              | Some fromPlanets =>
                  match drawMoon app' canvas with
                  | None => None
                  | Some fromMoon =>
                      Some (app',
                            [ Canvas.fillStyle "#000";
                              Canvas.fillRect 0 0 (Canvas.width canvas)
                                              (Canvas.height canvas) ] ++
                            drawSkyGradient canvas ++ fromStars ++ fromConstellations ++
                            fromPlanets ++ fromMoon,
                            updateObjectInfo app')
                  end
              end
          end
      end
  end.

End NightSkyApp.

(** ** Records of the sky map *)

(** An entry of [constellationsInView]. *)
Module ConstellationInView.

Record t : Type :=
  { name : string;
    visibility : number;
    starsVisible : nat }.

(** The comparator [(a, b) => b.visibility - a.visibility]. *)
Definition byVisibility (a b : t) : number :=
  (visibility b - visibility a)%js.

End ConstellationInView.

(** A touch point of a touch event. *)
Module Touch.

Record t : Type := { clientX : number; clientY : number }.

End Touch.

(** A position on the screen. *)
Module Screen.

Record t : Type := { x : number; y : number }.

End Screen.

(** ** class NightSkyMapZoom (the zoomable sky map) *)

Module NightSkyMapZoom.

Import Astronomy.
Local Open Scope string_scope.
Local Open Scope R_scope.
Local Open Scope js_scope.

Record t : Type :=
  { latitude : number;
    longitude : number;
    stars : list Star.t;
    planets : list string;
    allObjects : list SkyObject.t }.

Definition starObject (star : Star.t) (pos : horizontal) : SkyObject.t :=
  {| SkyObject.type := SkyObject.star;
     SkyObject.name := Star.name star;
     SkyObject.magnitude := Num (Star.magnitude star);
     SkyObject.phase := None;
     SkyObject.spectralClass := Some (Star.spectralClass star);
     SkyObject.altitude := altitude pos;
     SkyObject.azimuth := azimuth pos;
     SkyObject.catalogIndex := Some (Star.id star) |}.

Definition planetObject (planetName : string) (planet : position)
    (pos : horizontal) : SkyObject.t :=
  {| SkyObject.type := SkyObject.planet;
     SkyObject.name := planetName;
     SkyObject.magnitude := pos_magnitude planet;
     SkyObject.phase := None;
     SkyObject.spectralClass := None;
     SkyObject.altitude := altitude pos;
     SkyObject.azimuth := azimuth pos;
     SkyObject.catalogIndex := None |}.

Definition moonObject (phase : number) (moonPos : horizontal) : SkyObject.t :=
  {| SkyObject.type := SkyObject.moon;
     SkyObject.name := "Moon";
     SkyObject.magnitude := Num (-12.74);
     SkyObject.phase := Some phase;
     SkyObject.spectralClass := None;
     SkyObject.altitude := altitude moonPos;
     SkyObject.azimuth := azimuth moonPos;
     SkyObject.catalogIndex := None |}.

(** The bodies of the three loops, as the objects each one pushes. *)
Definition addStar (app : t) (jd : number) (star : Star.t) : list SkyObject.t :=
  let pos := equatorialToHorizontal
               (Star.ra star) (Star.dec star) (latitude app) (longitude app) jd in
  if altitude pos >? 0 then [starObject star pos] else [].

Definition addPlanet (app : t) (jd : number) (planetName : string)
    : list SkyObject.t :=
  match getPlanetPosition planetName jd with
  | Some planet =>
      let pos := equatorialToHorizontal
                   (pos_ra planet) (pos_dec planet) (latitude app) (longitude app) jd in
      if altitude pos >? 0 then [planetObject planetName planet pos] else []
  | None => []
  end.

Definition addMoon (app : t) (jd : number) : list SkyObject.t :=
  let moon := getMoonPosition jd in
  let moonPos := equatorialToHorizontal
                   (ra moon) (dec moon) (latitude app) (longitude app) jd in
  if altitude moonPos >? 0 then
    let phase := getMoonPhase jd in
    [moonObject phase moonPos]
  else [].

Definition calculateAllObjects (now : number) (app : t) : t :=
  let jd := getJulianDate now in
  {| latitude := latitude app;
     longitude := longitude app;
     stars := stars app;
     planets := planets app;
     allObjects :=
       sort SkyObject.byMagnitude
            (flat_map (addStar app jd) (stars app) ++
             flat_map (addPlanet app jd) (planets app) ++
             addMoon app jd) |}.

Definition initial (lat lon : number) : t :=
  {| latitude := lat;
     longitude := lon;
     stars := getStars;
     planets := ["Mercury"; "Venus"; "Mars"; "Jupiter"; "Saturn"];
     allObjects := [] |}.

(** *** The view: zoom, pan and selection

    The fields of the map object that the gestures and the drawing read
    and write, beside the five above. *)

Record view : Type :=
  { compassHeading : number;
    compassOffset : number;
    centerX : number;
    centerY : number;
    mapRadius : number;
    zoomLevel : number;
    panX : number;
    panY : number;
    minZoom : number;
    maxZoom : number;
    focusMode : bool;
    isDragging : bool;
    lastTouchX : number;
    lastTouchY : number;
    lastPinchDistance : number;
    canvas : Canvas.t;
    constellationsInView : list ConstellationInView.t;
    selectedConstellation : option string }.

(** [this.zoomLevel = z]. *)
Definition set_zoomLevel (z : number) (v : view) : view :=
  {| compassHeading := compassHeading v;
     compassOffset := compassOffset v;
     centerX := centerX v;
     centerY := centerY v;
     mapRadius := mapRadius v;
     zoomLevel := z;
     panX := panX v;
     panY := panY v;
     minZoom := minZoom v;
     maxZoom := maxZoom v;
     focusMode := focusMode v;
     isDragging := isDragging v;
     lastTouchX := lastTouchX v;
     lastTouchY := lastTouchY v;
     lastPinchDistance := lastPinchDistance v;
     canvas := canvas v;
     constellationsInView := constellationsInView v;
     selectedConstellation := selectedConstellation v |}.

(** [this.lastPinchDistance = dist]. *)
Definition set_lastPinchDistance (dist : number) (v : view) : view :=
  {| compassHeading := compassHeading v;
     compassOffset := compassOffset v;
     centerX := centerX v;
     centerY := centerY v;
     mapRadius := mapRadius v;
     zoomLevel := zoomLevel v;
     panX := panX v;
     panY := panY v;
     minZoom := minZoom v;
     maxZoom := maxZoom v;
     focusMode := focusMode v;
     isDragging := isDragging v;
     lastTouchX := lastTouchX v;
     lastTouchY := lastTouchY v;
     lastPinchDistance := dist;
     canvas := canvas v;
     constellationsInView := constellationsInView v;
     selectedConstellation := selectedConstellation v |}.

(** [this.panX = x; this.panY = y]. *)
Definition set_pan (x y : number) (v : view) : view :=
  {| compassHeading := compassHeading v;
     compassOffset := compassOffset v;
     centerX := centerX v;
     centerY := centerY v;
     mapRadius := mapRadius v;
     zoomLevel := zoomLevel v;
     panX := x;
     panY := y;
     minZoom := minZoom v;
     maxZoom := maxZoom v;
     focusMode := focusMode v;
     isDragging := isDragging v;
     lastTouchX := lastTouchX v;
     lastTouchY := lastTouchY v;
     lastPinchDistance := lastPinchDistance v;
     canvas := canvas v;
     constellationsInView := constellationsInView v;
     selectedConstellation := selectedConstellation v |}.

(** [this.lastTouchX = x; this.lastTouchY = y]. *)
Definition set_lastTouch (x y : number) (v : view) : view :=
  {| compassHeading := compassHeading v;
     compassOffset := compassOffset v;
     centerX := centerX v;
     centerY := centerY v;
     mapRadius := mapRadius v;
     zoomLevel := zoomLevel v;
     panX := panX v;
     panY := panY v;
     minZoom := minZoom v;
     maxZoom := maxZoom v;
     focusMode := focusMode v;
     isDragging := isDragging v;
     lastTouchX := x;
     lastTouchY := y;
     lastPinchDistance := lastPinchDistance v;
     canvas := canvas v;
     constellationsInView := constellationsInView v;
     selectedConstellation := selectedConstellation v |}.

(** [this.isDragging = b]. *)
Definition set_isDragging (b : bool) (v : view) : view :=
  {| compassHeading := compassHeading v;
     compassOffset := compassOffset v;
     centerX := centerX v;
     centerY := centerY v;
     mapRadius := mapRadius v;
     zoomLevel := zoomLevel v;
     panX := panX v;
     panY := panY v;
     minZoom := minZoom v;
     maxZoom := maxZoom v;
     focusMode := focusMode v;
     isDragging := b;
     lastTouchX := lastTouchX v;
     lastTouchY := lastTouchY v;
     lastPinchDistance := lastPinchDistance v;
     canvas := canvas v;
     constellationsInView := constellationsInView v;
     selectedConstellation := selectedConstellation v |}.

(** [this.focusMode = b]. *)
Definition set_focusMode (b : bool) (v : view) : view :=
  {| compassHeading := compassHeading v;
     compassOffset := compassOffset v;
     centerX := centerX v;
     centerY := centerY v;
     mapRadius := mapRadius v;
     zoomLevel := zoomLevel v;
     panX := panX v;
     panY := panY v;
     minZoom := minZoom v;
     maxZoom := maxZoom v;
     focusMode := b;
     isDragging := isDragging v;
     lastTouchX := lastTouchX v;
     lastTouchY := lastTouchY v;
     lastPinchDistance := lastPinchDistance v;
     canvas := canvas v;
     constellationsInView := constellationsInView v;
     selectedConstellation := selectedConstellation v |}.

(** [this.constellationsInView = l]. *)
Definition set_constellationsInView (l : list ConstellationInView.t) (v : view) : view :=
  {| compassHeading := compassHeading v;
     compassOffset := compassOffset v;
     centerX := centerX v;
     centerY := centerY v;
     mapRadius := mapRadius v;
     zoomLevel := zoomLevel v;
     panX := panX v;
     panY := panY v;
     minZoom := minZoom v;
     maxZoom := maxZoom v;
     focusMode := focusMode v;
     isDragging := isDragging v;
     lastTouchX := lastTouchX v;
     lastTouchY := lastTouchY v;
     lastPinchDistance := lastPinchDistance v;
     canvas := canvas v;
     constellationsInView := l;
     selectedConstellation := selectedConstellation v |}.

(** [this.selectedConstellation = s]. *)
Definition set_selectedConstellation (s : option string) (v : view) : view :=
  {| compassHeading := compassHeading v;
     compassOffset := compassOffset v;
     centerX := centerX v;
     centerY := centerY v;
     mapRadius := mapRadius v;
     zoomLevel := zoomLevel v;
     panX := panX v;
     panY := panY v;
     minZoom := minZoom v;
     maxZoom := maxZoom v;
     focusMode := focusMode v;
     isDragging := isDragging v;
     lastTouchX := lastTouchX v;
     lastTouchY := lastTouchY v;
     lastPinchDistance := lastPinchDistance v;
     canvas := canvas v;
     constellationsInView := constellationsInView v;
     selectedConstellation := s |}.
Local Open Scope list_scope.

(** The view after the constructor and the first [resize], in a window of
    the given inner size. *)
Definition initialView (innerWidth innerHeight : number) : view :=
  let size := Math.min innerWidth innerHeight in
  {| compassHeading := 0;
     compassOffset := 0;
     centerX := innerWidth / 2;
     centerY := innerHeight / 2;
     mapRadius := (size * 0.85) / 2;
     zoomLevel := 1.0;
     panX := 0;
     panY := 0;
     minZoom := 1.0;
     maxZoom := 10.0;
     focusMode := false;
     isDragging := false;
     lastTouchX := 0;
     lastTouchY := 0;
     lastPinchDistance := 0;
     canvas := {| Canvas.width := innerWidth; Canvas.height := innerHeight |};
     constellationsInView := [];
     selectedConstellation := None |}.

Definition getTouchDistance (touch1 touch2 : Touch.t) : number :=
  let dx := Touch.clientX touch1 - Touch.clientX touch2 in
  let dy := Touch.clientY touch1 - Touch.clientY touch2 in
  Math.sqrt (dx * dx + dy * dy).

Definition getCompassDirection (degrees : number) : option string :=
  let dirs := ["N"; "NE"; "E"; "SE"; "S"; "SW"; "W"; "NW"] in
  Arr.get dirs (Math.round ((degrees % 360) / 45) % 8).

Definition deg2rad (deg : number) : number := deg * Math.PI / 180.

Definition skyToScreen (v : view) (altitude azimuth : number) : Screen.t :=
  let normalizedAlt := altitude / 90 in
  let distance := mapRadius v * (1 - normalizedAlt) in
  let adjustedAzimuth := (azimuth - compassHeading v - compassOffset v + 360) % 360 in
  let angleRad := deg2rad adjustedAzimuth in
  let x := centerX v + distance * Math.sin angleRad in
  let y := centerY v - distance * Math.cos angleRad in
  let x := (x - centerX v) * zoomLevel v + centerX v + panX v in
  let y := (y - centerY v) * zoomLevel v + centerY v + panY v in
  {| Screen.x := x; Screen.y := y |}.

Definition isInView (v : view) (x y : number) : bool :=
  Num.ge x 0 && Num.le x (Canvas.width (canvas v)) &&
  Num.ge y 0 && Num.le y (Canvas.height (canvas v)).

(** [this.allObjects.find(obj => obj.catalogIndex === starIndex)]. *)
Definition findStar (app : t) (starIndex : nat) : option SkyObject.t :=
  find (fun obj => match SkyObject.catalogIndex obj with
                   | Some index => Nat.eqb index starIndex
                   | None => false
                   end)
       (allObjects app).

(** The body of the inner loop of [identifyConstellationsInView], on the
    two counters. *)
Definition countStar (app : t) (v : view) (counts : nat * nat) (starIndex : nat)
    : nat * nat :=
  let '(starsInView, totalStars) := counts in
  let totalStars := S totalStars in
  match findStar app starIndex with
  | Some star =>
      let pos := skyToScreen v (SkyObject.altitude star) (SkyObject.azimuth star) in
      if isInView v (Screen.x pos) (Screen.y pos)
      then (S starsInView, totalStars)
      else (starsInView, totalStars)
  | None => (starsInView, totalStars)
  end.

Definition countStars (app : t) (v : view) (lines : list (list nat)) : nat * nat :=
  fold_left (fun counts line => fold_left (countStar app v) line counts) lines (O, O).

(** What the loop over a constellation pushes. *)
Definition inViewEntry (app : t) (v : view) (entry : string * list (list nat))
    : list ConstellationInView.t :=
  let '(name, lines) := entry in
  let '(starsInView, totalStars) := countStars app v lines in
  if Nat.ltb 0 starsInView then
    [ {| ConstellationInView.name := name;
         ConstellationInView.visibility := Fin (INR starsInView) / Fin (INR totalStars);
         ConstellationInView.starsVisible := starsInView |} ]
  else [].

Definition identifyConstellationsInView (app : t) (v : view) : view :=
  set_constellationsInView
    (sort ConstellationInView.byVisibility (flat_map (inViewEntry app v) CONSTELLATIONS))
    v.

(** [None] is the TypeError of iterating over a value inherited from
    [Object.prototype], which is a function or a plain object. *)
Definition isPointInConstellation (app : t) (v : view) (x y : number)
    (constellationName : string) : option bool :=
  match Obj.get CONSTELLATIONS constellationName with
  | Obj.Absent => Some false
  | Obj.Inherited => None
  | Obj.Own lines =>
      Some (existsb
              (fun line =>
                 existsb
                   (fun starIndex =>
                      match findStar app starIndex with
                      | Some star =>
                          let pos := skyToScreen v (SkyObject.altitude star)
                                                 (SkyObject.azimuth star) in
                          let distance :=
                            Math.sqrt (Math.pow (x - Screen.x pos) 2 +
                                       Math.pow (y - Screen.y pos) 2) in
                          distance <? 40
                      | None => false
                      end)
                   line)
              lines)
  end.

(** The loop of [handleTap] over [constellationsInView]: the selection
    after the first constellation hit, [Some None] after a tap on empty
    space. *)
Fixpoint tapOn (app : t) (v : view) (x y : number)
    (inView : list ConstellationInView.t) : option (option string) :=
  match inView with
  | [] => Some None
  | constellation :: inView' =>
      match isPointInConstellation app v x y (ConstellationInView.name constellation) with
      | None => None
      | Some true =>
          match selectedConstellation v with
          | Some selected =>
              if String.eqb selected (ConstellationInView.name constellation)
              then Some None
              else Some (Some (ConstellationInView.name constellation))
          | None => Some (Some (ConstellationInView.name constellation))
          end
      | Some false => tapOn app v x y inView'
      end
  end.

Definition handleTap (app : t) (v : view) (x y : number) : option view :=
  if zoomLevel v <? 1.5 then Some (set_selectedConstellation None v)
  else
    match tapOn app v x y (constellationsInView v) with
    | None => None
    | Some selection => Some (set_selectedConstellation selection v)
    end.

(** The listeners of [setupTouchHandlers]. *)
Definition touchstart (touches : list Touch.t) (v : view) : view :=
  match touches with
  | [touch0; touch1] =>
      let dist := getTouchDistance touch0 touch1 in
      set_lastPinchDistance dist v
  | [touch0] =>
      set_lastTouch (Touch.clientX touch0) (Touch.clientY touch0) (set_isDragging true v)
  | _ => v
  end.

Definition touchmove (touches : list Touch.t) (v : view) : view :=
  match touches with
  | [touch0; touch1] =>
      let dist := getTouchDistance touch0 touch1 in
      let delta := dist - lastPinchDistance v in
      let v := set_zoomLevel (zoomLevel v * (1 + delta / 500)) v in
      let v := set_zoomLevel
                 (Math.max (minZoom v) (Math.min (maxZoom v) (zoomLevel v))) v in
      set_lastPinchDistance dist v
  | [touch0] =>
      if isDragging v then
        let dx := Touch.clientX touch0 - lastTouchX v in
        let dy := Touch.clientY touch0 - lastTouchY v in
        let v := set_pan (panX v + dx) (panY v + dy) v in
        set_lastTouch (Touch.clientX touch0) (Touch.clientY touch0) v
      else v
  | _ => v
  end.

Definition touchend (app : t) (touches changedTouches : list Touch.t) (v : view)
    : option view :=
  let v := set_isDragging false v in
  match touches with
  | [] =>
      match changedTouches with
      | [touch] =>
          match handleTap app v (Touch.clientX touch) (Touch.clientY touch) with
          | None => None
          | Some v => Some (identifyConstellationsInView app v)
          end
      | _ => Some (identifyConstellationsInView app v)
      end
  | _ => Some v
  end.

Definition zoomIn (app : t) (v : view) : view :=
  let v := set_zoomLevel (Math.min (maxZoom v) (zoomLevel v * 1.3)) v in
  identifyConstellationsInView app v.

Definition zoomOut (app : t) (v : view) : view :=
  let v := set_zoomLevel (Math.max (minZoom v) (zoomLevel v / 1.3)) v in
  identifyConstellationsInView app v.

Definition resetView (app : t) (v : view) : view :=
  let v := set_zoomLevel 1.0 v in
  let v := set_pan 0 0 v in
  identifyConstellationsInView app v.

Definition focusModeClick (v : view) : view := set_focusMode (negb (focusMode v)) v.

(** The events of the view, and one step of the page on an event. *)
Inductive event : Type :=
| Touchstart (touches : list Touch.t)
| Touchmove (touches : list Touch.t)
| Touchend (touches changedTouches : list Touch.t)
| ZoomIn
| ZoomOut
| ResetView
| FocusMode.

Definition dispatch (app : t) (e : event) (v : view) : option view :=
  match e with
  | Touchstart touches => Some (touchstart touches v)
  | Touchmove touches => Some (touchmove touches v)
  | Touchend touches changedTouches => touchend app touches changedTouches v
  | ZoomIn => Some (zoomIn app v)
  | ZoomOut => Some (zoomOut app v)
  | ResetView => Some (resetView app v)
  | FocusMode => Some (focusModeClick v)
  end.

Fixpoint dispatchAll (app : t) (events : list event) (v : view) : option view :=
  match events with
  | [] => Some v
  | e :: events' =>
      match dispatch app e v with
      | None => None
      | Some v' => dispatchAll app events' v'
      end
  end.

(** A line of the object panel of the map. *)
Record row : Type :=
  { label : string;
    direction : option string;
    altitudeShown : number }.

(** The lines of the panel; [None] when it shows the hint to pan. *)
Definition updateObjectInfo (app : t) (v : view) : option (list row) :=
  let visibleInView :=
    Arr.slice_0 10
      (filter (fun obj =>
                 let pos := skyToScreen v (SkyObject.altitude obj) (SkyObject.azimuth obj) in
                 isInView v (Screen.x pos) (Screen.y pos))
              (allObjects app)) in
  match visibleInView with
  | [] => None
  | _ =>
      Some (map (fun obj =>
                   {| label := SkyObject.name obj;
                      direction := getCompassDirection (SkyObject.azimuth obj);
                      altitudeShown := Math.round (SkyObject.altitude obj) |})
                visibleInView)
  end.

(** The body of the inner loop of [updateConstellationInfo], on the list
    [constellationStars]: the star of the index is pushed unless the list
    holds an object of that index already. *)
Definition pushConstellationStar (app : t) (constellationStars : list SkyObject.t)
    (starIndex : nat) : list SkyObject.t :=
  match findStar app starIndex with
  | Some star =>
      match find (fun s => match SkyObject.catalogIndex s with
                           | Some index => Nat.eqb index starIndex
                           | None => false
                           end)
                 constellationStars with
      | Some _ => constellationStars
      | None => constellationStars ++ [star]
      end
  | None => constellationStars
  end.

(** The stars that [updateConstellationInfo] lists for the selected
    constellation, after the sort; [None] is the TypeError of calling
    [forEach] on a value inherited from [Object.prototype]. *)
Definition constellationStars (app : t) (selectedConstellation : string)
    : option (list SkyObject.t) :=
  match Obj.get CONSTELLATIONS selectedConstellation with
  | Obj.Own constellation =>
      Some (sort SkyObject.byMagnitude
              (fold_left (fun stars line => fold_left (pushConstellationStar app) line stars)
                         constellation []))
  | Obj.Inherited => None
  | Obj.Absent => Some (sort SkyObject.byMagnitude [])
  end.

End NightSkyMapZoom.

(** * The code on binary64 numbers

    The same methods with a number as the source has it: a binary64
    value, here a primitive float of Rocq, whose [+], [-], [*], [/] and
    comparisons are the correctly rounded operations of IEEE 754 that
    JavaScript prescribes.  Numeric literals denote the nearest binary64
    value, as in the source. *)

Module Double.

Import PrimFloat.
#[local] Set Warnings "-inexact-float".
Local Open Scope float_scope.

(** The remainder operator [%].  The result is NaN for a NaN operand, an
    infinite dividend or a zero divisor, the dividend itself for an
    infinite divisor or a zero dividend, and otherwise the exact remainder
    of the truncated division, with the sign of the dividend (a zero
    remainder keeps that sign).  The exact remainder is computed on the
    two integer significands brought to the smaller exponent; it is a
    binary64 value, so the final normalisation does not round. *)
Definition rem (x y : float) : float :=
  match FloatOps.Prim2SF x, FloatOps.Prim2SF y with
  | SpecFloat.S754_nan, _ | _, SpecFloat.S754_nan => nan
  | SpecFloat.S754_infinity _, _ => nan
  | _, SpecFloat.S754_zero _ => nan
  | _, SpecFloat.S754_infinity _ => x
  | SpecFloat.S754_zero _, _ => x
  | SpecFloat.S754_finite sx mx ex, SpecFloat.S754_finite _ my ey =>
      let e := Z.min ex ey in
      let r := Z.rem (Zpos mx * 2 ^ (ex - e)) (Zpos my * 2 ^ (ey - e)) in
      FloatOps.SF2Prim (SpecFloat.binary_normalize FloatOps.prec FloatOps.emax
                          (SpecFloat.cond_Zopp sx r) e sx)
  end.

(** The functions of [Math] that the engine calls.  ECMAScript leaves
    their values to the implementation, up to what it prescribes at
    special arguments; they are taken as they are given. *)
Module Math.

Record t : Type :=
  { sin : float -> float;
    cos : float -> float;
    tan : float -> float;
    asin : float -> float;
    atan2 : float -> float -> float }.

Definition PI : float := 3.141592653589793.

(** What ECMAScript prescribes for a NaN argument, as far as the Moon
    phase reads it: [Math.cos(NaN)] and [Math.atan2(y, NaN)] are NaN. *)
Definition propagatesNaN (math : t) : Prop :=
  cos math nan = nan /\ forall y : float, atan2 math y nan = nan.

End Math.

Module Astronomy.

Definition J2000 : float := 2451545.0.

Definition deg2rad (deg : float) : float := deg * Math.PI / 180.

Definition rad2deg (rad : float) : float := rad * 180 / Math.PI.

Definition getLocalSiderealTime (jd longitude : float) : float :=
  let T := (jd - J2000) / 36525 in
  let theta0 := 280.46061837 + 360.98564736629 * (jd - J2000) +
                0.000387933 * T * T - T * T * T / 38710000 in
  let lst := rem (theta0 + longitude) 360 in
  if lst <? 0 then lst + 360 else lst.

Record equatorial : Type := { ra : float; dec : float }.

Section Engine.

Variable math : Math.t.

Definition getSunPosition (jd : float) : equatorial :=
  let n := jd - J2000 in
  let L := rem (280.460 + 0.9856474 * n) 360 in
  let g := deg2rad (rem (357.528 + 0.9856003 * n) 360) in
  let lambda := L + 1.915 * Math.sin math g + 0.020 * Math.sin math (2 * g) in
  let epsilon := 23.439 - 0.0000004 * n in
  let ra := rad2deg (Math.atan2 math
              (Math.cos math (deg2rad epsilon) * Math.sin math (deg2rad lambda))
              (Math.cos math (deg2rad lambda))) in
  let dec := rad2deg (Math.asin math
              (Math.sin math (deg2rad epsilon) * Math.sin math (deg2rad lambda))) in
  {| ra := rem (ra + 360) 360; dec := dec |}.

Definition getMoonPosition (jd : float) : equatorial :=
  let n := jd - J2000 in
  let L := rem (218.316 + 13.176396 * n) 360 in
  let M := rem (134.963 + 13.064993 * n) 360 in
  let F := rem (93.272 + 13.229350 * n) 360 in
  let lambda := L + 6.289 * Math.sin math (deg2rad M) in
  let beta := 5.128 * Math.sin math (deg2rad F) in
  let epsilon := 23.439 - 0.0000004 * n in
  let ra := rad2deg (Math.atan2 math
              (Math.sin math (deg2rad lambda) * Math.cos math (deg2rad epsilon) -
               Math.tan math (deg2rad beta) * Math.sin math (deg2rad epsilon))
              (Math.cos math (deg2rad lambda))) in
  let dec := rad2deg (Math.asin math
              (Math.sin math (deg2rad beta) * Math.cos math (deg2rad epsilon) +
               Math.cos math (deg2rad beta) * Math.sin math (deg2rad epsilon) *
               Math.sin math (deg2rad lambda))) in
  {| ra := rem (ra + 360) 360; dec := dec |}.

Definition getMoonPhase (jd : float) : float :=
  let sun := getSunPosition jd in
  let moon := getMoonPosition jd in
  let phase := ra moon - ra sun in
  let phase := if phase <? 0 then phase + 360 else phase in
  let illumination := (1 - Math.cos math (deg2rad phase)) / 2 in
  illumination.

End Engine.

End Astronomy.

Module NightSkyApp.

(** [while (diff > 180) diff -= 360], at most [fuel] rounds. *)
Fixpoint while_above (fuel : nat) (diff : float) : option float :=
  if 180 <? diff then
    match fuel with
    | O => None
    | S fuel' => while_above fuel' (diff - 360)
    end
  else Some diff.

(** [while (diff < -180) diff += 360], at most [fuel] rounds. *)
Fixpoint while_below (fuel : nat) (diff : float) : option float :=
  if diff <? -180 then
    match fuel with
    | O => None
    | S fuel' => while_below fuel' (diff + 360)
    end
  else Some diff.

Definition angleDifference_fuel (fuel : nat) (a b : float) : option float :=
  let diff := a - b in
  match while_above fuel diff with
  | None => None
  | Some diff => while_below fuel diff
  end.

End NightSkyApp.

End Double.

(** * Vocabulary of the properties *)

Section Vocabulary.

Import Astronomy.
Local Open Scope string_scope.
Local Open Scope R_scope.

(** The names with an entry in the planet tables. *)
Definition tabulated (name : string) : bool :=
  existsb (String.eqb name) ["Mercury"; "Venus"; "Mars"; "Jupiter"; "Saturn"].

(** Every index used by a constellation line, in order. *)
Definition lineIndices : list nat :=
  flat_map (fun c => List.concat (snd c)) CONSTELLATIONS.

(** An index with no star in the catalog. *)
Definition dangling (index : nat) : bool :=
  match nth_error STAR_CATALOG index with
  | Some _ => false
  | None => true
  end.

(** The polynomial of the specification, on reals. *)
Definition spec_theta0 (jd : R) : R :=
  let T := (jd - 2451545.0) / 36525 in
  280.46061837 + 360.98564736629 * (jd - 2451545.0) +
  0.000387933 * T * T - T * T * T / 38710000.

(** The sine of the altitude, on reals, from angles in degrees. *)
Definition sinAlt (dec lat ha : R) : R :=
  sin (dec * PI / 180) * sin (lat * PI / 180) +
  cos (dec * PI / 180) * cos (lat * PI / 180) * cos (ha * PI / 180).

(** [key a <= key b], both finite. *)
Definition key_le (A : Type) (key : A -> number) (a b : A) : Prop :=
  exists x y : R, key a = Fin x /\ key b = Fin y /\ x <= y.

Definition finite_key (A : Type) (key : A -> number) (a : A) : Prop :=
  Num.is_finite (key a) = true.

(** The direction of view of [calculateVisibleObjects]. *)
Definition viewAzimuth (app : NightSkyApp.t) : number :=
  Num.rem (Num.add (NightSkyApp.alpha app) (NightSkyApp.compassOffset app)) (Fin 360).

Definition viewAltitude (app : NightSkyApp.t) : number :=
  Num.sub (Fin 90) (Math.abs (NightSkyApp.beta app)).

(** The position of a star for the observer of [app]. *)
Definition starPosition (app : NightSkyApp.t) (jd : number) (star : Star.t) : horizontal :=
  equatorialToHorizontal (Star.ra star) (Star.dec star)
    (NightSkyApp.latitude app) (NightSkyApp.longitude app) jd.

(** What a body pushed, nothing when it does not return. *)
Definition pushes (A : Type) (f : A -> option (A * list SkyObject.t)) (x : A)
    : list SkyObject.t :=
  match f x with
  | Some (_, pushed) => pushed
  | None => []
  end.

(** The bodies [calculateVisibleObjects] pushes before the sort, in the
    order of the three loops. *)
Definition generatedVisible (now : number) (app : NightSkyApp.t) : list SkyObject.t :=
  let jd := getJulianDate now in
  flat_map (pushes (NightSkyApp.checkStar app jd (viewAzimuth app) (viewAltitude app)))
           (NightSkyApp.stars app) ++
  flat_map (pushes (NightSkyApp.checkPlanet app jd (viewAzimuth app) (viewAltitude app)))
           (NightSkyApp.planets app) ++
  match NightSkyApp.checkMoon app jd (viewAzimuth app) (viewAltitude app) with
  | Some pushed => pushed
  | None => []
  end.

(** The bodies [calculateAllObjects] pushes before the sort. *)
Definition generatedAll (now : number) (app : NightSkyMapZoom.t) : list SkyObject.t :=
  let jd := getJulianDate now in
  flat_map (NightSkyMapZoom.addStar app jd) (NightSkyMapZoom.stars app) ++
  flat_map (NightSkyMapZoom.addPlanet app jd) (NightSkyMapZoom.planets app) ++
  NightSkyMapZoom.addMoon app jd.

(** The magnitude as the comparator reads it. *)
Definition magnitudeOf (o : SkyObject.t) : number := to_number (SkyObject.magnitude o).

Definition aboveHorizon (o : SkyObject.t) : Prop :=
  Num.gt (SkyObject.altitude o) (Fin 0) = true.


Definition magnitude_le : SkyObject.t -> SkyObject.t -> Prop := key_le magnitudeOf.


(** Star magnitudes are finite and no planet name is an inherited key. *)
Definition finite_magnitudes (stars : list Star.t) (planets : list string) : bool :=
  forallb (fun star => Num.is_finite (Star.magnitude star)) stars &&
  forallb (fun name => negb (Obj.inherited name)) planets.

(** The fields of a star record that come from the catalog. *)
Definition loadedFields (star : Star.t)
    : nat * string * number * number * number * string :=
  (Star.id star, Star.name star, Star.ra star, Star.dec star,
   Star.magnitude star, Star.spectralClass star).

(** An object with a finite position above the horizon. *)
Definition positioned (o : SkyObject.t) : Prop :=
  exists alt az : R,
    SkyObject.altitude o = Fin alt /\ SkyObject.azimuth o = Fin az /\
    0 < alt <= 90 /\ 0 <= az <= 360.

(** The application object as a run of [calculateVisibleObjects] leaves
    it. *)
Definition afterRun (now : number) (app : NightSkyApp.t) : NightSkyApp.t :=
  {| NightSkyApp.latitude := NightSkyApp.latitude app;
     NightSkyApp.longitude := NightSkyApp.longitude app;
     NightSkyApp.alpha := NightSkyApp.alpha app;
     NightSkyApp.beta := NightSkyApp.beta app;
     NightSkyApp.gamma := NightSkyApp.gamma app;
     NightSkyApp.compassOffset := NightSkyApp.compassOffset app;
     NightSkyApp.fov := NightSkyApp.fov app;
     NightSkyApp.stars :=
       map (fun star => NightSkyApp.observed star (starPosition app (getJulianDate now) star))
           (NightSkyApp.stars app);
     NightSkyApp.planets := NightSkyApp.planets app;
     NightSkyApp.visibleObjects :=
       sort SkyObject.byMagnitude (generatedVisible now app) |}.




(** A touch point with finite coordinates, and an event whose touch
    points are all finite. *)
Definition finiteTouch (touch : Touch.t) : Prop :=
  Num.is_finite (Touch.clientX touch) = true /\
  Num.is_finite (Touch.clientY touch) = true.

Definition finiteEvent (e : NightSkyMapZoom.event) : Prop :=
  match e with
  | NightSkyMapZoom.Touchstart touches => Forall finiteTouch touches
  | NightSkyMapZoom.Touchmove touches => Forall finiteTouch touches
  | NightSkyMapZoom.Touchend touches changedTouches =>
      Forall finiteTouch touches /\ Forall finiteTouch changedTouches
  | _ => True
  end.

(** The zoom level is a finite number between the two bounds 1 and 10. *)
Definition zoomInRange (v : NightSkyMapZoom.view) : Prop :=
  exists z : R, NightSkyMapZoom.zoomLevel v = Fin z /\ 1 <= z <= 10.

(** The constellation of an entry is an own key of [CONSTELLATIONS]. *)
Definition keyed (c : ConstellationInView.t) : Prop :=
  exists lines : list (list nat),
    Obj.own CONSTELLATIONS (ConstellationInView.name c) = Some lines.

(** What the gestures keep true of the view. *)
Definition steady (v : NightSkyMapZoom.view) : Prop :=
  NightSkyMapZoom.minZoom v = Fin 1.0 /\
  NightSkyMapZoom.maxZoom v = Fin 10.0 /\
  zoomInRange v /\
  Num.is_finite (NightSkyMapZoom.lastPinchDistance v) = true /\
  Forall keyed (NightSkyMapZoom.constellationsInView v).

(** The star of a catalog index is among the objects and on the canvas. *)
Definition starInView (app : NightSkyMapZoom.t) (v : NightSkyMapZoom.view)
    (starIndex : nat) : bool :=
  match NightSkyMapZoom.findStar app starIndex with
  | Some star =>
      let pos := NightSkyMapZoom.skyToScreen v (SkyObject.altitude star)
                                             (SkyObject.azimuth star) in
      NightSkyMapZoom.isInView v (Screen.x pos) (Screen.y pos)
  | None => false
  end.

(** [visibility a >= visibility b], both finite. *)
Definition visibility_ge (a b : ConstellationInView.t) : Prop :=
  exists x y : R,
    ConstellationInView.visibility a = Fin x /\
    ConstellationInView.visibility b = Fin y /\ y <= x.

(** An entry of [constellationsInView] as [identifyConstellationsInView]
    builds it: it names a constellation of the table, counts the stars of
    its lines that are in view (an index counting once for every time a
    line uses it), at least one, and gives their share. *)
Definition entryOf (app : NightSkyMapZoom.t) (v : NightSkyMapZoom.view)
    (c : ConstellationInView.t) : Prop :=
  exists lines : list (list nat),
    In (ConstellationInView.name c, lines) CONSTELLATIONS /\
    ConstellationInView.starsVisible c =
      List.length (filter (starInView app v) (List.concat lines)) /\
    (1 <= ConstellationInView.starsVisible c <= List.length (List.concat lines))%nat /\
    ConstellationInView.visibility c =
      Fin (INR (ConstellationInView.starsVisible c) / INR (List.length (List.concat lines))).

(** The objects carry catalog indices of the catalog only. *)
Definition catalogued (objects : list SkyObject.t) : Prop :=
  Forall (fun o => match SkyObject.catalogIndex o with
                   | Some index => (index < 50)%nat
                   | None => True
                   end)
         objects.





(** The Julian Dates of the time values that a [Date] can hold: within
    100,000,000 days of 1 January 1970. *)
Definition civilDate (jd : R) : Prop := Rabs (jd - 2440587.5) <= 100000000.

(** The polynomial of the specification, with the arithmetic and in the
    order of the source. *)
Definition theta0 (jd : number) : number :=
  let T := ((jd - 2451545.0) / 36525)%js in
  (280.46061837 + 360.98564736629 * (jd - 2451545.0) +
   0.000387933 * T * T - T * T * T / 38710000)%js.

(** NaN, or a finite number with the property [P]. *)
Definition NaN_or (P : R -> Prop) (a : number) : Prop :=
  a = NaN \/ exists x : R, a = Fin x /\ P x.

(** A touch point on a screen: its coordinates are finite, at most a
    million pixels from the origin; and an event whose touch points are
    all such. *)
Definition screenTouch (touch : Touch.t) : Prop :=
  exists x y : R,
    Touch.clientX touch = Fin x /\ Touch.clientY touch = Fin y /\
    Rabs x <= 1000000 /\ Rabs y <= 1000000.

Definition screenEvent (e : NightSkyMapZoom.event) : Prop :=
  match e with
  | NightSkyMapZoom.Touchstart touches => Forall screenTouch touches
  | NightSkyMapZoom.Touchmove touches => Forall screenTouch touches
  | NightSkyMapZoom.Touchend touches changedTouches =>
      Forall screenTouch touches /\ Forall screenTouch changedTouches
  | _ => True
  end.


(** What the loops of [updateConstellationInfo] keep true of the list of
    stars: no catalog index comes twice, and every object is the one found
    for an index. *)
Definition collected (app : NightSkyMapZoom.t) (stars : list SkyObject.t) : Prop :=
  NoDup (map SkyObject.catalogIndex stars) /\
  forall o : SkyObject.t,
    In o stars ->
    exists index : nat, NightSkyMapZoom.findStar app index = Some o.

End Vocabulary.

(** * Properties *)

(** ** Deciding comparisons of reals *)

Section Decisions.

Local Open Scope R_scope.

Lemma Rltb_true (x y : R) : x < y -> Num.Rltb x y = true.
Proof. intros H; unfold Num.Rltb; destruct (Rlt_dec x y); [reflexivity | contradiction]. Qed.

Lemma Rltb_false (x y : R) : y <= x -> Num.Rltb x y = false.
Proof. intros H; unfold Num.Rltb; destruct (Rlt_dec x y); [lra | reflexivity]. Qed.

Lemma Rltb_lt (x y : R) : Num.Rltb x y = true <-> x < y.
Proof.
  unfold Num.Rltb; destruct (Rlt_dec x y); split; intros; try assumption;
    try reflexivity; try discriminate; contradiction.
Qed.

Lemma Rltb_ge (x y : R) : Num.Rltb x y = false <-> y <= x.
Proof.
  unfold Num.Rltb; destruct (Rlt_dec x y); split; intros; try discriminate;
    try reflexivity; lra.
Qed.

Lemma Reqb_true (x y : R) : x = y -> Num.Reqb x y = true.
Proof. intros H; unfold Num.Reqb; destruct (Req_dec_T x y); [reflexivity | contradiction]. Qed.

Lemma Reqb_false (x y : R) : x <> y -> Num.Reqb x y = false.
Proof. intros H; unfold Num.Reqb; destruct (Req_dec_T x y); [contradiction | reflexivity]. Qed.

Lemma Reqb_eq (x y : R) : Num.Reqb x y = true <-> x = y.
Proof.
  unfold Num.Reqb; destruct (Req_dec_T x y); split; intros; try assumption;
    try reflexivity; try discriminate; contradiction.
Qed.

End Decisions.

(** Settles the tests on concrete or bounded reals that a goal contains. *)
Ltac decide_reals :=
  repeat match goal with
    | |- context [Num.Rltb ?x ?y] =>
        first [ rewrite (@Rltb_true x y) by lra
              | rewrite (@Rltb_false x y) by lra
              | rewrite (@Rltb_true x y) by (pose proof PI_RGT_0; lra)
              | rewrite (@Rltb_false x y) by (pose proof PI_RGT_0; lra) ]
    | |- context [Num.Reqb ?x ?y] =>
        first [ rewrite (@Reqb_true x y) by lra
              | rewrite (@Reqb_false x y) by lra
              | rewrite (@Reqb_false x y) by (pose proof PI_RGT_0; lra) ]
    end.

(** ** The planet tables *)

Section PlanetTables.

Import Astronomy.
Local Open Scope string_scope.
Local Open Scope R_scope.

Lemma own_planets_None (name : string) :
  tabulated name = false -> Obj.own planets name = None.
Proof.
  unfold tabulated, planets; cbn [existsb Obj.own]; intros H.
  repeat (apply orb_false_elim in H; destruct H as [?E H]).
  repeat match goal with
    | E : (name =? ?s) = false |- _ =>
        rewrite (String.eqb_sym s name), E; clear E
    end.
  reflexivity.
Qed.

Lemma getPlanetPosition_untabulated (name : string) (jd : number) :
  tabulated name = false -> Obj.inherited name = false ->
  getPlanetPosition name jd = None.
Proof.
  intros Ht Hi. unfold getPlanetPosition, Obj.get.
  rewrite (own_planets_None _ Ht), Hi. reflexivity.
Qed.

Lemma getPlanetPosition_inherited (name : string) (jd : number) :
  tabulated name = false -> Obj.inherited name = true ->
  getPlanetPosition name jd =
    Some {| pos_ra := NaN; pos_dec := NaN; pos_magnitude := getPlanetMagnitude name |}.
Proof.
  intros Ht Hi. unfold getPlanetPosition, Obj.get.
  rewrite (own_planets_None _ Ht), Hi. reflexivity.
Qed.

Lemma getPlanetMagnitude_Mercury : getPlanetMagnitude "Mercury" = Num 5.
Proof. unfold getPlanetMagnitude; simpl. decide_reals. reflexivity. Qed.

Lemma getPlanetMagnitude_Venus : getPlanetMagnitude "Venus" = Num (-4.0).
Proof. unfold getPlanetMagnitude; simpl. decide_reals. reflexivity. Qed.

Lemma getPlanetMagnitude_Mars : getPlanetMagnitude "Mars" = Num 0.5.
Proof. unfold getPlanetMagnitude; simpl. decide_reals. reflexivity. Qed.

Lemma getPlanetMagnitude_Jupiter : getPlanetMagnitude "Jupiter" = Num (-2.5).
Proof. unfold getPlanetMagnitude; simpl. decide_reals. reflexivity. Qed.

Lemma getPlanetMagnitude_Saturn : getPlanetMagnitude "Saturn" = Num 0.5.
Proof. unfold getPlanetMagnitude; simpl. decide_reals. reflexivity. Qed.

(** C1. The magnitude lookup on the five planet names: Venus, Mars, Jupiter
    and Saturn give the constant of the table, while Mercury, whose entry
    0.0 is falsy, falls through [|| 5] and gives 5; the magnitude field of
    [getPlanetPosition] is that same value. *)
Theorem getPlanetMagnitude_five_names :
  getPlanetMagnitude "Mercury" = Num 5 /\
  getPlanetMagnitude "Venus" = Num (-4.0) /\
  getPlanetMagnitude "Mars" = Num 0.5 /\
  getPlanetMagnitude "Jupiter" = Num (-2.5) /\
  getPlanetMagnitude "Saturn" = Num 0.5 /\
  forall jd,
    option_map pos_magnitude (getPlanetPosition "Mercury" jd) = Some (Num 5) /\
    option_map pos_magnitude (getPlanetPosition "Venus" jd) = Some (Num (-4.0)) /\
    option_map pos_magnitude (getPlanetPosition "Mars" jd) = Some (Num 0.5) /\
    option_map pos_magnitude (getPlanetPosition "Jupiter" jd) = Some (Num (-2.5)) /\
    option_map pos_magnitude (getPlanetPosition "Saturn" jd) = Some (Num 0.5).
Proof.
  pose proof getPlanetMagnitude_Mercury. pose proof getPlanetMagnitude_Venus.
  pose proof getPlanetMagnitude_Mars. pose proof getPlanetMagnitude_Jupiter.
  pose proof getPlanetMagnitude_Saturn.
  repeat split; try assumption;
    unfold getPlanetPosition; simpl; f_equal; assumption.
Qed.

(** C6. For a name that is neither in the table nor a property every
    object inherits, the position lookup answers [null].  A name that is
    not in the table but is inherited, such as "constructor", passes the
    test [!planets[planet]]: the lookup answers with an object whose
    coordinates are NaN and whose magnitude is the inherited built-in. *)
Theorem getPlanetPosition_unknown_names (jd : number) :
  (forall name : string,
      tabulated name = false -> Obj.inherited name = false ->
      getPlanetPosition name jd = None) /\
  Forall (fun key =>
            tabulated key = false /\
            getPlanetPosition key jd =
              Some {| pos_ra := NaN; pos_dec := NaN; pos_magnitude := Builtin key |})
         Obj.prototype_keys.
Proof.
  split.
  - intros name Ht Hi. apply getPlanetPosition_untabulated; assumption.
  - repeat constructor.
Qed.

(** "Pluto" gets [null]; "constructor" does not. *)
Lemma getPlanetPosition_unknown_names_witness :
  getPlanetPosition "Pluto" (Fin 0) = None /\
  getPlanetPosition "constructor" (Fin 0) =
    Some {| pos_ra := NaN; pos_dec := NaN; pos_magnitude := Builtin "constructor" |}.
Proof.
  split.
  - apply (proj1 (getPlanetPosition_unknown_names (Fin 0)) "Pluto"); reflexivity.
  - pose proof (proj2 (getPlanetPosition_unknown_names (Fin 0))) as H.
    apply Forall_inv in H. exact (proj2 H).
Defined.

End PlanetTables.

(** ** The constellation lines *)

Section Constellations.

Local Open Scope nat_scope.

Lemma STAR_CATALOG_length : List.length STAR_CATALOG = 50.
Proof. reflexivity. Qed.

(** Loading keeps the order of the catalog: the record of index [k] is the
    star of row [k]. *)
Lemma getStars_index_stable :
  map Star.id getStars = seq 0 50 /\
  map Star.name getStars = map (fun row => fst (fst (fst (fst row)))) STAR_CATALOG.
Proof. split; reflexivity. Qed.

(** C10. The catalog holds 50 stars, indexed 0 to 49, and the line of
    Cassiopeia uses the indices 50 and 51: these two, and no other index of
    a constellation line, resolve to no star. *)
Theorem Cassiopeia_indices_dangle :
  Obj.own CONSTELLATIONS "Cassiopeia" = Some [[40; 41; 46; 50; 51]] /\
  List.length STAR_CATALOG = 50 /\
  nth_error getStars 50 = None /\
  nth_error getStars 51 = None /\
  filter dangling lineIndices = [50; 51].
Proof. repeat split; reflexivity. Qed.

End Constellations.

(** ** The remainder of reals *)

Section Remainder.

Local Open Scope R_scope.

Lemma trunc_nonneg (q : R) :
  0 <= q -> IZR (Num.trunc q) <= q < IZR (Num.trunc q) + 1.
Proof.
  intros Hq. unfold Num.trunc. destruct (Rle_dec 0 q) as [_ | Hn]; [| contradiction].
  destruct (base_Int_part q) as [Hlo Hhi]. lra.
Qed.

Lemma trunc_neg (q : R) :
  q < 0 -> IZR (Num.trunc q) - 1 < q <= IZR (Num.trunc q).
Proof.
  intros Hq. unfold Num.trunc. destruct (Rle_dec 0 q) as [Hp | _]; [lra |].
  rewrite opp_IZR. destruct (base_Int_part (- q)) as [Hlo Hhi]. lra.
Qed.

(** The remainder differs from the dividend by a multiple of the divisor,
    is smaller than the divisor, and has the sign of the dividend. *)
Lemma fmod_spec (x y : R) :
  0 < y ->
  (exists k : Z, Num.fmod x y = x - y * IZR k) /\
  (0 <= x -> 0 <= Num.fmod x y < y) /\
  (x <= 0 -> - y < Num.fmod x y <= 0).
Proof.
  intros Hy. unfold Num.fmod.
  split; [eexists; reflexivity |].
  assert (Hf : x - y * IZR (Num.trunc (x / y)) = y * (x / y - IZR (Num.trunc (x / y))))
    by (field; lra).
  rewrite Hf.
  destruct (Rle_dec 0 (x / y)) as [Hq | Hq].
  - destruct (trunc_nonneg Hq) as [Hlo Hhi].
    set (d := x / y - IZR (Num.trunc (x / y))) in *.
    assert (Hd : 0 <= d < 1) by (unfold d; lra).
    assert (H0 : 0 <= y * d) by (apply Rmult_le_pos; lra).
    assert (H1 : y * d < y * 1) by (apply Rmult_lt_compat_l; lra).
    split; intros Hs; [lra |].
    assert (Hx0 : x = 0).
    { assert (Hxq : x = y * (x / y)) by (field; lra).
      assert (0 <= y * (x / y)) by (apply Rmult_le_pos; lra). lra. }
    assert (Hq0 : x / y = 0) by (rewrite Hx0; field; lra).
    assert (Hd0 : d = 0).
    { unfold d in *. rewrite Hq0 in *.
      assert (H2 : IZR (Num.trunc 0) < 1) by lra.
      assert (H3 : -1 < IZR (Num.trunc 0)) by lra.
      apply lt_IZR in H2. apply lt_IZR in H3.
      replace (Num.trunc 0) with 0%Z by lia. lra. }
    rewrite Hd0. lra.
  - assert (Hq' : x / y < 0) by lra.
    destruct (trunc_neg Hq') as [Hlo Hhi].
    set (d := x / y - IZR (Num.trunc (x / y))) in *.
    assert (Hd : -1 < d <= 0) by (unfold d; lra).
    assert (H0 : y * d <= y * 0) by (apply Rmult_le_compat_l; lra).
    assert (H1 : y * (-1) < y * d) by (apply Rmult_lt_compat_l; lra).
    split; intros Hs; [| lra].
    exfalso.
    assert (Hxq : x = y * (x / y)) by (field; lra).
    assert (y * (x / y) < y * 0) by (apply Rmult_lt_compat_l; lra). lra.
Qed.

Lemma fmod_small (x y : R) : 0 < y -> Rabs x < y -> Num.fmod x y = x.
Proof.
  intros Hy Hx. unfold Num.fmod.
  assert (Hxy : x = y * (x / y)) by (field; lra).
  assert (Hz : Num.trunc (x / y) = 0%Z).
  { destruct (Rle_dec 0 (x / y)) as [Hq | Hq].
    - destruct (trunc_nonneg Hq) as [Hlo Hhi].
      assert (Hlt : x / y < 1).
      { apply Rabs_def2 in Hx. apply Rmult_lt_reg_l with y; [lra |]. rewrite <- Hxy. lra. }
      assert (H1 : IZR (Num.trunc (x / y)) < 1) by lra.
      assert (H2 : -1 < IZR (Num.trunc (x / y))) by lra.
      apply lt_IZR in H1. apply lt_IZR in H2. lia.
    - assert (Hq' : x / y < 0) by lra.
      destruct (trunc_neg Hq') as [Hlo Hhi].
      assert (Hgt : -1 < x / y).
      { apply Rabs_def2 in Hx. apply Rmult_lt_reg_l with y; [lra |]. rewrite <- Hxy. lra. }
      assert (H1 : IZR (Num.trunc (x / y)) < 1) by lra.
      assert (H2 : -1 < IZR (Num.trunc (x / y))) by lra.
      apply lt_IZR in H1. apply lt_IZR in H2. lia. }
  rewrite Hz. lra.
Qed.

Lemma rem_360 (x : R) : Num.rem (Fin x) (Fin 360) = Fin (Num.fmod x 360).
Proof. cbn [Num.rem]. decide_reals. reflexivity. Qed.

(** Adding 360 to a negative remainder: the value lands in [0, 360). *)
Lemma fmod_360_cases (x : R) :
  (Num.Rltb (Num.fmod x 360) 0 = true /\
   0 <= Num.fmod x 360 + 360 < 360 /\
   exists k : Z, Num.fmod x 360 + 360 = x + 360 * IZR k) \/
  (Num.Rltb (Num.fmod x 360) 0 = false /\
   0 <= Num.fmod x 360 < 360 /\
   exists k : Z, Num.fmod x 360 = x + 360 * IZR k).
Proof.
  destruct (@fmod_spec x 360) as [[k Hk] [Hpos Hneg]]; [lra |].
  destruct (Rlt_dec (Num.fmod x 360) 0) as [Hlt | Hge].
  - left. split; [apply Rltb_true; assumption |].
    assert (Hx : x <= 0) by (destruct (Rle_dec x 0); [assumption | lra]).
    apply Hneg in Hx.
    split; [lra |]. exists (1 - k)%Z. rewrite minus_IZR. lra.
  - right. split; [apply Rltb_false; lra |].
    split; [| exists (- k)%Z; rewrite opp_IZR; lra].
    destruct (Rle_dec 0 x) as [Hx | Hx]; [apply Hpos in Hx; lra |].
    assert (Hx' : x <= 0) by lra. apply Hneg in Hx'. lra.
Qed.

End Remainder.

(** Evaluates the arithmetic of numbers on finite operands, settling the
    tests on the way. *)
Ltac num_eval :=
  repeat (progress (cbn [Num.add Num.sub Num.neg Num.mul Num.div Num.rem
                         Num.lt Num.gt Num.abs Num.is_finite
                         Math.sin Math.cos Math.PI];
                    decide_reals)).

(** ** The engine on binary64 numbers *)

Section Binary64.

Import PrimFloat.
#[local] Set Warnings "-inexact-float".
Local Open Scope float_scope.

Lemma add_nan_l (x : float) : nan + x = nan.
Proof. apply FloatAxioms.Prim2SF_inj. rewrite FloatAxioms.add_spec. reflexivity. Qed.

Lemma sub_nan_l (x : float) : nan - x = nan.
Proof. apply FloatAxioms.Prim2SF_inj. rewrite FloatAxioms.sub_spec. reflexivity. Qed.


(** At the Julian Date 2e307 the mean longitude of the Moon overflows:
    [13.176396 * n] is infinite, its remainder is NaN, and so is the right
    ascension of the Moon, whatever the functions of [Math] return on
    numbers. *)
Lemma getMoonPosition_overflow (math : Double.Math.t) :
  Double.Math.propagatesNaN math ->
  Double.Astronomy.ra (Double.Astronomy.getMoonPosition math 2e307) = nan.
Proof.
  intros [Hcos Hatan2].
  unfold Double.Astronomy.getMoonPosition. cbv zeta. cbn [Double.Astronomy.ra].
  replace (Double.rem (218.316 + 13.176396 * (2e307 - Double.Astronomy.J2000)) 360)
    with nan by (vm_compute; reflexivity).
  rewrite add_nan_l.
  replace (Double.Astronomy.deg2rad nan) with nan by (vm_compute; reflexivity).
  rewrite Hcos, Hatan2.
  vm_compute. reflexivity.
Qed.

(** The Julian Date 2e307 is a finite number, and the illumination
    computed for it is NaN, with every [Math] that returns NaN for NaN as
    ECMAScript prescribes. *)
Lemma getMoonPhase_overflow :
  is_finite 2e307 = true /\
  forall math : Double.Math.t,
    Double.Math.propagatesNaN math -> Double.Astronomy.getMoonPhase math 2e307 = nan.
Proof.
  split; [vm_compute; reflexivity |].
  intros math H. unfold Double.Astronomy.getMoonPhase. cbv zeta.
  rewrite (getMoonPosition_overflow H). rewrite sub_nan_l.
  replace (nan <? 0) with false by (vm_compute; reflexivity).
  replace (Double.Astronomy.deg2rad nan) with nan by (vm_compute; reflexivity).
  destruct H as [Hcos _]. rewrite Hcos. vm_compute. reflexivity.
Qed.

(** Subtracting 360 from 1e19 gives 1e19 again: the first loop of
    [angleDifference] never leaves it. *)
Lemma while_above_stuck (fuel : nat) :
  Double.NightSkyApp.while_above fuel 1e19 = None.
Proof.
  induction fuel as [| fuel IH]; cbn [Double.NightSkyApp.while_above].
  - vm_compute. reflexivity.
  - replace (180 <? 1e19) with true by (vm_compute; reflexivity).
    replace (1e19 - 360) with 1e19 by (vm_compute; reflexivity).
    exact IH.
Qed.

End Binary64.

(** ** Local sidereal time *)

Section SiderealTime.

Import Astronomy.
Local Open Scope R_scope.

(** The sum that goes through [% 360], on reals. *)
Lemma getLocalSiderealTime_unfold (jd lon : R) :
  getLocalSiderealTime (Fin jd) (Fin lon) =
    if Num.Rltb (Num.fmod (spec_theta0 jd + lon) 360) 0
    then Fin (Num.fmod (spec_theta0 jd + lon) 360 + 360)
    else Fin (Num.fmod (spec_theta0 jd + lon) 360).
Proof.
  unfold getLocalSiderealTime, J2000. num_eval.
  match goal with
  | |- context [Num.fmod ?x 360] =>
      replace x with (spec_theta0 jd + lon) by (unfold spec_theta0; lra)
  end.
  reflexivity.
Qed.

Lemma getLocalSiderealTime_finite (jd lon : R) :
  exists lst : R, getLocalSiderealTime (Fin jd) (Fin lon) = Fin lst /\ 0 <= lst < 360.
Proof.
  rewrite getLocalSiderealTime_unfold.
  destruct (fmod_360_cases (spec_theta0 jd + lon))
    as [[Ht [Hrange _]] | [Ht [Hrange _]]]; rewrite Ht;
    eexists; (split; [reflexivity | exact Hrange]).
Qed.



End SiderealTime.

(** ** Angles *)

Section Angles.

Import Astronomy.
Local Open Scope R_scope.

Lemma deg2rad_Fin (x : R) : deg2rad (Fin x) = Fin (x * PI / 180).
Proof. unfold deg2rad. num_eval. reflexivity. Qed.

Lemma rad2deg_Fin (x : R) : rad2deg (Fin x) = Fin (x * 180 / PI).
Proof. unfold rad2deg. num_eval. reflexivity. Qed.

Lemma rad2deg_bounds (x lo hi : R) :
  lo * PI / 180 <= x <= hi * PI / 180 -> lo <= x * 180 / PI <= hi.
Proof.
  intros [Hlo Hhi]. pose proof PI_RGT_0 as Hpi.
  assert (Hx : x = (x * 180 / PI) * PI / 180) by (field; lra).
  set (d := x * 180 / PI) in *. clearbody d. split.
  - apply Rmult_le_reg_r with (PI / 180); [lra | nra].
  - apply Rmult_le_reg_r with (PI / 180); [lra | nra].
Qed.

(** Cauchy-Schwarz for two unit-bounded pairs. *)
Lemma product_sum_bound (a b c d : R) :
  a * a + b * b = 1 -> c * c + d * d <= 1 -> -1 <= a * c + b * d <= 1.
Proof.
  intros Hab Hcd.
  assert (Hsq : (a * c + b * d) * (a * c + b * d) <= 1).
  { assert (Hsq : 0 <= (a * d - b * c) * (a * d - b * c)) by apply Rle_0_sqr.
    assert (Hid : (a * c + b * d) * (a * c + b * d) =
                  (a * a + b * b) * (c * c + d * d) - (a * d - b * c) * (a * d - b * c))
      by ring.
    rewrite Hab in Hid. lra. }
  split; nra.
Qed.

Lemma sin_cos_unit (x : R) : sin x * sin x + cos x * cos x = 1.
Proof. pose proof (sin2_cos2 x) as H. unfold Rsqr in H. exact H. Qed.

Lemma sin_sq_le_1 (x : R) : sin x * sin x <= 1.
Proof. pose proof (sin_cos_unit x). nra. Qed.

Lemma cos_sq_le_1 (x : R) : cos x * cos x <= 1.
Proof. pose proof (sin_cos_unit x). nra. Qed.

Lemma Ratan2_bound (y x : R) : - PI < Math.Ratan2 y x <= PI.
Proof.
  pose proof PI_RGT_0 as Hpi. pose proof (atan_bound (y / x)) as Hat.
  unfold Math.Ratan2.
  destruct (Rlt_dec 0 x) as [Hx | Hx].
  - rewrite Rltb_true by assumption. lra.
  - rewrite Rltb_false by lra.
    destruct (Rlt_dec x 0) as [Hx' | Hx'].
    + rewrite Rltb_true by assumption.
      destruct (Rlt_dec y 0) as [Hy | Hy].
      * rewrite Rltb_true by assumption.
        assert (0 < y / x).
        { unfold Rdiv. replace (y * / x) with ((- y) * (/ - x)) by (field; lra).
          apply Rmult_lt_0_compat; [lra | apply Rinv_0_lt_compat; lra]. }
        pose proof (atan_increasing 0 (y / x) H) as Hinc. rewrite atan_0 in Hinc. lra.
      * rewrite Rltb_false by lra.
        assert (Hq : y / x <= 0).
        { unfold Rdiv. replace (y * / x) with (- (y * (/ - x))) by (field; lra).
          assert (0 <= y * / - x).
          { apply Rmult_le_pos; [lra | left; apply Rinv_0_lt_compat; lra]. }
          lra. }
        assert (atan (y / x) <= 0).
        { destruct Hq as [Hq | Hq].
          - pose proof (atan_increasing _ _ Hq) as Hinc. rewrite atan_0 in Hinc. lra.
          - rewrite Hq, atan_0. lra. }
        lra.
    + rewrite Rltb_false by lra.
      destruct (Rlt_dec 0 y); [rewrite Rltb_true by assumption; lra |].
      rewrite Rltb_false by lra.
      destruct (Rlt_dec y 0); [rewrite Rltb_true by assumption; lra |].
      rewrite Rltb_false by lra. lra.
Qed.

End Angles.

(** ** Ranges of the equatorial coordinates *)

Section Equatorial.

Import Astronomy.
Local Open Scope R_scope.

Lemma asin_Fin (x : R) : -1 <= x <= 1 -> Math.asin (Fin x) = Fin (asin x).
Proof. intros [Hlo Hhi]. cbn [Math.asin]. decide_reals. reflexivity. Qed.

Lemma acos_Fin (x : R) : -1 <= x <= 1 -> Math.acos (Fin x) = Fin (acos x).
Proof. intros [Hlo Hhi]. cbn [Math.acos]. decide_reals. reflexivity. Qed.

(** A declination: the arc sine of a value of [-1, 1], in degrees. *)
Lemma declination_range (x : R) :
  -1 <= x <= 1 ->
  exists d : R, rad2deg (Math.asin (Fin x)) = Fin d /\ -90 <= d <= 90.
Proof.
  intros Hx. rewrite (asin_Fin Hx), rad2deg_Fin.
  eexists; split; [reflexivity |].
  apply rad2deg_bounds. pose proof (asin_bound x). lra.
Qed.

(** A right ascension: the angle of a point, in degrees, brought into
    [0, 360) by [(ra + 360) % 360]. *)
Lemma right_ascension_range (y x : R) :
  exists r : R,
    Num.rem (Num.add (rad2deg (Math.atan2 (Fin y) (Fin x))) (Fin 360)) (Fin 360) = Fin r /\
    0 <= r < 360.
Proof.
  cbn [Math.atan2]. rewrite rad2deg_Fin. cbn [Num.add]. rewrite rem_360.
  eexists; split; [reflexivity |].
  pose proof (Ratan2_bound y x) as Hb.
  assert (Hd : -180 <= Math.Ratan2 y x * 180 / PI <= 180)
    by (apply rad2deg_bounds; lra).
  destruct (@fmod_spec (Math.Ratan2 y x * 180 / PI + 360) 360) as [_ [Hpos _]]; [lra |].
  apply Hpos. lra.
Qed.

Lemma unit_product (u v : R) :
  -1 <= u <= 1 -> -1 <= v <= 1 -> -1 <= u * v <= 1.
Proof. intros Hu Hv. split; nra. Qed.

Lemma getSunPosition_finite (jd : R) :
  exists r d : R,
    getSunPosition (Fin jd) = {| ra := Fin r; dec := Fin d |} /\
    0 <= r < 360 /\ -90 <= d <= 90.
Proof.
  unfold getSunPosition, J2000, deg2rad. num_eval.
  match goal with
  | |- context [Math.atan2 (Fin ?y) (Fin ?x)] =>
      destruct (right_ascension_range y x) as [r [Hr Hrange]]
  end.
  match goal with
  | |- context [Math.asin (Fin ?x)] =>
      destruct (@declination_range x) as [d [Hd Hdrange]]
  end.
  { apply unit_product; apply SIN_bound. }
  exists r, d. rewrite Hr, Hd. repeat split; lra.
Qed.

(** The ecliptic latitude of the Moon stays within 5.128 degrees, where
    the tangent is finite. *)
Lemma tan_Fin (x : R) : - (PI / 2) < x < PI / 2 -> Math.tan (Fin x) = Fin (tan x).
Proof.
  intros Hx. unfold Math.tan. cbn [Math.sin Math.cos Num.div].
  pose proof (cos_gt_0 x) as Hc.
  rewrite Reqb_false by lra. reflexivity.
Qed.

Lemma moon_latitude_small (s : R) :
  -1 <= s <= 1 -> - (PI / 2) < 5.128 * s * PI / 180 < PI / 2.
Proof. intros Hs. pose proof PI_RGT_0. split; nra. Qed.

Lemma scaled_unit (e l : R) :
  cos e * cos e + (sin e * sin l) * (sin e * sin l) <= 1.
Proof.
  pose proof (sin_cos_unit e) as He. pose proof (sin_sq_le_1 l) as Hl.
  pose proof (Rle_0_sqr (sin e)) as Hs. unfold Rsqr in Hs.
  set (se := sin e) in *. set (sl := sin l) in *. set (ce := cos e) in *.
  clearbody se sl ce.
  assert (Hp : se * se * (sl * sl) <= se * se * 1)
    by (apply Rmult_le_compat_l; lra).
  nra.
Qed.

Lemma getMoonPosition_finite (jd : R) :
  exists r d : R,
    getMoonPosition (Fin jd) = {| ra := Fin r; dec := Fin d |} /\
    0 <= r < 360 /\ -90 <= d <= 90.
Proof.
  unfold getMoonPosition, J2000, deg2rad. num_eval.
  match goal with
  | |- context [Math.tan (Fin (5.128 * ?s * PI / 180))] =>
      rewrite (@tan_Fin (5.128 * s * PI / 180))
        by (apply moon_latitude_small; apply SIN_bound)
  end.
  num_eval.
  match goal with
  | |- context [Math.atan2 (Fin ?y) (Fin ?x)] =>
      destruct (right_ascension_range y x) as [r [Hr Hrange]]
  end.
  match goal with
  | |- context [Math.asin (Fin ?x)] =>
      destruct (@declination_range x) as [d [Hd Hdrange]]
  end.
  { match goal with
    | |- _ <= sin ?b * cos ?e + cos ?b * sin ?e * sin ?l <= _ =>
        replace (cos b * sin e * sin l) with (cos b * (sin e * sin l)) by ring;
        apply product_sum_bound; [apply sin_cos_unit | apply (scaled_unit e l)]
    end. }
  exists r, d. rewrite Hr, Hd. repeat split; lra.
Qed.

Lemma tabulated_cases (name : string) :
  tabulated name = true ->
  name = "Mercury"%string \/ name = "Venus"%string \/ name = "Mars"%string \/
  name = "Jupiter"%string \/ name = "Saturn"%string.
Proof.
  unfold tabulated; cbn [existsb]; intros H.
  repeat (apply orb_true_elim in H; destruct H as [H | H];
          [apply String.eqb_eq in H; tauto |]).
  discriminate.
Qed.

(** Unfolds a lookup in the planet tables at a literal name. *)
Ltac lookup_planet :=
  cbv [getPlanetPosition Obj.get Obj.own Obj.field planets
       String.eqb Ascii.eqb Bool.eqb L0 w i].

(** The position of a planet of the table: the right ascension is the
    remainder itself, which has the sign of the mean longitude, and the
    declination is ten times a product of two sines. *)
Lemma getPlanetPosition_finite (name : string) (jd : R) :
  tabulated name = true ->
  exists r d : R,
    getPlanetPosition name (Fin jd) =
      Some {| pos_ra := Fin r; pos_dec := Fin d;
              pos_magnitude := getPlanetMagnitude name |} /\
    -360 < r < 360 /\ -10 <= d <= 10.
Proof.
  intros Ht.
  destruct (tabulated_cases _ Ht) as [-> | [-> | [-> | [-> | ->]]]];
    lookup_planet; unfold J2000, deg2rad; num_eval;
    (eexists; eexists; split; [reflexivity |]); split;
    try (match goal with
         | |- _ < Num.fmod ?x 360 < _ =>
             destruct (@fmod_spec x 360) as [_ [Hpos Hneg]]; [lra |];
             destruct (Rle_dec 0 x) as [Hx | Hx];
             [apply Hpos in Hx; lra | assert (Hx' : x <= 0) by lra; apply Hneg in Hx'; lra]
         end);
    match goal with
    | |- _ <= sin ?u * sin ?v * 10 <= _ =>
        pose proof (unit_product (SIN_bound u) (SIN_bound v)); lra
    end.
Qed.

(** Before the epoch the mean longitude of a planet is negative and so is
    the right ascension returned: Mercury a hundred days before J2000. *)
Lemma Mercury_before_epoch :
  getPlanetPosition "Mercury" (Fin 2451445) =
    Some {| pos_ra := Fin (-156.983);
            pos_dec := Fin (sin (7.00 * PI / 180) * sin (-156.983 * PI / 180) * 10);
            pos_magnitude := Num 5 |}.
Proof.
  lookup_planet; unfold J2000, deg2rad; num_eval.
  replace (252.25 + 4.09233 * (2451445 + - (2451545.0))) with (-156.983) by lra.
  rewrite fmod_small.
  - do 2 f_equal. apply getPlanetMagnitude_Mercury.
  - lra.
  - unfold Rabs. destruct (Rcase_abs (-156.983)); lra.
Qed.

End Equatorial.

(** ** Ranges of the horizontal coordinates *)

Section Horizontal.

Import Astronomy.
Local Open Scope R_scope.

(** The clamped arc cosine, in degrees: NaN for NaN, else within [0, 180]. *)
Lemma clamped_acos (c : number) :
  (c = NaN /\ rad2deg (Math.acos (Math.max (Fin (-1)) (Math.min (Fin 1) c))) = NaN) \/
  (c <> NaN /\
   exists z : R,
     rad2deg (Math.acos (Math.max (Fin (-1)) (Math.min (Fin 1) c))) = Fin z /\
     0 <= z <= 180).
Proof.
  assert (Hfin : forall x : R, -1 <= x <= 1 ->
            exists z : R, rad2deg (Math.acos (Fin x)) = Fin z /\ 0 <= z <= 180).
  { intros x Hx. rewrite (acos_Fin Hx), rad2deg_Fin.
    eexists; split; [reflexivity |].
    apply rad2deg_bounds. pose proof (acos_bound x). lra. }
  unfold Math.max, Math.min.
  destruct c as [x | | |].
  - right. split; [discriminate |].
    cbn [Num.min Num.lt].
    destruct (Rlt_dec x 1) as [H1 | H1].
    + rewrite Rltb_true by assumption. cbn [Num.max Num.lt].
      destruct (Rlt_dec (-1) x) as [H2 | H2].
      * rewrite Rltb_true by assumption. apply Hfin; lra.
      * rewrite Rltb_false by lra. apply Hfin; lra.
    + rewrite Rltb_false by lra. cbn [Num.max Num.lt]. decide_reals. apply Hfin; lra.
  - right. split; [discriminate |]. cbn [Num.min Num.max Num.lt]. decide_reals.
    apply Hfin; lra.
  - right. split; [discriminate |]. cbn [Num.min Num.max Num.lt].
    apply Hfin; lra.
  - left. split; reflexivity.
Qed.

(** A quotient of finite numbers is NaN exactly for 0/0. *)
Lemma div_Fin_NaN (n d : R) :
  Num.div (Fin n) (Fin d) = NaN <-> d = 0 /\ n = 0.
Proof.
  cbn [Num.div]. unfold Num.signed_inf. split.
  - destruct (Req_dec_T d 0) as [Hd | Hd].
    + rewrite Reqb_true by assumption.
      destruct (Rlt_dec 0 n); [rewrite Rltb_true by assumption; discriminate |].
      rewrite Rltb_false by lra.
      destruct (Rlt_dec n 0); [rewrite Rltb_true by assumption; discriminate |].
      intros _. split; lra.
    + rewrite Reqb_false by assumption. discriminate.
  - intros [-> ->]. decide_reals. reflexivity.
Qed.

Lemma sinAlt_bound (dec lat ha : R) : -1 <= sinAlt dec lat ha <= 1.
Proof.
  unfold sinAlt.
  match goal with
  | |- _ <= sin ?d * sin ?l + cos ?d * cos ?l * cos ?h <= _ =>
      replace (cos d * cos l * cos h) with (cos d * (cos l * cos h)) by ring;
      apply product_sum_bound; [apply sin_cos_unit |];
      pose proof (sin_cos_unit l) as Hl; pose proof (cos_sq_le_1 h) as Hh;
      pose proof (Rle_0_sqr (cos l)) as Hc; unfold Rsqr in Hc;
      set (sl := sin l) in *; set (cl := cos l) in *; set (ch := cos h) in *;
      clearbody sl cl ch;
      assert (Hp : cl * cl * (ch * ch) <= cl * cl * 1)
        by (apply Rmult_le_compat_l; lra);
      nra
  end.
Qed.

(** Where the divisor of [cosAz] vanishes (observer at a pole, or body at
    the zenith or the nadir) the dividend vanishes too: the quotient is
    0/0. *)
Lemma cosAz_zero_over_zero (dec lat ha : R) :
  cos (lat * PI / 180) * cos (asin (sinAlt dec lat ha)) = 0 ->
  sin (dec * PI / 180) - sin (lat * PI / 180) * sinAlt dec lat ha = 0.
Proof.
  pose proof (sinAlt_bound dec lat ha) as Hs.
  rewrite (cos_asin _ Hs). unfold sinAlt in *.
  pose proof (sin_cos_unit (dec * PI / 180)) as Hd.
  pose proof (sin_cos_unit (lat * PI / 180)) as Hl.
  pose proof (cos_sq_le_1 (ha * PI / 180)) as Hh.
  set (a := sin (dec * PI / 180)) in *. set (b := cos (dec * PI / 180)) in *.
  set (c := sin (lat * PI / 180)) in *. set (cl := cos (lat * PI / 180)) in *.
  set (ch := cos (ha * PI / 180)) in *. clearbody a b c cl ch.
  intros Hz. apply Rmult_integral in Hz. destruct Hz as [Hz | Hz].
  - subst cl. assert (Hc : c * c = 1) by lra.
    replace (a - c * (a * c + b * 0 * ch)) with (a * (1 - c * c)) by ring.
    rewrite Hc. ring.
  - assert (Hsq : (a * c + b * cl * ch)² = 1).
    { assert (H0 : 0 <= 1 - (a * c + b * cl * ch)²).
      { unfold Rsqr. assert ((a * c + b * cl * ch) * (a * c + b * cl * ch) <= 1) by nra. lra. }
      apply sqrt_eq_0 in Hz; [lra | exact H0]. }
    unfold Rsqr in Hsq.
    assert (Hid : (a * c + b * cl * ch) * (a * c + b * cl * ch) =
                  (a * a + b * b) * (c * c + (cl * ch) * (cl * ch)) -
                  (a * (cl * ch) - b * c) * (a * (cl * ch) - b * c)) by ring.
    rewrite Hd, Hsq in Hid.
    assert (Hcd : c * c + (cl * ch) * (cl * ch) <= 1).
    { assert (Hp : cl * cl * (ch * ch) <= cl * cl * 1).
      { apply Rmult_le_compat_l; [apply Rle_0_sqr | lra]. }
      nra. }
    pose proof (Rle_0_sqr (a * (cl * ch) - b * c)) as Hnn. unfold Rsqr in Hnn.
    assert (Hxz : (a * (cl * ch) - b * c) * (a * (cl * ch) - b * c) = 0) by lra.
    assert (Hunit : c * c + (cl * ch) * (cl * ch) = 1) by lra.
    apply Rmult_integral in Hxz.
    assert (Hx : a * (cl * ch) = b * c) by (destruct Hxz; lra).
    replace (a - c * (a * c + b * cl * ch))
      with (a * (1 - c * c) - (b * c) * (cl * ch)) by ring.
    rewrite <- Hx.
    replace (a * (1 - c * c) - a * (cl * ch) * (cl * ch))
      with (a * (1 - (c * c + (cl * ch) * (cl * ch)))) by ring.
    rewrite Hunit. ring.
Qed.

(** The squares of the divisor and of the dividend of [cosAz] differ by
    the square of [cos lat * cos dec * sin ha]. *)
Lemma cosAz_identity (a b c e h k : R) :
  a * a + b * b = 1 -> c * c + e * e = 1 -> h * h + k * k = 1 ->
  e * e * (1 - (a * c + b * e * h) * (a * c + b * e * h)) -
  (a - c * (a * c + b * e * h)) * (a - c * (a * c + b * e * h)) =
  e * b * k * (e * b * k).
Proof. intros Hab Hce Hhk. nsatz. Qed.

(** Off the meridian, for a body off the celestial poles, [cosAz] is
    strictly between -1 and 1. *)
Lemma cosAz_strict (dec lat ha : R) :
  cos (lat * PI / 180) * cos (asin (sinAlt dec lat ha)) <> 0 ->
  cos (dec * PI / 180) <> 0 -> sin (ha * PI / 180) <> 0 ->
  -1 < (sin (dec * PI / 180) - sin (lat * PI / 180) * sinAlt dec lat ha) /
       (cos (lat * PI / 180) * cos (asin (sinAlt dec lat ha))) < 1.
Proof.
  intros Hden Hb Hk.
  pose proof (sinAlt_bound dec lat ha) as Hs.
  assert (Hq : cos (asin (sinAlt dec lat ha)) * cos (asin (sinAlt dec lat ha)) =
               1 - sinAlt dec lat ha * sinAlt dec lat ha).
  { rewrite (cos_asin _ Hs). apply sqrt_sqrt. unfold Rsqr. nra. }
  assert (He : cos (lat * PI / 180) <> 0).
  { intros He. apply Hden. rewrite He. ring. }
  pose proof (@cosAz_identity (sin (dec * PI / 180)) (cos (dec * PI / 180))
                (sin (lat * PI / 180)) (cos (lat * PI / 180))
                (cos (ha * PI / 180)) (sin (ha * PI / 180))
                (sin_cos_unit _) (sin_cos_unit _)) as Hid.
  rewrite (Rplus_comm (cos (ha * PI / 180) * cos (ha * PI / 180))) in Hid.
  specialize (Hid (sin_cos_unit _)). fold (sinAlt dec lat ha) in Hid.
  set (num := sin (dec * PI / 180) - sin (lat * PI / 180) * sinAlt dec lat ha) in *.
  set (den := cos (lat * PI / 180) * cos (asin (sinAlt dec lat ha))) in *.
  assert (Hpos : 0 < cos (lat * PI / 180) * cos (dec * PI / 180) * sin (ha * PI / 180) *
                     (cos (lat * PI / 180) * cos (dec * PI / 180) * sin (ha * PI / 180))).
  { apply Rsqr_pos_lt. repeat apply Rmult_integral_contrapositive_currified; assumption. }
  assert (Hlt : num * num < den * den).
  { unfold den. 
    replace (cos (lat * PI / 180) * cos (asin (sinAlt dec lat ha)) *
             (cos (lat * PI / 180) * cos (asin (sinAlt dec lat ha))))
      with (cos (lat * PI / 180) * cos (lat * PI / 180) *
            (cos (asin (sinAlt dec lat ha)) * cos (asin (sinAlt dec lat ha)))) by ring.
    rewrite Hq. lra. }
  assert (Hx : num = (num / den) * den) by (field; exact Hden).
  set (x := num / den) in *. clearbody x num.
  assert (Hd2 : 0 < den * den) by (apply Rsqr_pos_lt; exact Hden).
  rewrite Hx in Hlt.
  assert (Hxx : x * x < 1).
  { apply Rmult_lt_reg_r with (den * den); [exact Hd2 |]. 
    replace (x * x * (den * den)) with (x * den * (x * den)) by ring. lra. }
  split; nra.
Qed.

Lemma rad2deg_bounds_lt (x lo hi : R) :
  lo * PI / 180 < x < hi * PI / 180 -> lo < x * 180 / PI < hi.
Proof.
  intros [Hlo Hhi]. pose proof PI_RGT_0 as Hpi.
  assert (Hx : x = (x * 180 / PI) * PI / 180) by (field; lra).
  set (d := x * 180 / PI) in *. clearbody d. split.
  - apply Rmult_lt_reg_r with (PI / 180); [lra | nra].
  - apply Rmult_lt_reg_r with (PI / 180); [lra | nra].
Qed.

Lemma clamped_acos_strict (x : R) :
  -1 < x < 1 ->
  exists z : R,
    rad2deg (Math.acos (Math.max (Fin (-1)) (Math.min (Fin 1) (Fin x)))) = Fin z /\
    0 < z < 180.
Proof.
  intros Hx. unfold Math.max, Math.min. cbn [Num.min Num.lt].
  rewrite Rltb_true by lra. cbn [Num.max Num.lt]. rewrite Rltb_true by lra.
  rewrite acos_Fin by lra. rewrite rad2deg_Fin.
  eexists; split; [reflexivity |].
  apply rad2deg_bounds_lt. pose proof (acos_bound_lt x Hx). lra.
Qed.

(** On finite arguments: the altitude is the arc sine of [sinAlt], in
    degrees, within [-90, 90]; the azimuth is NaN where the divisor of
    [cosAz] vanishes and a value of [0, 360] elsewhere, below 360 for a
    body off the celestial poles. *)
Lemma equatorialToHorizontal_finite (ra dec lat lon jd : R) :
  exists lst : R,
    getLocalSiderealTime (Fin jd) (Fin lon) = Fin lst /\
    altitude (equatorialToHorizontal (Fin ra) (Fin dec) (Fin lat) (Fin lon) (Fin jd)) =
      Fin (asin (sinAlt dec lat (lst - ra)) * 180 / PI) /\
    -90 <= asin (sinAlt dec lat (lst - ra)) * 180 / PI <= 90 /\
    ((cos (lat * PI / 180) * cos (asin (sinAlt dec lat (lst - ra))) = 0 /\
      azimuth (equatorialToHorizontal (Fin ra) (Fin dec) (Fin lat) (Fin lon) (Fin jd)) = NaN) \/
     (cos (lat * PI / 180) * cos (asin (sinAlt dec lat (lst - ra))) <> 0 /\
      exists az : R,
        azimuth (equatorialToHorizontal (Fin ra) (Fin dec) (Fin lat) (Fin lon) (Fin jd)) = Fin az /\
        0 <= az <= 360 /\
        (cos (dec * PI / 180) <> 0 -> az < 360))).
Proof.
  destruct (getLocalSiderealTime_finite jd lon) as [lst [Hlst _]].
  exists lst. split; [exact Hlst |].
  unfold equatorialToHorizontal. rewrite Hlst. unfold deg2rad. num_eval.
  fold (sinAlt dec lat (lst + - ra)).
  replace (lst + - ra) with (lst - ra) by lra.
  pose proof (sinAlt_bound dec lat (lst - ra)) as Hs.
  rewrite (asin_Fin Hs). cbn [altitude azimuth]. rewrite rad2deg_Fin.
  split; [reflexivity |].
  split; [apply rad2deg_bounds; pose proof (asin_bound (sinAlt dec lat (lst - ra))); lra |].
  num_eval.
  destruct (Req_dec_T (cos (lat * PI / 180) * cos (asin (sinAlt dec lat (lst - ra)))) 0)
    as [Hden | Hden].
  - left. split; [exact Hden |].
    rewrite (Reqb_true Hden).
    pose proof (cosAz_zero_over_zero _ _ _ Hden) as Hnum.
    match goal with
    | |- context [Num.signed_inf ?n] => replace n with 0 by (symmetry; exact Hnum)
    end.
    unfold Num.signed_inf. decide_reals.
    destruct (Num.Rltb _ _); reflexivity.
  - right. split; [exact Hden |].
    rewrite (Reqb_false Hden).
    match goal with
    | |- context [Math.max _ (Math.min _ ?c)] =>
        destruct (clamped_acos c) as [[Hc _] | [_ [z [Hz Hzr]]]]; [discriminate |]
    end.
    rewrite Hz.
    destruct (Rlt_dec 0 (sin ((lst - ra) * PI / 180))) as [Hk | Hk].
    + rewrite Rltb_true by exact Hk. cbn [Num.sub Num.neg Num.add].
      eexists; split; [reflexivity |]. split; [lra |].
      intros Hb.
      match type of Hz with
      | rad2deg (Math.acos (Math.max _ (Math.min _ (Fin ?x)))) = _ =>
          destruct (@clamped_acos_strict x) as [z' [Hz' Hzr']]
      end.
      { apply (@cosAz_strict dec lat (lst - ra)); [exact Hden | exact Hb | lra]. }
      rewrite Hz in Hz'. injection Hz' as ->. lra.
    + rewrite Rltb_false by lra.
      eexists; split; [reflexivity |]. split; lra.
Qed.

End Horizontal.

(** ** The transform at particular points *)

Section Examples.

Import Astronomy.
Local Open Scope R_scope.

(** At J2000.0 on the Greenwich meridian the sidereal time is the constant
    term of the polynomial. *)
Lemma getLocalSiderealTime_J2000 :
  getLocalSiderealTime (Fin 2451545.0) (Fin 0) = Fin 280.46061837.
Proof.
  unfold getLocalSiderealTime, J2000. num_eval.
  match goal with
  | |- context [Num.fmod ?x 360] => replace x with 280.46061837 by lra
  end.
  rewrite fmod_small; [| lra | unfold Rabs; destruct (Rcase_abs 280.46061837); lra].
  decide_reals. reflexivity.
Qed.

Lemma angle_90 : 90 * PI / 180 = PI / 2.
Proof. lra. Qed.

Lemma angle_180 : 180 * PI / 180 = PI.
Proof. lra. Qed.

Lemma angle_0 : 0 * PI / 180 = 0.
Proof. lra. Qed.

(** Rewrites the sines and cosines of 0, 90 and 180 degrees. *)
Ltac right_angles :=
  rewrite ?angle_90, ?angle_180, ?angle_0,
          ?sin_PI2, ?cos_PI2, ?sin_PI, ?cos_PI, ?sin_0, ?cos_0.

(** A body at the celestial pole, six hours past the meridian, seen from
    the equator: the azimuth comes out as 360, not 0. *)
Lemma azimuth_360 :
  equatorialToHorizontal (Fin 190.46061837) (Fin 90) (Fin 0) (Fin 0) (Fin 2451545.0) =
    {| altitude := Fin 0; azimuth := Fin 360 |}.
Proof.
  unfold equatorialToHorizontal. rewrite getLocalSiderealTime_J2000.
  unfold deg2rad. num_eval.
  replace ((280.46061837 + - (190.46061837)) * PI / 180) with (PI / 2) by lra.
  right_angles.
  replace (1 * 0 + 0 * 1 * 0) with 0 by lra.
  rewrite asin_Fin by lra. rewrite asin_0.
  unfold rad2deg at 1. num_eval. rewrite cos_0. num_eval.
  replace ((1 + - (0 * 0)) / (1 * 1)) with 1 by (field; lra).
  unfold Math.min, Math.max. cbn [Num.min Num.max Num.lt]. decide_reals.
  rewrite acos_Fin by lra. rewrite acos_1. rewrite rad2deg_Fin. num_eval.
  f_equal; f_equal; field; pose proof PI_RGT_0; lra.
Qed.

End Examples.

(** ** Coordinate ranges and the Moon phase *)

Section Ranges.

Import Astronomy.
Local Open Scope string_scope.
Local Open Scope R_scope.

(** The arc sine in degrees: NaN, or within [-90, 90]. *)
Lemma asin_degrees (s : number) :
  NaN_or (fun d => -90 <= d <= 90) (rad2deg (Math.asin s)).
Proof.
  destruct s as [x | | |]; try (left; reflexivity).
  destruct (Rlt_dec x (-1)) as [Hlo | Hlo].
  { left. cbn [Math.asin]. rewrite (Rltb_true Hlo). reflexivity. }
  destruct (Rlt_dec 1 x) as [Hhi | Hhi].
  { left. cbn [Math.asin]. rewrite (Rltb_true Hhi), orb_true_r. reflexivity. }
  right. apply declination_range. lra.
Qed.

(** The angle of a point: NaN, or within [-PI, PI]. *)
Lemma atan2_any (y x : number) :
  NaN_or (fun a => - PI <= a <= PI) (Math.atan2 y x).
Proof.
  pose proof PI_RGT_0 as Hpi.
  destruct y as [y | | |], x as [x | | |]; try (left; reflexivity);
    right; cbn [Math.atan2]; try (eexists; split; [reflexivity | lra]).
  - eexists; split; [reflexivity |]. pose proof (Ratan2_bound y x). lra.
  - destruct (Num.Rltb y 0); eexists; split; try reflexivity; lra.
Qed.

(** A right ascension, [(ra + 360) % 360] for the angle of a point in
    degrees: NaN, or within [0, 360). *)
Lemma right_ascension_any (y x : number) :
  NaN_or (fun r => 0 <= r < 360)
    (Num.rem (Num.add (rad2deg (Math.atan2 y x)) (Fin 360)) (Fin 360)).
Proof.
  destruct (atan2_any y x) as [-> | [a [-> Ha]]]; [left; reflexivity |].
  right. rewrite rad2deg_Fin. cbn [Num.add]. rewrite rem_360.
  eexists; split; [reflexivity |].
  assert (Hd : -180 <= a * 180 / PI <= 180) by (apply rad2deg_bounds; lra).
  destruct (@fmod_spec (a * 180 / PI + 360) 360) as [_ [Hpos _]]; [lra |].
  apply Hpos. lra.
Qed.

(** A remainder modulo 360: NaN, or strictly between -360 and 360. *)
Lemma rem_360_any (a : number) :
  NaN_or (fun r => -360 < r < 360) (Num.rem a (Fin 360)).
Proof.
  destruct a as [x | | |]; try (left; reflexivity).
  right. rewrite rem_360. eexists; split; [reflexivity |].
  destruct (@fmod_spec x 360) as [_ [Hpos Hneg]]; [lra |].
  destruct (Rle_dec 0 x) as [Hx | Hx]; [apply Hpos in Hx; lra |].
  assert (Hx' : x <= 0) by lra. apply Hneg in Hx'. lra.
Qed.

(** The declination of a planet, ten times a product of two sines: NaN,
    or within [-10, 10]. *)
Lemma planet_declination_any (inc : R) (M : number) :
  NaN_or (fun d => -10 <= d <= 10)
    (Num.mul (Num.mul (Math.sin (deg2rad (Fin inc))) (Math.sin M)) (Fin 10)).
Proof.
  rewrite deg2rad_Fin. destruct M as [x | | |]; try (left; reflexivity).
  right. cbn [Math.sin Num.mul]. eexists; split; [reflexivity |].
  pose proof (unit_product (SIN_bound (inc * PI / 180)) (SIN_bound x)). lra.
Qed.

(** The azimuth, the clamped arc cosine in degrees or 360 minus it: NaN,
    or within [0, 360]. *)
Lemma azimuth_degrees (c : number) (east : bool) :
  NaN_or (fun az => 0 <= az <= 360)
    (let azimuth := rad2deg (Math.acos (Math.max (Fin (-1)) (Math.min (Fin 1) c))) in
     if east then Num.sub (Fin 360) azimuth else azimuth).
Proof.
  cbv zeta. destruct (clamped_acos c) as [[_ ->] | [_ [z [-> Hz]]]].
  - left. destruct east; reflexivity.
  - right. destruct east; cbn [Num.sub Num.neg Num.add];
      eexists; (split; [reflexivity | lra]).
Qed.

(** Unfolds a lookup in the planet tables at a literal name. *)
Ltac find_planet :=
  cbv [getPlanetPosition Obj.get Obj.own Obj.field planets
       String.eqb Ascii.eqb Bool.eqb L0 w i].

(** Two coordinates out of their range.  Mercury a hundred days before
    J2000.0: the right ascension returned is negative.  A body at the
    celestial pole seen from the equator, six hours past the meridian:
    the azimuth is 360. *)
Lemma coordinates_out_of_range :
  (exists (p : position) (r : R),
      getPlanetPosition "Mercury" (Fin 2451445) = Some p /\
      pos_ra p = Fin r /\ r < 0) /\
  azimuth (equatorialToHorizontal (Fin 190.46061837) (Fin 90) (Fin 0) (Fin 0)
             (Fin 2451545.0)) = Fin 360.
Proof.
  split.
  - eexists. exists (-156.983). split; [apply Mercury_before_epoch |].
    split; [reflexivity | lra].
  - rewrite azimuth_360. reflexivity.
Qed.

(** C8, as amended.  Whatever the arguments, every coordinate is NaN or a
    number of its range: for the Sun and the Moon a right ascension in
    [0, 360) and a declination in [-90, 90]; for each of the five planets
    a right ascension strictly between -360 and 360 and a declination in
    [-10, 10]; for [equatorialToHorizontal] an altitude in [-90, 90] and an
    azimuth in [0, 360].  For the Julian Date of every time a [Date] can
    hold, the coordinates of the Sun, the Moon and the planets are
    numbers. *)
Theorem coordinate_ranges :
  (forall jd : number,
      NaN_or (fun r => 0 <= r < 360) (ra (getSunPosition jd)) /\
      NaN_or (fun d => -90 <= d <= 90) (dec (getSunPosition jd)) /\
      NaN_or (fun r => 0 <= r < 360) (ra (getMoonPosition jd)) /\
      NaN_or (fun d => -90 <= d <= 90) (dec (getMoonPosition jd))) /\
  Forall (fun name => forall jd : number, exists p : position,
      getPlanetPosition name jd = Some p /\
      NaN_or (fun r => -360 < r < 360) (pos_ra p) /\
      NaN_or (fun d => -10 <= d <= 10) (pos_dec p))
    ["Mercury"; "Venus"; "Mars"; "Jupiter"; "Saturn"] /\
  (forall ra dec lat lon jd : number,
      let pos := equatorialToHorizontal ra dec lat lon jd in
      NaN_or (fun alt => -90 <= alt <= 90) (altitude pos) /\
      NaN_or (fun az => 0 <= az <= 360) (azimuth pos)) /\
  (forall jd : R,
      civilDate jd ->
      Forall (fun a => Num.is_finite a = true)
        [ ra (getSunPosition (Fin jd)); dec (getSunPosition (Fin jd));
          ra (getMoonPosition (Fin jd)); dec (getMoonPosition (Fin jd)) ] /\
      Forall (fun name => exists p : position,
          getPlanetPosition name (Fin jd) = Some p /\
          Num.is_finite (pos_ra p) = true /\ Num.is_finite (pos_dec p) = true)
        ["Mercury"; "Venus"; "Mars"; "Jupiter"; "Saturn"]).
Proof.
  split; [| split; [| split]].
  - intros jd. unfold getSunPosition, getMoonPosition. cbn [ra dec].
    repeat split; first [apply right_ascension_any | apply asin_degrees].
  - repeat (apply Forall_cons;
            [intros jd; find_planet; eexists; split; [reflexivity |];
             cbn [pos_ra pos_dec]; split;
             [apply rem_360_any | apply planet_declination_any] |]).
    apply Forall_nil.
  - intros ra dec lat lon jd pos. subst pos. unfold equatorialToHorizontal.
    cbn [altitude azimuth]. split; [apply asin_degrees |].
    unfold Num.gt. apply azimuth_degrees.
  - intros jd _. split.
    + destruct (getSunPosition_finite jd) as [r [d [-> _]]].
      destruct (getMoonPosition_finite jd) as [r' [d' [-> _]]].
      repeat constructor.
    + repeat (apply Forall_cons;
              [match goal with
               | |- context [getPlanetPosition ?name _] =>
                   destruct (@getPlanetPosition_finite name jd eq_refl)
                     as [r [d [Hp _]]]
               end;
               eexists; split; [exact Hp | split; reflexivity] |]).
      apply Forall_nil.
Qed.

Lemma coordinate_ranges_witness :
  Forall (fun a => Num.is_finite a = true)
    [ ra (getSunPosition (Fin 2451545.0)); dec (getSunPosition (Fin 2451545.0));
      ra (getMoonPosition (Fin 2451545.0)); dec (getMoonPosition (Fin 2451545.0)) ] /\
  Forall (fun name => exists p : position,
      getPlanetPosition name (Fin 2451545.0) = Some p /\
      Num.is_finite (pos_ra p) = true /\ Num.is_finite (pos_dec p) = true)
    ["Mercury"; "Venus"; "Mars"; "Jupiter"; "Saturn"].
Proof.
  apply (proj2 (proj2 (proj2 coordinate_ranges)) 2451545.0).
  unfold civilDate, Rabs. destruct (Rcase_abs (2451545.0 - 2440587.5)); lra.
Defined.

(** C9, as amended.  For the Julian Date of every time a [Date] can hold,
    the right ascensions of the Sun and of the Moon are numbers of
    [0, 360); the phase angle [diff] is their difference, with 360 added
    when it is negative, a number from 0 to 360; and the illumination is
    [(1 - cos(diff in radians)) / 2], a number from 0 to 1.  The formula
    gives 0 for a difference of 0 and 1 for a difference of 180. *)
Theorem getMoonPhase_of_dates (jd : R) :
  civilDate jd ->
  exists sunRA moonRA diff illumination : R,
    ra (getSunPosition (Fin jd)) = Fin sunRA /\ 0 <= sunRA < 360 /\
    ra (getMoonPosition (Fin jd)) = Fin moonRA /\ 0 <= moonRA < 360 /\
    (let phase := Num.sub (Fin moonRA) (Fin sunRA) in
     if Num.lt phase (Fin 0) then Num.add phase (Fin 360) else phase) = Fin diff /\
    0 <= diff <= 360 /\
    getMoonPhase (Fin jd) =
      Num.div (Num.sub (Fin 1) (Math.cos (deg2rad (Fin diff)))) (Fin 2) /\
    getMoonPhase (Fin jd) = Fin illumination /\ 0 <= illumination <= 1 /\
    Num.div (Num.sub (Fin 1) (Math.cos (deg2rad (Fin 0)))) (Fin 2) = Fin 0 /\
    Num.div (Num.sub (Fin 1) (Math.cos (deg2rad (Fin 180)))) (Fin 2) = Fin 1.
Proof.
  intros _.
  destruct (getSunPosition_finite jd) as [s [ds [Hsun [Hs _]]]].
  destruct (getMoonPosition_finite jd) as [m [dm [Hmoon [Hm _]]]].
  assert (Hill : forall d : R,
            Num.div (Num.sub (Fin 1) (Math.cos (deg2rad (Fin d)))) (Fin 2) =
              Fin ((1 - cos (d * PI / 180)) / 2) /\
            0 <= (1 - cos (d * PI / 180)) / 2 <= 1).
  { intros d. unfold deg2rad. num_eval. split; [reflexivity |].
    pose proof (COS_bound (d * PI / 180)). lra. }
  assert (Hphase : forall phase : number,
            (let p := Num.sub (Fin m) (Fin s) in
             if Num.lt p (Fin 0) then Num.add p (Fin 360) else p) = phase ->
            getMoonPhase (Fin jd) =
              Num.div (Num.sub (Fin 1) (Math.cos (deg2rad phase))) (Fin 2)).
  { intros phase <-. unfold getMoonPhase. rewrite Hsun, Hmoon. reflexivity. }
  assert (Hgloss :
            Num.div (Num.sub (Fin 1) (Math.cos (deg2rad (Fin 0)))) (Fin 2) = Fin 0 /\
            Num.div (Num.sub (Fin 1) (Math.cos (deg2rad (Fin 180)))) (Fin 2) = Fin 1).
  { destruct (Hill 0) as [-> _]. destruct (Hill 180) as [-> _].
    rewrite angle_0, angle_180, cos_0, cos_PI. split; f_equal; lra. }
  assert (Hdiff : exists diff : R,
            (let p := Num.sub (Fin m) (Fin s) in
             if Num.lt p (Fin 0) then Num.add p (Fin 360) else p) = Fin diff /\
            0 <= diff <= 360).
  { cbn [Num.sub Num.neg Num.add Num.lt].
    destruct (Rlt_dec (m + - s) 0) as [Hlt | Hge].
    - rewrite Rltb_true by assumption. cbn [Num.add].
      eexists; split; [reflexivity | lra].
    - rewrite Rltb_false by lra. eexists; split; [reflexivity | lra]. }
  destruct Hdiff as [diff [Hdiff Hrange]].
  pose proof (Hphase _ Hdiff) as Hmp. destruct (Hill diff) as [Hval Hunit].
  exists s, m, diff, ((1 - cos (diff * PI / 180)) / 2).
  split; [rewrite Hsun; reflexivity |]. split; [exact Hs |].
  split; [rewrite Hmoon; reflexivity |]. split; [exact Hm |].
  split; [exact Hdiff |]. split; [exact Hrange |].
  split; [exact Hmp |]. split; [rewrite Hmp; exact Hval |].
  split; [exact Hunit | exact Hgloss].
Qed.

Lemma getMoonPhase_of_dates_witness :
  exists sunRA moonRA diff illumination : R,
    ra (getSunPosition (Fin 2451545.0)) = Fin sunRA /\ 0 <= sunRA < 360 /\
    ra (getMoonPosition (Fin 2451545.0)) = Fin moonRA /\ 0 <= moonRA < 360 /\
    (let phase := Num.sub (Fin moonRA) (Fin sunRA) in
     if Num.lt phase (Fin 0) then Num.add phase (Fin 360) else phase) = Fin diff /\
    0 <= diff <= 360 /\
    getMoonPhase (Fin 2451545.0) =
      Num.div (Num.sub (Fin 1) (Math.cos (deg2rad (Fin diff)))) (Fin 2) /\
    getMoonPhase (Fin 2451545.0) = Fin illumination /\ 0 <= illumination <= 1 /\
    Num.div (Num.sub (Fin 1) (Math.cos (deg2rad (Fin 0)))) (Fin 2) = Fin 0 /\
    Num.div (Num.sub (Fin 1) (Math.cos (deg2rad (Fin 180)))) (Fin 2) = Fin 1.
Proof.
  apply (@getMoonPhase_of_dates 2451545.0).
  unfold civilDate, Rabs. destruct (Rcase_abs (2451545.0 - 2440587.5)); lra.
Defined.

End Ranges.

(** ** The sort by a numeric key *)

Section SortByKey.

Local Open Scope R_scope.

Variable A : Type.
Variable key : A -> number.

(** The comparator [(a, b) => key(a) - key(b)]. *)
Let compareFn (a b : A) : number := Num.sub (key a) (key b).

Lemma finite_key_Fin (a : A) : finite_key key a -> exists x : R, key a = Fin x.
Proof.
  unfold finite_key. destruct (key a) as [x | | |]; try discriminate.
  intros _. exists x. reflexivity.
Qed.

Lemma insert_Permutation (x : A) (l : list A) :
  Permutation (x :: l) (insert compareFn x l).
Proof.
  induction l as [| y l IH]; cbn [insert]; [apply Permutation_refl |].
  destruct (Num.gt (compareFn x y) (Fin 0)).
  - apply perm_trans with (y :: x :: l); [apply perm_swap | apply perm_skip; exact IH].
  - apply Permutation_refl.
Qed.

Lemma sort_Permutation (l : list A) : Permutation l (sort compareFn l).
Proof.
  induction l as [| x l IH]; cbn [sort]; [apply perm_nil |].
  apply perm_trans with (x :: sort compareFn l);
    [apply perm_skip; exact IH | apply insert_Permutation].
Qed.

Lemma sort_Forall (P : A -> Prop) (l : list A) :
  Forall P l -> Forall P (sort compareFn l).
Proof. intros H. apply (Permutation_Forall (sort_Permutation l) H). Qed.

Lemma insert_In (x z : A) (l : list A) :
  In z (insert compareFn x l) -> z = x \/ In z l.
Proof.
  intros H. apply (Permutation_in _ (Permutation_sym (insert_Permutation x l))) in H.
  destruct H as [H | H]; [left; symmetry; exact H | right; exact H].
Qed.

Lemma insert_sorted (x : A) (l : list A) :
  finite_key key x -> Forall (finite_key key) l ->
  StronglySorted (key_le key) l -> StronglySorted (key_le key) (insert compareFn x l).
Proof.
  intros Hx Hl Hs. induction l as [| y l IH]; cbn [insert].
  - constructor; constructor.
  - apply Forall_cons_iff in Hl. destruct Hl as [Hy Hl].
    apply StronglySorted_inv in Hs. destruct Hs as [Hs Hall].
    destruct (finite_key_Fin Hx) as [kx Hkx].
    destruct (finite_key_Fin Hy) as [ky Hky].
    unfold compareFn, Num.gt. rewrite Hkx, Hky. cbn [Num.sub Num.neg Num.add Num.lt].
    destruct (Rlt_dec 0 (kx + - ky)) as [Hgt | Hle].
    + rewrite Rltb_true by assumption.
      constructor; [apply IH; assumption |].
      apply Forall_forall. intros z Hz. apply insert_In in Hz.
      destruct Hz as [-> | Hz].
      * exists ky, kx. repeat split; try assumption. lra.
      * rewrite Forall_forall in Hall. apply Hall. exact Hz.
    + rewrite Rltb_false by lra.
      constructor; [constructor; assumption |].
      constructor.
      * exists kx, ky. repeat split; try assumption. lra.
      * apply Forall_forall. intros z Hz. rewrite Forall_forall in Hall.
        destruct (Hall z Hz) as [a [b [Ha [Hb Hab]]]].
        rewrite Hky in Ha. injection Ha as <-.
        exists kx, b. repeat split; try assumption. lra.
Qed.

(** On finite keys the result is in non-decreasing order of the key. *)
Lemma sort_sorted (l : list A) :
  Forall (finite_key key) l -> StronglySorted (key_le key) (sort compareFn l).
Proof.
  induction l as [| x l IH]; intros Hl; cbn [sort]; [constructor |].
  apply Forall_cons_iff in Hl. destruct Hl as [Hx Hl].
  apply insert_sorted; [exact Hx | apply sort_Forall; exact Hl | apply IH; exact Hl].
Qed.

(** An element only goes behind elements with another key. *)
Lemma gt_sub_differ (a b m : number) :
  Num.gt (Num.sub a b) (Fin 0) = true -> Num.eqb a m = true -> Num.eqb b m = false.
Proof.
  unfold Num.gt, Num.sub.
  destruct a as [x | | |], b as [y | | |], m as [z | | |];
    cbn [Num.neg Num.add Num.lt Num.eqb]; try discriminate; try reflexivity.
  intros Hlt Hxz. apply Rltb_lt in Hlt. apply Reqb_eq in Hxz.
  apply Reqb_false. lra.
Qed.

Lemma insert_stable (m : number) (x : A) (l : list A) :
  filter (fun a => Num.eqb (key a) m) (insert compareFn x l) =
  filter (fun a => Num.eqb (key a) m) (x :: l).
Proof.
  induction l as [| y l IH]; cbn [insert]; [reflexivity |].
  destruct (Num.gt (compareFn x y) (Fin 0)) eqn:Hgt; [| reflexivity].
  cbn [filter] in *. rewrite IH.
  destruct (Num.eqb (key x) m) eqn:Hx; [| reflexivity].
  rewrite (@gt_sub_differ (key x) (key y) m Hgt Hx). reflexivity.
Qed.

(** The sort is stable: the elements of one key keep their order. *)
Lemma sort_stable (m : number) (l : list A) :
  filter (fun a => Num.eqb (key a) m) (sort compareFn l) =
  filter (fun a => Num.eqb (key a) m) l.
Proof.
  induction l as [| x l IH]; cbn [sort]; [reflexivity |].
  rewrite insert_stable. cbn [filter]. rewrite IH. reflexivity.
Qed.

(** Two lists in order of the key whose elements of each key are the
    same, in the same order, are equal. *)
Lemma sorted_stable_unique (l1 l2 : list A) :
  Forall (finite_key key) l1 -> Forall (finite_key key) l2 ->
  StronglySorted (key_le key) l1 -> StronglySorted (key_le key) l2 ->
  (forall m : number,
      filter (fun a => Num.eqb (key a) m) l1 = filter (fun a => Num.eqb (key a) m) l2) ->
  l1 = l2.
Proof.
  revert l2. induction l1 as [| x l1 IH]; intros l2 Hf1 Hf2 Hs1 Hs2 Hm.
  - destruct l2 as [| y l2]; [reflexivity |].
    apply Forall_cons_iff in Hf2. destruct Hf2 as [Hy _].
    destruct (finite_key_Fin Hy) as [ky Hky].
    specialize (Hm (Fin ky)). cbn [filter] in Hm. rewrite Hky in Hm.
    cbn [Num.eqb] in Hm. rewrite Reqb_true in Hm by reflexivity. discriminate.
  - apply Forall_cons_iff in Hf1. destruct Hf1 as [Hx Hf1].
    destruct (finite_key_Fin Hx) as [kx Hkx].
    apply StronglySorted_inv in Hs1. destruct Hs1 as [Hs1 Hall1].
    assert (Hhead : forall m l, filter (fun a => Num.eqb (key a) m) (x :: l) =
              if Num.eqb (Fin kx) m then x :: filter (fun a => Num.eqb (key a) m) l
              else filter (fun a => Num.eqb (key a) m) l).
    { intros m l. cbn [filter]. rewrite Hkx. reflexivity. }
    destruct l2 as [| y l2].
    { specialize (Hm (Fin kx)). rewrite Hhead in Hm. cbn [Num.eqb filter] in Hm.
      rewrite Reqb_true in Hm by reflexivity. discriminate. }
    apply Forall_cons_iff in Hf2. destruct Hf2 as [Hy Hf2].
    destruct (finite_key_Fin Hy) as [ky Hky].
    apply StronglySorted_inv in Hs2. destruct Hs2 as [Hs2 Hall2].
    assert (Hle1 : kx <= ky).
    { pose proof (Hm (Fin ky)) as H. cbn [filter] in H. rewrite Hkx, Hky in H.
      cbn [Num.eqb] in H. rewrite (@Reqb_true ky ky) in H by reflexivity.
      destruct (Num.Reqb kx ky) eqn:E; [apply Reqb_eq in E; lra |].
      assert (Hin : In y (filter (fun a => Num.eqb (key a) (Fin ky)) l1))
        by (rewrite H; left; reflexivity).
      apply filter_In in Hin. destruct Hin as [Hin _].
      rewrite Forall_forall in Hall1.
      destruct (Hall1 y Hin) as [a [b [Ha [Hb Hab]]]].
      rewrite Hkx in Ha. rewrite Hky in Hb. injection Ha as <-. injection Hb as <-.
      exact Hab. }
    assert (Hle2 : ky <= kx).
    { pose proof (Hm (Fin kx)) as H. cbn [filter] in H. rewrite Hkx, Hky in H.
      cbn [Num.eqb] in H. rewrite (@Reqb_true kx kx) in H by reflexivity.
      destruct (Num.Reqb ky kx) eqn:E; [apply Reqb_eq in E; lra |].
      assert (Hin : In x (filter (fun a => Num.eqb (key a) (Fin kx)) l2))
        by (rewrite <- H; left; reflexivity).
      apply filter_In in Hin. destruct Hin as [Hin _].
      rewrite Forall_forall in Hall2.
      destruct (Hall2 x Hin) as [a [b [Ha [Hb Hab]]]].
      rewrite Hky in Ha. rewrite Hkx in Hb. injection Ha as <-. injection Hb as <-.
      exact Hab. }
    assert (Hk : ky = kx) by lra. subst ky.
    assert (Hxy : x = y).
    { pose proof (Hm (Fin kx)) as H. cbn [filter] in H. rewrite Hkx, Hky in H.
      cbn [Num.eqb] in H. rewrite (@Reqb_true kx kx) in H by reflexivity.
      injection H as H _. exact H. }
    subst y. f_equal. apply IH; try assumption.
    intros m. pose proof (Hm m) as H. cbn [filter] in H.
    destruct (Num.eqb (key x) m); [injection H as H; exact H | exact H].
Qed.

(** Order and stability determine the result of the sort: whatever the
    algorithm of an implementation, on finite keys it returns this list. *)
Lemma sort_unique (l l' : list A) :
  Forall (finite_key key) l -> Forall (finite_key key) l' ->
  StronglySorted (key_le key) l' ->
  (forall m : number,
      filter (fun a => Num.eqb (key a) m) l' = filter (fun a => Num.eqb (key a) m) l) ->
  l' = sort compareFn l.
Proof.
  intros Hl Hl' Hs Hm. apply sorted_stable_unique.
  - exact Hl'.
  - apply sort_Forall. exact Hl.
  - exact Hs.
  - apply sort_sorted. exact Hl.
  - intros m. rewrite sort_stable. apply Hm.
Qed.

End SortByKey.

(** ** Loops over an array *)

Section ForEachFacts.

Variables A B : Type.
Variable f : A -> option (A * list B).

Lemma forEach_returns (l : list A) :
  (forall x, In x l -> exists r, f x = Some r) ->
  exists r, forEach f l = Some r.
Proof.
  induction l as [| x l IH]; intros H; cbn [forEach]; [eexists; reflexivity |].
  destruct (H x (or_introl eq_refl)) as [[x' pushed] Hx]. rewrite Hx.
  destruct IH as [[l' pushed'] Hl]; [intros y Hy; apply H; right; exact Hy |].
  rewrite Hl. eexists; reflexivity.
Qed.

(** What the loop pushed is made of what its bodies pushed. *)
Lemma forEach_pushed (P : B -> Prop) (l l' : list A) (pushed : list B) :
  (forall x x' p, In x l -> f x = Some (x', p) -> Forall P p) ->
  forEach f l = Some (l', pushed) -> Forall P pushed.
Proof.
  revert l' pushed. induction l as [| x l IH]; intros l' pushed H; cbn [forEach].
  - intros [= <- <-]. constructor.
  - destruct (f x) as [[x' p] |] eqn:Hx; [| discriminate].
    destruct (forEach f l) as [[l'' p'] |] eqn:Hl; [| discriminate].
    intros [= <- <-]. apply Forall_app. split.
    + apply (H x x' p); [left; reflexivity | exact Hx].
    + apply (IH l'' p'); [| reflexivity].
      intros y y' q Hy. apply H. right. exact Hy.
Qed.

(** The elements as the loop leaves them, when every body leaves [g x]. *)
Lemma forEach_elements (g : A -> A) (l l' : list A) (pushed : list B) :
  (forall x x' p, In x l -> f x = Some (x', p) -> x' = g x) ->
  forEach f l = Some (l', pushed) -> l' = map g l.
Proof.
  revert l' pushed. induction l as [| x l IH]; intros l' pushed H; cbn [forEach].
  - intros [= <- <-]. reflexivity.
  - destruct (f x) as [[x' p] |] eqn:Hx; [| discriminate].
    destruct (forEach f l) as [[l'' p'] |] eqn:Hl; [| discriminate].
    intros [= <- <-]. cbn [map]. f_equal.
    + apply (H x x' p); [left; reflexivity | exact Hx].
    + apply (IH l'' p'); [| reflexivity].
      intros y y' q Hy. apply H. right. exact Hy.
Qed.

End ForEachFacts.

Lemma forEach_ext (A B : Type) (f g : A -> option (A * list B)) (l : list A) :
  (forall x, In x l -> f x = g x) -> forEach f l = forEach g l.
Proof.
  induction l as [| x l IH]; intros H; cbn [forEach]; [reflexivity |].
  rewrite (H x (or_introl eq_refl)).
  rewrite IH by (intros y Hy; apply H; right; exact Hy). reflexivity.
Qed.

(** ** [angleDifference] terminates on the angles of the engine *)

Section AngleDifference.

Import NightSkyApp.
Local Open Scope R_scope.

Lemma while_above_Fin (fuel : nat) (x : R) :
  x <= 180 + 360 * INR fuel ->
  exists y : R,
    while_above fuel (Fin x) = Some (Fin y) /\
    y <= 180 /\ (x <= 180 -> y = x) /\ (180 < x -> -180 < y).
Proof.
  revert x. induction fuel as [| fuel IH]; intros x Hx.
  - cbn [INR] in Hx. cbn [while_above]. unfold Num.gt. cbn [Num.lt].
    rewrite Rltb_false by lra. exists x. repeat split; lra.
  - rewrite S_INR in Hx. cbn [while_above]. unfold Num.gt. cbn [Num.lt].
    destruct (Rlt_dec 180 x) as [Hgt | Hle].
    + rewrite Rltb_true by assumption. cbn [Num.sub Num.neg Num.add].
      destruct (IH (x + - 360)) as [y [Hy [Hy1 [Hy2 Hy3]]]]; [lra |].
      exists y. split; [exact Hy |]. split; [exact Hy1 |]. split; [lra |].
      intros _. destruct (Rle_dec (x + - 360) 180) as [H1 | H1].
      * rewrite (Hy2 H1). lra.
      * apply Hy3. lra.
    + rewrite Rltb_false by lra. exists x. repeat split; lra.
Qed.

Lemma while_below_Fin (fuel : nat) (x : R) :
  - 180 - 360 * INR fuel <= x ->
  exists y : R,
    while_below fuel (Fin x) = Some (Fin y) /\
    -180 <= y /\ (-180 <= x -> y = x) /\ (x < -180 -> y < 180).
Proof.
  revert x. induction fuel as [| fuel IH]; intros x Hx.
  - cbn [INR] in Hx. cbn [while_below]. cbn [Num.lt].
    rewrite Rltb_false by lra. exists x. repeat split; lra.
  - rewrite S_INR in Hx. cbn [while_below]. cbn [Num.lt].
    destruct (Rlt_dec x (-180)) as [Hlt | Hge].
    + rewrite Rltb_true by assumption. cbn [Num.add].
      destruct (IH (x + 360)) as [y [Hy [Hy1 [Hy2 Hy3]]]]; [lra |].
      exists y. split; [exact Hy |]. split; [exact Hy1 |]. split; [lra |].
      intros _. destruct (Rle_dec (-180) (x + 360)) as [H1 | H1].
      * rewrite (Hy2 H1). lra.
      * apply Hy3. lra.
    + rewrite Rltb_false by lra. exists x. repeat split; lra.
Qed.

Lemma rounds_enough (x : R) : Rabs x < 360 * INR (rounds (Fin x)).
Proof.
  cbn [rounds]. rewrite S_INR.
  destruct (archimed (Rabs x / 360)) as [Hup _].
  assert (Hq : 0 <= Rabs x / 360).
  { pose proof (Rabs_pos x). apply Rmult_le_pos; lra. }
  assert (Hz : (0 <= up (Rabs x / 360))%Z).
  { apply le_IZR. lra. }
  rewrite INR_IZR_INZ, Z2Nat.id by exact Hz.
  assert (Hx : Rabs x = 360 * (Rabs x / 360)) by (field; lra).
  lra.
Qed.

(** A finite difference is brought into [-180, 180]. *)
Lemma angleDifference_Fin (x y : R) :
  exists d : R, angleDifference (Fin x) (Fin y) = Some (Fin d) /\ -180 <= d <= 180.
Proof.
  unfold angleDifference, angleDifference_fuel. cbn [Num.sub Num.neg Num.add].
  pose proof (rounds_enough (x + - y)) as Hr.
  set (fuel := rounds (Fin (x + - y))) in *. clearbody fuel.
  assert (Habs : - Rabs (x + - y) <= x + - y <= Rabs (x + - y)).
  { unfold Rabs. destruct (Rcase_abs (x + - y)); lra. }
  destruct (@while_above_Fin fuel (x + - y)) as [d1 [H1 [Hd1 [Hsame Hwrap]]]]; [lra |].
  rewrite H1.
  destruct (@while_below_Fin fuel d1) as [d2 [H2 [Hd2 [Hsame2 Hwrap2]]]].
  { destruct (Rle_dec (x + - y) 180) as [Hle | Hgt].
    - rewrite (Hsame Hle). lra.
    - assert (-180 < d1) by (apply Hwrap; lra). pose proof (pos_INR fuel). lra. }
  exists d2. split; [exact H2 |]. split; [exact Hd2 |].
  destruct (Rle_dec (-180) d1) as [Hle | Hgt].
  - rewrite (Hsame2 Hle). exact Hd1.
  - assert (d2 < 180) by (apply Hwrap2; lra). lra.
Qed.

(** The loops leave NaN at once and never leave an infinite difference. *)
Lemma while_above_PInf (fuel : nat) : while_above fuel PInf = None.
Proof. induction fuel as [| fuel IH]; cbn [while_above]; [reflexivity | exact IH]. Qed.

Lemma while_below_NInf (fuel : nat) : while_below fuel NInf = None.
Proof. induction fuel as [| fuel IH]; cbn [while_below]; [reflexivity | exact IH]. Qed.

Lemma while_above_deterministic (fuel1 fuel2 : nat) (d r1 r2 : number) :
  while_above fuel1 d = Some r1 -> while_above fuel2 d = Some r2 -> r1 = r2.
Proof.
  revert fuel2 d. induction fuel1 as [| fuel1 IH]; intros fuel2 d;
    destruct fuel2 as [| fuel2]; cbn [while_above];
    destruct (Num.gt d (Fin 180)); try discriminate; try congruence.
  apply IH.
Qed.

Lemma while_below_deterministic (fuel1 fuel2 : nat) (d r1 r2 : number) :
  while_below fuel1 d = Some r1 -> while_below fuel2 d = Some r2 -> r1 = r2.
Proof.
  revert fuel2 d. induction fuel1 as [| fuel1 IH]; intros fuel2 d;
    destruct fuel2 as [| fuel2]; cbn [while_below];
    destruct (Num.lt d (Fin (-180))); try discriminate; try congruence.
  apply IH.
Qed.

Lemma angleDifference_fuel_deterministic (fuel1 fuel2 : nat) (a b d1 d2 : number) :
  angleDifference_fuel fuel1 a b = Some d1 ->
  angleDifference_fuel fuel2 a b = Some d2 -> d1 = d2.
Proof.
  unfold angleDifference_fuel.
  destruct (while_above fuel1 (Num.sub a b)) as [r1 |] eqn:H1; [| discriminate].
  destruct (while_above fuel2 (Num.sub a b)) as [r2 |] eqn:H2; [| discriminate].
  rewrite (@while_above_deterministic fuel1 fuel2 _ _ _ H1 H2).
  apply while_below_deterministic.
Qed.

(** The loops terminate unless the difference is infinite. *)
Lemma angleDifference_returns (a b : number) :
  Num.is_infinite (Num.sub a b) = false ->
  exists d : number, angleDifference a b = Some d.
Proof.
  destruct a as [x | | |], b as [y | | |]; try discriminate; intros _;
    try (exists NaN; reflexivity).
  destruct (angleDifference_Fin x y) as [d [Hd _]]. exists (Fin d). exact Hd.
Qed.

Lemma angleDifference_fuel_infinite (fuel : nat) (a b : number) :
  Num.is_infinite (Num.sub a b) = true -> angleDifference_fuel fuel a b = None.
Proof.
  unfold angleDifference_fuel. destruct (Num.sub a b) as [x | | |]; try discriminate;
    intros _.
  - rewrite while_above_PInf. reflexivity.
  - assert (H : while_above fuel NInf = Some NInf) by (destruct fuel; reflexivity).
    rewrite H. apply while_below_NInf.
Qed.

(** No number of rounds gives a result that [rounds] misses. *)
Lemma angleDifference_adequate (fuel : nat) (a b d : number) :
  angleDifference_fuel fuel a b = Some d -> angleDifference a b = Some d.
Proof.
  intros H. destruct (Num.is_infinite (Num.sub a b)) eqn:Hinf.
  - rewrite (angleDifference_fuel_infinite fuel _ _ Hinf) in H. discriminate.
  - destruct (angleDifference_returns _ _ Hinf) as [d' Hd']. rewrite Hd'. f_equal.
    apply (@angleDifference_fuel_deterministic _ _ _ _ _ _ Hd' H).
Qed.

End AngleDifference.

(** ** NaN and infinities through the transform *)

Section Propagation.

Import Astronomy.
Local Open Scope R_scope.

Lemma add_NaN_r (a : number) : Num.add a NaN = NaN.
Proof. destruct a; reflexivity. Qed.

Lemma mul_NaN_r (a : number) : Num.mul a NaN = NaN.
Proof. destruct a; reflexivity. Qed.

Lemma rem_360_not_infinite (a : number) :
  Num.is_infinite (Num.rem a (Fin 360)) = false.
Proof. destruct a; cbn [Num.rem]; decide_reals; reflexivity. Qed.

(** Whatever the arguments, the azimuth is a finite number or NaN. *)
Lemma azimuth_not_infinite (ra dec lat lon jd : number) :
  Num.is_infinite (azimuth (equatorialToHorizontal ra dec lat lon jd)) = false.
Proof.
  unfold equatorialToHorizontal. cbn [azimuth].
  match goal with
  | |- context [Math.max _ (Math.min _ ?c)] =>
      destruct (clamped_acos c) as [[_ H] | [_ [z [H _]]]]; rewrite H
  end; destruct (Num.gt _ _); reflexivity.
Qed.

(** With a NaN Julian Date, the date of an invalid [Date], the altitude is
    NaN. *)
Lemma altitude_NaN (ra dec lat lon : number) :
  altitude (equatorialToHorizontal ra dec lat lon NaN) = NaN.
Proof.
  unfold equatorialToHorizontal. cbn [altitude].
  assert (Hlst : getLocalSiderealTime NaN lon = NaN) by reflexivity.
  rewrite Hlst.
  assert (Hha : deg2rad (Num.sub NaN ra) = NaN) by reflexivity.
  rewrite Hha. cbn [Math.cos]. rewrite mul_NaN_r, add_NaN_r. reflexivity.
Qed.

End Propagation.

(** ** The query of [NightSkyApp] *)

Section NightSkyAppFacts.

Import Astronomy NightSkyApp.
Local Open Scope R_scope.

Lemma inView_returns (app : t) (vAlt : number) (pos : horizontal) :
  Num.is_infinite (azimuth pos) = false ->
  exists b : bool, inView app (viewAzimuth app) vAlt pos = Some b.
Proof.
  intros Haz. unfold inView.
  destruct (Num.gt (altitude pos) (Fin 0)); [| eexists; reflexivity].
  destruct (@angleDifference_returns (azimuth pos) (viewAzimuth app)) as [d Hd].
  { pose proof (rem_360_not_infinite (Num.add (alpha app) (compassOffset app))) as Hv.
    fold (viewAzimuth app) in Hv.
    destruct (azimuth pos), (viewAzimuth app); try discriminate; reflexivity. }
  rewrite Hd. eexists; reflexivity.
Qed.

Lemma inView_true (app : t) (vAz vAlt : number) (pos : horizontal) :
  inView app vAz vAlt pos = Some true -> Num.gt (altitude pos) (Fin 0) = true.
Proof.
  unfold inView. destruct (Num.gt (altitude pos) (Fin 0)); [reflexivity | discriminate].
Qed.

(** The test reads the latitude, longitude and field of view only. *)
Lemma inView_fov (app app' : t) (vAz vAlt : number) (pos : horizontal) :
  fov app' = fov app -> inView app' vAz vAlt pos = inView app vAz vAlt pos.
Proof. intros H. unfold inView. rewrite H. reflexivity. Qed.

Lemma checkStar_returns (app : t) (jd : number) (star : Star.t) :
  exists pushed,
    checkStar app jd (viewAzimuth app) (viewAltitude app) star =
      Some (observed star (starPosition app jd star), pushed).
Proof.
  unfold checkStar. fold (starPosition app jd star).
  destruct (@inView_returns app (viewAltitude app) (starPosition app jd star)) as [b Hb];
    [apply azimuth_not_infinite |].
  rewrite Hb. destruct b; eexists; reflexivity.
Qed.

Lemma checkPlanet_returns (app : t) (jd : number) (planetName : string) :
  exists pushed,
    checkPlanet app jd (viewAzimuth app) (viewAltitude app) planetName =
      Some (planetName, pushed).
Proof.
  unfold checkPlanet. destruct (getPlanetPosition planetName jd) as [planet |];
    [| eexists; reflexivity].
  match goal with
  | |- context [inView _ _ _ ?pos] =>
      destruct (@inView_returns app (viewAltitude app) pos) as [b Hb];
        [apply azimuth_not_infinite |]
  end.
  rewrite Hb. destruct b; eexists; reflexivity.
Qed.

Lemma checkMoon_returns (app : t) (jd : number) :
  exists pushed, checkMoon app jd (viewAzimuth app) (viewAltitude app) = Some pushed.
Proof.
  unfold checkMoon.
  match goal with
  | |- context [inView _ _ _ ?pos] =>
      destruct (@inView_returns app (viewAltitude app) pos) as [b Hb];
        [apply azimuth_not_infinite |]
  end.
  rewrite Hb. destruct b; eexists; reflexivity.
Qed.

Lemma forEach_flat_map (A : Type) (f : A -> option (A * list SkyObject.t))
    (l l' : list A) (pushed : list SkyObject.t) :
  forEach f l = Some (l', pushed) -> pushed = flat_map (pushes f) l.
Proof.
  revert l' pushed. induction l as [| x l IH]; intros l' pushed; cbn [forEach].
  - intros [= <- <-]. reflexivity.
  - cbn [flat_map].
    destruct (f x) as [[x' p] |] eqn:Hx; [| discriminate].
    destruct (forEach f l) as [[l'' p'] |] eqn:Hl; [| discriminate].
    intros [= <- <-]. unfold pushes at 1. rewrite Hx. f_equal.
    apply (IH l'' p'). reflexivity.
Qed.

(** The method returns, and leaves the object described here. *)
Lemma calculateVisibleObjects_returns (now : number) (app : t) :
  calculateVisibleObjects now app =
    Some {| latitude := latitude app;
            longitude := longitude app;
            alpha := alpha app;
            beta := beta app;
            gamma := gamma app;
            compassOffset := compassOffset app;
            fov := fov app;
            stars := map (fun star => observed star (starPosition app (getJulianDate now) star))
                         (stars app);
            planets := planets app;
            visibleObjects := sort SkyObject.byMagnitude (generatedVisible now app) |}.
Proof.
  unfold calculateVisibleObjects, generatedVisible.
  fold (viewAzimuth app). fold (viewAltitude app).
  set (jd := getJulianDate now).
  destruct (@forEach_returns _ _ (checkStar app jd (viewAzimuth app) (viewAltitude app))
              (stars app)) as [[stars' fromStars] Hs].
  { intros star _. destruct (checkStar_returns app jd star) as [p Hp].
    eexists; exact Hp. }
  destruct (@forEach_returns _ _ (checkPlanet app jd (viewAzimuth app) (viewAltitude app))
              (planets app)) as [[planets' fromPlanets] Hp].
  { intros name _. destruct (checkPlanet_returns app jd name) as [p Hp].
    eexists; exact Hp. }
  destruct (checkMoon_returns app jd) as [fromMoon Hm].
  rewrite Hs, Hp, Hm.
  rewrite <- (forEach_flat_map _ _ Hs), <- (forEach_flat_map _ _ Hp).
  assert (Hstars : stars' =
            map (fun star => observed star (starPosition app jd star)) (stars app)).
  { eapply forEach_elements; [| exact Hs]. cbv beta. intros star star' p _ Hstar.
    destruct (checkStar_returns app jd star) as [q Hq]. congruence. }
  assert (Hplanets : planets' = map (fun name => name) (planets app)).
  { eapply forEach_elements; [| exact Hp]. cbv beta. intros name name' p _ Hname.
    destruct (checkPlanet_returns app jd name) as [q Hq]. congruence. }
  rewrite map_id in Hplanets. rewrite Hstars, Hplanets. reflexivity.
Qed.

End NightSkyAppFacts.

(** ** What the loops push *)

Section Pushed.

Import Astronomy.
Local Open Scope R_scope.

Lemma getPlanetMagnitude_finite (name : string) :
  Obj.inherited name = false -> exists x : R, getPlanetMagnitude name = Num (Fin x).
Proof.
  intros Hi. unfold getPlanetMagnitude, Obj.get, magnitudes. cbn [Obj.own].
  repeat match goal with
    | |- context [String.eqb ?s name] =>
        destruct (String.eqb s name);
          [cbn [Num.truthy]; destruct (Num.Reqb _ _); eexists; reflexivity |]
    end.
  rewrite Hi. eexists; reflexivity.
Qed.

Lemma getPlanetPosition_magnitude (name : string) (jd : number) (planet : position) :
  getPlanetPosition name jd = Some planet ->
  pos_magnitude planet = getPlanetMagnitude name.
Proof.
  unfold getPlanetPosition. destruct (Obj.get planets name); intros [= <-]; reflexivity.
Qed.

(** A predicate on the objects of a query goes through the loops once it
    holds of the three kinds of objects. *)
Section Lifting.

Variable P : SkyObject.t -> Prop.

Lemma generatedVisible_Forall (now : number) (app : NightSkyApp.t) :
  (forall star pos,
      In star (NightSkyApp.stars app) -> Num.gt (altitude pos) (Fin 0) = true ->
      P (NightSkyApp.starObject (NightSkyApp.observed star pos) pos)) ->
  (forall name planet pos,
      In name (NightSkyApp.planets app) ->
      getPlanetPosition name (getJulianDate now) = Some planet ->
      Num.gt (altitude pos) (Fin 0) = true ->
      P (NightSkyApp.planetObject name planet pos)) ->
  (forall phase pos,
      Num.gt (altitude pos) (Fin 0) = true -> P (NightSkyApp.moonObject phase pos)) ->
  Forall P (generatedVisible now app).
Proof.
  intros Hstar Hplanet Hmoon. unfold generatedVisible.
  repeat (apply Forall_app; split).
  - apply Forall_flat_map. apply Forall_forall. intros star Hin.
    unfold pushes, NightSkyApp.checkStar.
    destruct (NightSkyApp.inView _ _ _ _) as [[|] |] eqn:Hv; try constructor; [| constructor].
    apply Hstar; [exact Hin | eapply inView_true; exact Hv].
  - apply Forall_flat_map. apply Forall_forall. intros name Hin.
    unfold pushes, NightSkyApp.checkPlanet.
    destruct (getPlanetPosition name (getJulianDate now)) as [planet |] eqn:Hp;
      [| constructor].
    destruct (NightSkyApp.inView _ _ _ _) as [[|] |] eqn:Hv; try constructor; [| constructor].
    apply Hplanet; [exact Hin | exact Hp | eapply inView_true; exact Hv].
  - unfold NightSkyApp.checkMoon.
    destruct (NightSkyApp.inView _ _ _ _) as [[|] |] eqn:Hv; try constructor; [| constructor].
    apply Hmoon. eapply inView_true; exact Hv.
Qed.

Lemma generatedAll_Forall (now : number) (app : NightSkyMapZoom.t) :
  (forall star pos,
      In star (NightSkyMapZoom.stars app) -> Num.gt (altitude pos) (Fin 0) = true ->
      P (NightSkyMapZoom.starObject star pos)) ->
  (forall name planet pos,
      In name (NightSkyMapZoom.planets app) ->
      getPlanetPosition name (getJulianDate now) = Some planet ->
      Num.gt (altitude pos) (Fin 0) = true ->
      P (NightSkyMapZoom.planetObject name planet pos)) ->
  (forall phase pos,
      Num.gt (altitude pos) (Fin 0) = true -> P (NightSkyMapZoom.moonObject phase pos)) ->
  Forall P (generatedAll now app).
Proof.
  intros Hstar Hplanet Hmoon. unfold generatedAll.
  repeat (apply Forall_app; split).
  - apply Forall_flat_map. apply Forall_forall. intros star Hin.
    unfold NightSkyMapZoom.addStar.
    destruct (Num.gt _ _) eqn:Hv; constructor; [| constructor].
    apply Hstar; assumption.
  - apply Forall_flat_map. apply Forall_forall. intros name Hin.
    unfold NightSkyMapZoom.addPlanet.
    destruct (getPlanetPosition name (getJulianDate now)) as [planet |] eqn:Hp;
      [| constructor].
    destruct (Num.gt _ _) eqn:Hv; constructor; [| constructor].
    apply Hplanet; assumption.
  - unfold NightSkyMapZoom.addMoon.
    destruct (Num.gt _ _) eqn:Hv; constructor; [| constructor].
    apply Hmoon; assumption.
Qed.

End Lifting.

Lemma finite_magnitudes_stars (stars : list Star.t) (planets : list string) (star : Star.t) :
  finite_magnitudes stars planets = true -> In star stars ->
  Num.is_finite (Star.magnitude star) = true.
Proof.
  unfold finite_magnitudes. intros H Hin. apply andb_prop in H. destruct H as [H _].
  rewrite forallb_forall in H. apply H. exact Hin.
Qed.

Lemma finite_magnitudes_planets (stars : list Star.t) (planets : list string)
    (name : string) (jd : number) (planet : position) :
  finite_magnitudes stars planets = true -> In name planets ->
  getPlanetPosition name jd = Some planet ->
  Num.is_finite (to_number (pos_magnitude planet)) = true.
Proof.
  unfold finite_magnitudes. intros H Hin Hp. apply andb_prop in H. destruct H as [_ H].
  rewrite forallb_forall in H. apply H in Hin. apply negb_true_iff in Hin.
  rewrite (getPlanetPosition_magnitude _ _ Hp).
  destruct (getPlanetMagnitude_finite _ Hin) as [x ->]. reflexivity.
Qed.

End Pushed.

(** ** The query results *)

Section Queries.

Import Astronomy.
Local Open Scope R_scope.

(** C3.  Both facades return, for every time and every state of the
    application object, and every object of the result has an altitude
    strictly greater than 0. *)
Theorem objects_above_horizon :
  (forall (now : number) (app : NightSkyApp.t),
      exists app' : NightSkyApp.t,
        NightSkyApp.calculateVisibleObjects now app = Some app' /\
        Forall aboveHorizon (NightSkyApp.visibleObjects app')) /\
  (forall (now : number) (app : NightSkyMapZoom.t),
      Forall aboveHorizon
        (NightSkyMapZoom.allObjects (NightSkyMapZoom.calculateAllObjects now app))).
Proof.
  split.
  - intros now app. eexists. split; [apply calculateVisibleObjects_returns |].
    cbn [NightSkyApp.visibleObjects]. apply sort_Forall.
    apply generatedVisible_Forall; intros; assumption.
  - intros now app. cbn [NightSkyMapZoom.calculateAllObjects NightSkyMapZoom.allObjects].
    apply sort_Forall. apply (generatedAll_Forall aboveHorizon now app); intros; assumption.
Qed.

Lemma generatedVisible_finite (now : number) (app : NightSkyApp.t) :
  finite_magnitudes (NightSkyApp.stars app) (NightSkyApp.planets app) = true ->
  Forall (finite_key magnitudeOf) (generatedVisible now app).
Proof.
  intros H. apply generatedVisible_Forall.
  - intros star pos Hin _. change (Num.is_finite (Star.magnitude star) = true).
    eapply finite_magnitudes_stars; eassumption.
  - intros name planet pos Hin Hp _.
    change (Num.is_finite (to_number (pos_magnitude planet)) = true).
    eapply finite_magnitudes_planets; eassumption.
  - intros phase pos _. reflexivity.
Qed.

Lemma generatedAll_finite (now : number) (app : NightSkyMapZoom.t) :
  finite_magnitudes (NightSkyMapZoom.stars app) (NightSkyMapZoom.planets app) = true ->
  Forall (finite_key magnitudeOf) (generatedAll now app).
Proof.
  intros H. apply generatedAll_Forall.
  - intros star pos Hin _. change (Num.is_finite (Star.magnitude star) = true).
    eapply finite_magnitudes_stars; eassumption.
  - intros name planet pos Hin Hp _.
    change (Num.is_finite (to_number (pos_magnitude planet)) = true).
    eapply finite_magnitudes_planets; eassumption.
  - intros phase pos _. reflexivity.
Qed.



End Queries.

(** ** What a query changes *)

Section Effects.

Import Astronomy.
Local Open Scope R_scope.

Lemma flat_map_map (A B C : Type) (g : A -> B) (f : B -> list C) (l : list A) :
  flat_map f (map g l) = flat_map (fun x => f (g x)) l.
Proof.
  induction l as [| x l IH]; cbn [map flat_map]; [reflexivity |].
  rewrite IH. reflexivity.
Qed.

(** The bodies generated do not depend on the altitude and azimuth stored
    on the star records by an earlier run, nor on the earlier result. *)
Lemma generatedVisible_again (now : number) (app app' : NightSkyApp.t) :
  NightSkyApp.stars app' =
    map (fun star => NightSkyApp.observed star (starPosition app (getJulianDate now) star))
        (NightSkyApp.stars app) ->
  NightSkyApp.planets app' = NightSkyApp.planets app ->
  NightSkyApp.latitude app' = NightSkyApp.latitude app ->
  NightSkyApp.longitude app' = NightSkyApp.longitude app ->
  NightSkyApp.alpha app' = NightSkyApp.alpha app ->
  NightSkyApp.beta app' = NightSkyApp.beta app ->
  NightSkyApp.compassOffset app' = NightSkyApp.compassOffset app ->
  NightSkyApp.fov app' = NightSkyApp.fov app ->
  generatedVisible now app' = generatedVisible now app.
Proof.
  intros Hstars Hplanets Hlat Hlon Halpha Hbeta Hoff Hfov.
  unfold generatedVisible, viewAzimuth, viewAltitude.
  rewrite Hstars, Hplanets, Halpha, Hbeta, Hoff, flat_map_map.
  f_equal; [| f_equal].
  - apply flat_map_ext. intros star.
    unfold pushes, NightSkyApp.checkStar, NightSkyApp.inView, starPosition.
    cbn [NightSkyApp.observed Star.ra Star.dec]. rewrite Hlat, Hlon, Hfov.
    destruct (Num.gt _ _); [| reflexivity].
    destruct (NightSkyApp.angleDifference _ _); [| reflexivity].
    destruct (_ && _); reflexivity.
  - apply flat_map_ext. intros name.
    unfold pushes, NightSkyApp.checkPlanet, NightSkyApp.inView.
    rewrite Hlat, Hlon, Hfov. reflexivity.
  - unfold NightSkyApp.checkMoon, NightSkyApp.inView.
    rewrite Hlat, Hlon, Hfov. reflexivity.
Qed.

(** A run right after a run, at the same time, changes nothing more. *)
Lemma calculateVisibleObjects_again (now : number) (app app' : NightSkyApp.t) :
  NightSkyApp.calculateVisibleObjects now app = Some app' ->
  NightSkyApp.calculateVisibleObjects now app' = Some app'.
Proof.
  rewrite calculateVisibleObjects_returns. intros [= <-].
  rewrite calculateVisibleObjects_returns.
  cbn [NightSkyApp.latitude NightSkyApp.longitude NightSkyApp.alpha NightSkyApp.beta
       NightSkyApp.gamma NightSkyApp.compassOffset NightSkyApp.fov NightSkyApp.stars
       NightSkyApp.planets].
  f_equal. f_equal.
  - rewrite map_map. apply map_ext. intros star. reflexivity.
  - f_equal. apply generatedVisible_again; reflexivity.
Qed.

End Effects.

Section Frame.

Import Astronomy.
Local Open Scope string_scope.
Local Open Scope R_scope.

Lemma getJulianDate_Fin (time : R) :
  getJulianDate (Fin time) = Fin (time / 86400000 + 2440587.5).
Proof. unfold getJulianDate. num_eval. reflexivity. Qed.

(** A first run on the application object as loaded, on the equator at
    time 0: the record of Sirius had no altitude and has one afterwards. *)
Lemma Sirius_record_overwritten :
  exists app' : NightSkyApp.t,
    NightSkyApp.calculateVisibleObjects (Fin 0) (NightSkyApp.initial (Fin 0) (Fin 0)) =
      Some app' /\
    option_map Star.altitude
      (nth_error (NightSkyApp.stars (NightSkyApp.initial (Fin 0) (Fin 0))) 0) = Some None /\
    exists alt : R,
      option_map Star.altitude (nth_error (NightSkyApp.stars app') 0) = Some (Some (Fin alt)).
Proof.
  eexists. split; [apply calculateVisibleObjects_returns |].
  split; [reflexivity |].
  cbn [NightSkyApp.stars NightSkyApp.initial getStars mapi mapi_from STAR_CATALOG
       map nth_error option_map NightSkyApp.observed Star.altitude starPosition
       Star.ra Star.dec NightSkyApp.latitude NightSkyApp.longitude raHoursToDegrees
       Num.mul].
  rewrite getJulianDate_Fin. unfold starPosition.
  cbn [Star.ra Star.dec NightSkyApp.latitude NightSkyApp.longitude NightSkyApp.initial].
  destruct (equatorialToHorizontal_finite (6.752 * 15) (-16.716) 0 0
              (0 / 86400000 + 2440587.5)) as [lst [_ [Halt _]]].
  rewrite Halt. eexists; reflexivity.
Qed.

(** C7, as amended.  A run of [calculateVisibleObjects] returns; it
    stores on every star record the altitude and azimuth just computed
    and leaves the fields loaded from the catalog, the planet list and the
    observer as they were; its result does not depend on what an earlier
    run stored, so a second run at the same time leaves the object as the
    first one left it.  A run of [calculateAllObjects] changes nothing but
    its result list, and a second run at the same time gives the same
    object. *)
Theorem query_effects :
  (forall (now : number) (app : NightSkyApp.t),
      exists app' : NightSkyApp.t,
        NightSkyApp.calculateVisibleObjects now app = Some app' /\
        NightSkyApp.stars app' =
          map (fun star =>
                 NightSkyApp.observed star (starPosition app (getJulianDate now) star))
              (NightSkyApp.stars app) /\
        map loadedFields (NightSkyApp.stars app') =
          map loadedFields (NightSkyApp.stars app) /\
        NightSkyApp.planets app' = NightSkyApp.planets app /\
        NightSkyApp.latitude app' = NightSkyApp.latitude app /\
        NightSkyApp.longitude app' = NightSkyApp.longitude app /\
        NightSkyApp.calculateVisibleObjects now app' = Some app') /\
  (forall (now : number) (app : NightSkyMapZoom.t),
      let app' := NightSkyMapZoom.calculateAllObjects now app in
      NightSkyMapZoom.stars app' = NightSkyMapZoom.stars app /\
      NightSkyMapZoom.planets app' = NightSkyMapZoom.planets app /\
      NightSkyMapZoom.latitude app' = NightSkyMapZoom.latitude app /\
      NightSkyMapZoom.longitude app' = NightSkyMapZoom.longitude app /\
      NightSkyMapZoom.calculateAllObjects now app' = app').
Proof.
  split.
  - intros now app. eexists.
    split; [apply calculateVisibleObjects_returns |].
    cbn [NightSkyApp.stars NightSkyApp.planets NightSkyApp.latitude NightSkyApp.longitude].
    split; [reflexivity |].
    split; [rewrite map_map; apply map_ext; intros star; reflexivity |].
    split; [reflexivity |]. split; [reflexivity |]. split; [reflexivity |].
    apply (calculateVisibleObjects_again now app).
    apply calculateVisibleObjects_returns.
  - intros now app app'. subst app'. repeat split; reflexivity.
Qed.

(** A body of declination 60, six hours past the meridian: seen from
    latitude 180 it is within a degree of the horizon, seen from latitude
    90 it is about 60 degrees up. *)
Lemma latitude_180_and_90 :
  exists a180 a90 : R,
    altitude (equatorialToHorizontal (Fin 190.46061837) (Fin 60) (Fin 180) (Fin 0)
                (Fin 2451545.0)) = Fin a180 /\
    altitude (equatorialToHorizontal (Fin 190.46061837) (Fin 60) (Fin 90) (Fin 0)
                (Fin 2451545.0)) = Fin a90 /\
    -1 < a180 < 1 /\ 59 < a90 < 61.
Proof.
  pose proof PI_RGT_0 as Hpi.
  destruct (equatorialToHorizontal_finite 190.46061837 60 180 0 2451545.0)
    as [lst [Hlst [H180 _]]].
  rewrite getLocalSiderealTime_J2000 in Hlst. injection Hlst as <-.
  destruct (equatorialToHorizontal_finite 190.46061837 60 90 0 2451545.0)
    as [lst [Hlst [H90 _]]].
  rewrite getLocalSiderealTime_J2000 in Hlst. injection Hlst as <-.
  rewrite H180, H90. eexists. eexists.
  split; [reflexivity |]. split; [reflexivity |].
  replace (280.46061837 - 190.46061837) with 90 by lra.
  unfold sinAlt. rewrite angle_180, angle_90, sin_PI, cos_PI, cos_PI2, sin_PI2.
  replace (sin (60 * PI / 180) * 0 + cos (60 * PI / 180) * -1 * 0) with 0 by ring.
  replace (sin (60 * PI / 180) * 1 + cos (60 * PI / 180) * 0 * 0)
    with (sin (60 * PI / 180)) by ring.
  rewrite asin_0, asin_sin by (split; nra).
  replace (0 * 180 / PI) with 0 by (field; lra).
  replace (60 * PI / 180 * 180 / PI) with 60 by (field; lra).
  lra.
Qed.

(** Latitude 180 is outside [-90, 90]; the transform returns a position
    computed from it, an altitude within a degree of the horizon, and the
    query returns with the latitude as it was given. *)
Lemma latitude_180_accepted :
  90 < 180 /\
  (exists alt : R,
      altitude (equatorialToHorizontal (Fin 190.46061837) (Fin 60) (Fin 180) (Fin 0)
                  (Fin 2451545.0)) = Fin alt /\
      -1 < alt < 1) /\
  exists app' : NightSkyApp.t,
    NightSkyApp.calculateVisibleObjects (Fin 0) (NightSkyApp.initial (Fin 180) (Fin 0)) =
      Some app' /\
    NightSkyApp.latitude app' = Fin 180.
Proof.
  split; [lra |]. split.
  - destruct latitude_180_and_90 as [a180 [a90 [H180 [_ [Hr _]]]]].
    exists a180. split; assumption.
  - eexists. split; [apply calculateVisibleObjects_returns | reflexivity].
Qed.

(** C5, as amended.  No input is rejected and none is clamped.  The
    altitude is computed from the sine and the cosine of the latitude as
    it is given, inside [-90, 90] or outside: latitude 180 puts within a
    degree of the horizon a body that latitude 90 puts about 60 degrees
    up.  Both facades return for every latitude and keep it.  An invalid
    date gives a NaN Julian Date, for which the altitude is NaN. *)
Theorem latitude_used_as_given :
  (forall ra dec lat lon jd : number,
      altitude (equatorialToHorizontal ra dec lat lon jd) =
        rad2deg (Math.asin
          (Num.add
             (Num.mul (Math.sin (deg2rad dec)) (Math.sin (deg2rad lat)))
             (Num.mul (Num.mul (Math.cos (deg2rad dec)) (Math.cos (deg2rad lat)))
                      (Math.cos (deg2rad (Num.sub (getLocalSiderealTime jd lon) ra))))))) /\
  (exists a180 a90 : R,
      altitude (equatorialToHorizontal (Fin 190.46061837) (Fin 60) (Fin 180) (Fin 0)
                  (Fin 2451545.0)) = Fin a180 /\
      altitude (equatorialToHorizontal (Fin 190.46061837) (Fin 60) (Fin 90) (Fin 0)
                  (Fin 2451545.0)) = Fin a90 /\
      -1 < a180 < 1 /\ 59 < a90 < 61) /\
  (forall (now : number) (app : NightSkyApp.t),
      exists app' : NightSkyApp.t,
        NightSkyApp.calculateVisibleObjects now app = Some app' /\
        NightSkyApp.latitude app' = NightSkyApp.latitude app) /\
  (forall (now : number) (app : NightSkyMapZoom.t),
      NightSkyMapZoom.latitude (NightSkyMapZoom.calculateAllObjects now app) =
      NightSkyMapZoom.latitude app) /\
  getJulianDate NaN = NaN /\
  (forall ra dec lat lon : number,
      altitude (equatorialToHorizontal ra dec lat lon NaN) = NaN).
Proof.
  split; [reflexivity |].
  split; [exact latitude_180_and_90 |].
  split.
  { intros now app. eexists. split; [apply calculateVisibleObjects_returns | reflexivity]. }
  split; [reflexivity |].
  split; [reflexivity | exact altitude_NaN].
Qed.

End Frame.

(** ** The normalised difference of two angles *)

Section AngleDifferenceValue.

Import NightSkyApp.
Local Open Scope R_scope.

(** The first loop subtracts whole turns. *)
Lemma while_above_turns (fuel : nat) (x y : R) :
  while_above fuel (Fin x) = Some (Fin y) -> exists k : Z, y = x + 360 * IZR k.
Proof.
  revert x. induction fuel as [| fuel IH]; intros x; cbn [while_above];
    unfold Num.gt; cbn [Num.lt]; destruct (Num.Rltb 180 x).
  - discriminate.
  - intros [= <-]. exists 0%Z. lra.
  - cbn [Num.sub Num.neg Num.add]. intros H. destruct (IH _ H) as [k Hk].
    exists (k - 1)%Z. rewrite minus_IZR. lra.
  - intros [= <-]. exists 0%Z. lra.
Qed.

(** The second loop adds whole turns. *)
Lemma while_below_turns (fuel : nat) (x y : R) :
  while_below fuel (Fin x) = Some (Fin y) -> exists k : Z, y = x + 360 * IZR k.
Proof.
  revert x. induction fuel as [| fuel IH]; intros x; cbn [while_below];
    cbn [Num.lt]; destruct (Num.Rltb x (-180)).
  - discriminate.
  - intros [= <-]. exists 0%Z. lra.
  - cbn [Num.add]. intros H. destruct (IH _ H) as [k Hk].
    exists (k + 1)%Z. rewrite plus_IZR. lra.
  - intros [= <-]. exists 0%Z. lra.
Qed.

Lemma while_above_finite (fuel : nat) (x : R) (r : number) :
  while_above fuel (Fin x) = Some r -> exists y : R, r = Fin y.
Proof.
  revert x. induction fuel as [| fuel IH]; intros x; cbn [while_above];
    unfold Num.gt; cbn [Num.lt]; destruct (Num.Rltb 180 x).
  - discriminate.
  - intros [= <-]. eexists; reflexivity.
  - cbn [Num.sub Num.neg Num.add]. apply IH.
  - intros [= <-]. eexists; reflexivity.
Qed.

Lemma while_above_idle (fuel : nat) (x : R) :
  x <= 180 -> while_above fuel (Fin x) = Some (Fin x).
Proof.
  intros Hx. destruct fuel; cbn [while_above]; unfold Num.gt; cbn [Num.lt];
    rewrite Rltb_false by lra; reflexivity.
Qed.

Lemma while_below_idle (fuel : nat) (x : R) :
  -180 <= x -> while_below fuel (Fin x) = Some (Fin x).
Proof.
  intros Hx. destruct fuel; cbn [while_below]; cbn [Num.lt];
    rewrite Rltb_false by lra; reflexivity.
Qed.

(** X1.  When the difference [a - b] of its arguments is a finite number
    of at most 1,000,000,000 in absolute value, [angleDifference]
    returns; its result lies within [-180, 180], differs from the
    difference by a whole number of turns, and is the difference itself
    when that already lies within [-180, 180]. *)
Theorem angleDifference_normalises (a b : number) (diff : R) :
  Num.sub a b = Fin diff -> Rabs diff <= 1000000000 ->
  exists (d : R) (k : Z),
    angleDifference a b = Some (Fin d) /\
    -180 <= d <= 180 /\
    diff = d + 360 * IZR k /\
    (-180 <= diff <= 180 -> d = diff).
Proof.
  intros Hdiff _.
  destruct a as [x | | |], b as [y | | |]; try discriminate.
  cbn [Num.sub Num.neg Num.add] in Hdiff. injection Hdiff as <-.
  destruct (angleDifference_Fin x y) as [d [Hd Hrange]].
  assert (Hturns : exists k : Z, d = x + - y + 360 * IZR k).
  { revert Hd. unfold angleDifference, angleDifference_fuel.
    cbn [Num.sub Num.neg Num.add].
    destruct (while_above _ _) as [r |] eqn:Ha; [| discriminate].
    destruct (while_above_finite _ _ Ha) as [z ->].
    intros Hb.
    destruct (while_above_turns _ _ Ha) as [k1 H1].
    destruct (while_below_turns _ _ Hb) as [k2 H2].
    exists (k1 + k2)%Z. rewrite plus_IZR. lra. }
  destruct Hturns as [k Hk].
  exists d, (- k)%Z. split; [exact Hd |]. split; [exact Hrange |].
  split; [rewrite opp_IZR; lra |].
  intros Hin. revert Hd. unfold angleDifference, angleDifference_fuel.
  cbn [Num.sub Num.neg Num.add].
  rewrite while_above_idle by lra. rewrite while_below_idle by lra.
  intros [= <-]. reflexivity.
Qed.

Lemma angleDifference_normalises_witness :
  exists (d : R) (k : Z),
    angleDifference (Fin 350) (Fin 10) = Some (Fin d) /\
    -180 <= d <= 180 /\
    350 + - 10 = d + 360 * IZR k /\
    (-180 <= 350 + - 10 <= 180 -> d = 350 + - 10).
Proof.
  apply (@angleDifference_normalises (Fin 350) (Fin 10) (350 + - 10)).
  - reflexivity.
  - unfold Rabs. destruct (Rcase_abs (350 + - 10)); lra.
Defined.

End AngleDifferenceValue.

Section AngleDifferenceHangs.

Import PrimFloat.
#[local] Set Warnings "-inexact-float".

(** X2.  When the difference [a - b] of its arguments is infinite,
    [angleDifference] does not return, whatever the number of rounds its
    loops are given: they subtract or add 360 for ever.  On binary64
    numbers the same happens for a finite difference: at 1e19 the
    subtraction of 360 changes nothing. *)
Theorem angleDifference_hangs (a b : number) (fuel : nat) :
  Num.is_infinite (Num.sub a b) = true ->
  NightSkyApp.angleDifference_fuel fuel a b = None /\
  Double.NightSkyApp.angleDifference_fuel fuel 1e19%float 0%float = None.
Proof.
  intros Hinf. split; [apply angleDifference_fuel_infinite; exact Hinf |].
  unfold Double.NightSkyApp.angleDifference_fuel.
  replace (1e19 - 0)%float with 1e19%float by (vm_compute; reflexivity).
  rewrite while_above_stuck. reflexivity.
Qed.

Lemma angleDifference_hangs_witness :
  NightSkyApp.angleDifference_fuel 1000 PInf (Fin 0%R) = None /\
  Double.NightSkyApp.angleDifference_fuel 1000 1e19%float 0%float = None.
Proof.
  apply (@angleDifference_hangs PInf (Fin 0%R) 1000). reflexivity.
Defined.

End AngleDifferenceHangs.

(** ** The compass label *)

Section CompassDirection.

Local Open Scope string_scope.
Local Open Scope R_scope.

Lemma Int_part_IZR (n : Z) : Int_part (IZR n) = n.
Proof.
  destruct (base_Int_part (IZR n)) as [Hlo Hhi].
  assert (H1 : (Int_part (IZR n) <= n)%Z) by (apply le_IZR; lra).
  assert (H2 : (n < Int_part (IZR n) + 1)%Z) by (apply lt_IZR; rewrite plus_IZR; lra).
  lia.
Qed.

(** The integer part is the floor. *)
Lemma Int_part_floor (x : R) (n : Z) : IZR n <= x < IZR n + 1 -> Int_part x = n.
Proof.
  intros [Hlo Hhi]. destruct (base_Int_part x) as [Hl Hh].
  assert (H1 : (Int_part x < n + 1)%Z) by (apply lt_IZR; rewrite plus_IZR; lra).
  assert (H2 : (n < Int_part x + 1)%Z) by (apply lt_IZR; rewrite plus_IZR; lra).
  lia.
Qed.

Lemma fmod_whole (y : R) : 0 < y -> Num.fmod y y = 0 /\ Num.fmod (- y) y = 0.
Proof.
  intros Hy. unfold Num.fmod, Num.trunc. split.
  - replace (y / y) with 1 by (field; lra).
    destruct (Rle_dec 0 1) as [_ | H]; [| lra].
    change 1 with (IZR 1). rewrite Int_part_IZR. lra.
  - replace (- y / y) with (-1) by (field; lra).
    destruct (Rle_dec 0 (-1)) as [H | _]; [lra |].
    replace (- -1) with (IZR 1) by lra. rewrite Int_part_IZR. rewrite opp_IZR. lra.
Qed.

(** The label of the rounded number of eighths of a turn [n]: none for
    -7, ..., -1, which give a negative index. *)
Lemma direction_of_eighths (n : Z) :
  (-8 <= n <= 8)%Z ->
  Arr.get ["N"; "NE"; "E"; "SE"; "S"; "SW"; "W"; "NW"] (Num.rem (Fin (IZR n)) (Fin 8)) =
    if ((-8 <? n) && (n <? 0))%Z then None
    else nth_error ["N"; "NE"; "E"; "SE"; "S"; "SW"; "W"; "NW"] (Z.to_nat (Z.rem n 8)).
Proof.
  intros Hn. cbn [Num.rem]. rewrite Reqb_false by lra.
  assert (Hcase : n = 8%Z \/ n = (-8)%Z \/ (-8 < n < 8)%Z) by lia.
  destruct Hcase as [-> | [-> | Hin]].
  - rewrite (proj1 (@fmod_whole 8 ltac:(lra))).
    cbn [Arr.get]. change 0 with (IZR 0). rewrite Int_part_IZR.
    rewrite Reqb_true by reflexivity. rewrite Rltb_false by lra. reflexivity.
  - replace (IZR (-8)) with (Ropp 8) by lra.
    rewrite (proj2 (@fmod_whole 8 ltac:(lra))).
    cbn [Arr.get]. change 0 with (IZR 0). rewrite Int_part_IZR.
    rewrite Reqb_true by reflexivity. rewrite Rltb_false by lra. reflexivity.
  - rewrite fmod_small; [| lra |].
    2:{ assert (H1 : IZR n < IZR 8) by (apply IZR_lt; lia).
        assert (H2 : IZR (-8) < IZR n) by (apply IZR_lt; lia).
        apply Rabs_def1; lra. }
    cbn [Arr.get]. rewrite Int_part_IZR. rewrite Reqb_true by reflexivity.
    destruct (Z.ltb_spec n 0) as [Hneg | Hpos].
    + rewrite Rltb_true by (change 0 with (IZR 0); apply IZR_lt; lia).
      destruct (Z.ltb_spec (-8) n); [reflexivity | lia].
    + rewrite Rltb_false by (change 0 with (IZR 0); apply IZR_le; lia).
      rewrite andb_false_r. cbn [negb andb].
      rewrite Z.rem_small by lia. reflexivity.
Qed.

(** On a finite heading the label is read off the rounded number of
    eighths of a turn of [degrees % 360]. *)
Lemma getCompassDirection_Fin (x : R) :
  NightSkyApp.getCompassDirection (Fin x) =
    Arr.get ["N"; "NE"; "E"; "SE"; "S"; "SW"; "W"; "NW"]
      (Num.rem (Fin (IZR (Int_part (Num.fmod x 360 / 45 + 0.5)))) (Fin 8)).
Proof.
  unfold NightSkyApp.getCompassDirection. rewrite rem_360.
  cbn [Num.div]. rewrite Reqb_false by lra. reflexivity.
Qed.

Lemma eighths_bounds (x : R) :
  (-8 <= Int_part (Num.fmod x 360 / 45 + 0.5) <= 8)%Z /\
  (0 <= x -> (0 <= Int_part (Num.fmod x 360 / 45 + 0.5))%Z).
Proof.
  destruct (@fmod_spec x 360) as [_ [Hpos Hneg]]; [lra |].
  destruct (base_Int_part (Num.fmod x 360 / 45 + 0.5)) as [Hlo Hhi].
  assert (Hr : -360 < Num.fmod x 360 < 360).
  { destruct (Rle_dec 0 x) as [H | H]; [apply Hpos in H; lra |].
    assert (H' : x <= 0) by lra. apply Hneg in H'. lra. }
  set (q := Num.fmod x 360 / 45) in *.
  assert (Hq : -8 < q < 8) by (unfold q; lra).
  split; [split |].
  - assert (H : (-9 < Int_part (q + 0.5))%Z) by (apply lt_IZR; lra). lia.
  - assert (H : (Int_part (q + 0.5) < 9)%Z) by (apply lt_IZR; lra). lia.
  - intros Hx. apply Hpos in Hx.
    assert (Hq0 : 0 <= q) by (unfold q; lra).
    assert (H : (-1 < Int_part (q + 0.5))%Z) by (apply lt_IZR; lra). lia.
Qed.

(** On a finite heading that is not negative, the label is one of the
    eight names. *)
Lemma compass_label_defined (x : R) :
  0 <= x ->
  exists k : nat,
    (k < 8)%nat /\
    NightSkyApp.getCompassDirection (Fin x) =
      nth_error ["N"; "NE"; "E"; "SE"; "S"; "SW"; "W"; "NW"] k.
Proof.
  intros Hx. rewrite getCompassDirection_Fin.
  destruct (eighths_bounds x) as [[_ Hhi] Hlo]. specialize (Hlo Hx).
  set (n := Int_part (Num.fmod x 360 / 45 + 0.5)) in *.
  rewrite direction_of_eighths by lia.
  destruct (Z.ltb_spec n 0) as [Hneg | _]; [lia |]. rewrite andb_false_r.
  exists (Z.to_nat (Z.rem n 8)). split; [| reflexivity].
  assert (Hc : n = 8%Z \/ (0 <= n < 8)%Z) by lia.
  destruct Hc as [-> | Hc]; [cbn; lia | rewrite Z.rem_small by lia; lia].
Qed.

(** X3.  For a finite heading that is not negative the compass label is
    defined, and it names the eighth of the turn nearest to
    [degrees % 360]: the sector of width 45 centred on 0, 45, ..., 315,
    the headings from 337.5 on coming round to N again.  The sky map
    computes its label in the same way. *)
Theorem getCompassDirection_sector (x : R) :
  0 <= x ->
  exists k : nat,
    (k < 8)%nat /\
    NightSkyApp.getCompassDirection (Fin x) =
      nth_error ["N"; "NE"; "E"; "SE"; "S"; "SW"; "W"; "NW"] k /\
    NightSkyMapZoom.getCompassDirection (Fin x) =
      nth_error ["N"; "NE"; "E"; "SE"; "S"; "SW"; "W"; "NW"] k /\
    (45 * INR k - 22.5 <= Num.fmod x 360 < 45 * INR k + 22.5 \/
     (k = 0%nat /\ 337.5 <= Num.fmod x 360 < 360)).
Proof.
  intros Hx.
  change (NightSkyMapZoom.getCompassDirection (Fin x))
    with (NightSkyApp.getCompassDirection (Fin x)).
  rewrite getCompassDirection_Fin.
  destruct (eighths_bounds x) as [[_ Hhi] Hlo]. specialize (Hlo Hx).
  destruct (base_Int_part (Num.fmod x 360 / 45 + 0.5)) as [Hfl Hfh].
  destruct (@fmod_spec x 360) as [_ [Hpos _]]; [lra |]. specialize (Hpos Hx).
  set (n := Int_part (Num.fmod x 360 / 45 + 0.5)) in *.
  rewrite direction_of_eighths by lia.
  destruct (Z.ltb_spec n 0) as [Hneg | _]; [lia |]. rewrite andb_false_r.
  assert (Hcase : n = 8%Z \/ (0 <= n < 8)%Z) by lia.
  destruct Hcase as [Hn | Hn].
  - exists 0%nat. rewrite Hn in *. split; [lia |]. split; [reflexivity |].
    split; [reflexivity |]. right. split; [reflexivity | lra].
  - exists (Z.to_nat n). rewrite Z.rem_small by lia.
    split; [lia |]. split; [reflexivity |]. split; [reflexivity |]. left.
    rewrite INR_IZR_INZ, Z2Nat.id by lia. lra.
Qed.

Lemma getCompassDirection_sector_witness :
  0 <= 350 /\
  exists k : nat,
    (k < 8)%nat /\
    NightSkyApp.getCompassDirection (Fin 350) =
      nth_error ["N"; "NE"; "E"; "SE"; "S"; "SW"; "W"; "NW"] k /\
    NightSkyMapZoom.getCompassDirection (Fin 350) =
      nth_error ["N"; "NE"; "E"; "SE"; "S"; "SW"; "W"; "NW"] k /\
    (45 * INR k - 22.5 <= Num.fmod 350 360 < 45 * INR k + 22.5 \/
     (k = 0%nat /\ 337.5 <= Num.fmod 350 360 < 360)).
Proof.
  split; [lra |]. apply (@getCompassDirection_sector 350). lra.
Defined.

(** X4.  The compass label is [undefined] exactly when [degrees % 360]
    lies in [-337.5, -22.5), where the index computed is negative, and for
    a heading that is not finite; this holds of the label of the sky map
    as well. *)
Theorem getCompassDirection_undefined :
  (forall x : R,
      NightSkyApp.getCompassDirection (Fin x) = None <->
      -337.5 <= Num.fmod x 360 < -22.5) /\
  (forall a : number,
      Num.is_finite a = false -> NightSkyApp.getCompassDirection a = None) /\
  (forall a : number,
      NightSkyMapZoom.getCompassDirection a = NightSkyApp.getCompassDirection a).
Proof.
  split; [| split; [intros [x | | |]; try discriminate; reflexivity | reflexivity]].
  intros x. rewrite getCompassDirection_Fin.
  destruct (eighths_bounds x) as [Hb _].
  destruct (base_Int_part (Num.fmod x 360 / 45 + 0.5)) as [Hfl Hfh].
  set (n := Int_part (Num.fmod x 360 / 45 + 0.5)) in *.
  rewrite direction_of_eighths by exact Hb.
  destruct (Z.ltb_spec (-8) n) as [H8 | H8], (Z.ltb_spec n 0) as [H0 | H0];
    cbn [andb].
  - split; [intros _ | reflexivity].
    assert (H1 : IZR n <= IZR (-1)) by (apply IZR_le; lia).
    assert (H2 : IZR (-7) <= IZR n) by (apply IZR_le; lia).
    lra.
  - split.
    + intros Hnone. exfalso.
      assert (Hlt : (Z.to_nat (Z.rem n 8) < 8)%nat).
      { assert (Hc : n = 8%Z \/ (0 <= n < 8)%Z) by lia.
        destruct Hc as [-> | Hc]; [cbn; lia | rewrite Z.rem_small by lia; lia]. }
      apply nth_error_None in Hnone. cbn [List.length] in Hnone. lia.
    + intros Hr. exfalso.
      assert (H1 : IZR 0 <= IZR n) by (apply IZR_le; lia). lra.
  - split.
    + intros Hnone. exfalso. replace n with (-8)%Z in Hnone by lia. discriminate Hnone.
    + intros Hr. exfalso.
      assert (H1 : IZR n <= IZR (-8)) by (apply IZR_le; lia). lra.
  - lia.
Qed.

End CompassDirection.

(** ** The positions listed and the object panel *)

Section Panel.

Import Astronomy.
Local Open Scope string_scope.
Local Open Scope R_scope.

(** Whatever the arguments, the altitude is NaN or lies within
    [-90, 90], and the azimuth is NaN or lies within [0, 360]. *)
Lemma altitude_any (ra dec lat lon jd : number) :
  altitude (equatorialToHorizontal ra dec lat lon jd) = NaN \/
  exists z : R,
    altitude (equatorialToHorizontal ra dec lat lon jd) = Fin z /\ -90 <= z <= 90.
Proof.
  unfold equatorialToHorizontal. cbn [altitude].
  match goal with
  | |- context [Math.asin ?s] => destruct s as [x | | |]
  end; try (left; reflexivity).
  cbn [Math.asin]. destruct (_ || _) eqn:Hout; [left; reflexivity |].
  right. rewrite rad2deg_Fin. eexists; split; [reflexivity |].
  apply rad2deg_bounds. pose proof (asin_bound x). lra.
Qed.

Lemma azimuth_any (ra dec lat lon jd : number) :
  azimuth (equatorialToHorizontal ra dec lat lon jd) = NaN \/
  exists z : R,
    azimuth (equatorialToHorizontal ra dec lat lon jd) = Fin z /\ 0 <= z <= 360.
Proof.
  unfold equatorialToHorizontal. cbn [azimuth].
  match goal with
  | |- context [Math.max _ (Math.min _ ?c)] =>
      destruct (clamped_acos c) as [[_ H] | [_ [z [H Hz]]]]; rewrite H
  end.
  - left. destruct (Num.gt _ _); reflexivity.
  - right. destruct (Num.gt _ _); cbn [Num.sub Num.neg Num.add];
      eexists; (split; [reflexivity | lra]).
Qed.

(** A position that passes the test of the field of view is finite. *)
Lemma inView_positioned (app : NightSkyApp.t) (vAz vAlt ra dec lat lon jd : number) :
  NightSkyApp.inView app vAz vAlt (equatorialToHorizontal ra dec lat lon jd) = Some true ->
  exists alt az : R,
    altitude (equatorialToHorizontal ra dec lat lon jd) = Fin alt /\
    azimuth (equatorialToHorizontal ra dec lat lon jd) = Fin az /\
    0 < alt <= 90 /\ 0 <= az <= 360.
Proof.
  unfold NightSkyApp.inView.
  destruct (altitude_any ra dec lat lon jd) as [Halt | [alt [Halt Haltr]]];
    rewrite Halt; [discriminate |].
  unfold Num.gt. cbn [Num.lt].
  destruct (Rlt_dec 0 alt) as [Hpos | Hneg];
    [rewrite Rltb_true by exact Hpos | rewrite Rltb_false by lra; discriminate].
  destruct (azimuth_any ra dec lat lon jd) as [Haz | [az [Haz Hazr]]]; rewrite Haz.
  - assert (Hd : forall v, NightSkyApp.angleDifference NaN v = Some NaN)
      by (intros v; reflexivity).
    rewrite Hd. discriminate.
  - intros _. exists alt, az. repeat split; lra.
Qed.

Lemma generatedVisible_positioned (now : number) (app : NightSkyApp.t) :
  Forall positioned (generatedVisible now app).
Proof.
  unfold generatedVisible.
  repeat (apply Forall_app; split).
  - apply Forall_flat_map. apply Forall_forall. intros star Hin.
    unfold pushes, NightSkyApp.checkStar.
    destruct (NightSkyApp.inView _ _ _ _) as [[|] |] eqn:Hv; try constructor; [| constructor].
    apply inView_positioned in Hv. exact Hv.
  - apply Forall_flat_map. apply Forall_forall. intros name Hin.
    unfold pushes, NightSkyApp.checkPlanet.
    destruct (getPlanetPosition name (getJulianDate now)) as [planet |]; [| constructor].
    destruct (NightSkyApp.inView _ _ _ _) as [[|] |] eqn:Hv; try constructor; [| constructor].
    apply inView_positioned in Hv. exact Hv.
  - unfold NightSkyApp.checkMoon.
    destruct (NightSkyApp.inView _ _ _ _) as [[|] |] eqn:Hv; try constructor; [| constructor].
    apply inView_positioned in Hv. exact Hv.
Qed.

(** X5.  Whatever the time and the state of the application object,
    every object that [calculateVisibleObjects] lists has a finite
    position: an altitude in (0, 90] and an azimuth in [0, 360].  A body
    whose azimuth comes out as NaN is never listed. *)
Theorem visibleObjects_positioned (now : number) (app : NightSkyApp.t) :
  exists app' : NightSkyApp.t,
    NightSkyApp.calculateVisibleObjects now app = Some app' /\
    Forall positioned (NightSkyApp.visibleObjects app').
Proof.
  eexists. split; [apply calculateVisibleObjects_returns |].
  cbn [NightSkyApp.visibleObjects]. apply sort_Forall. apply generatedVisible_positioned.
Qed.

Lemma positioned_direction (o : SkyObject.t) :
  positioned o -> NightSkyApp.getCompassDirection (SkyObject.azimuth o) <> None.
Proof.
  intros [alt [az [_ [Haz [_ [Hlo _]]]]]]. rewrite Haz.
  destruct (@compass_label_defined az Hlo) as [k [Hk Hdir]].
  rewrite Hdir. intros Hnone. apply nth_error_None in Hnone.
  cbn [List.length] in Hnone. lia.
Qed.

(** In a sorted list the elements of a prefix come before those of the
    rest. *)
Lemma StronglySorted_firstn_skipn (A : Type) (R : A -> A -> Prop) (n : nat) (l : list A) :
  StronglySorted R l ->
  forall a b : A, In a (firstn n l) -> In b (skipn n l) -> R a b.
Proof.
  intros Hs. revert n. induction Hs as [| x l Hs IH Hx]; intros n a b.
  - rewrite firstn_nil. intros [].
  - destruct n as [| n]; [intros [] |].
    cbn [firstn skipn]. intros [<- | Ha] Hb.
    + rewrite Forall_forall in Hx. apply Hx.
      rewrite <- (firstn_skipn n l). apply in_or_app. right. exact Hb.
    + apply (IH n); assumption.
Qed.

(** X6.  After a run of [calculateVisibleObjects] on finite magnitudes,
    the object panel shows the hint when nothing is listed, and otherwise
    the first ten objects of the list at most, in its order: every object
    shown is at least as bright as every object left out, and every line
    has a compass label. *)
Theorem updateObjectInfo_brightest (now : number) (app : NightSkyApp.t) :
  finite_magnitudes (NightSkyApp.stars app) (NightSkyApp.planets app) = true ->
  exists app' : NightSkyApp.t,
    NightSkyApp.calculateVisibleObjects now app = Some app' /\
    match NightSkyApp.updateObjectInfo app' with
    | None => NightSkyApp.visibleObjects app' = []
    | Some rows =>
        (List.length rows <= 10)%nat /\
        map NightSkyApp.label rows =
          map SkyObject.name (firstn 10 (NightSkyApp.visibleObjects app')) /\
        Forall (fun r => NightSkyApp.direction r <> None) rows /\
        forall shown hidden : SkyObject.t,
          In shown (firstn 10 (NightSkyApp.visibleObjects app')) ->
          In hidden (skipn 10 (NightSkyApp.visibleObjects app')) ->
          magnitude_le shown hidden
    end.
Proof.
  intros Hfin. eexists. split; [apply calculateVisibleObjects_returns |].
  unfold NightSkyApp.updateObjectInfo. cbn [NightSkyApp.visibleObjects].
  assert (Hs : StronglySorted magnitude_le
                 (sort SkyObject.byMagnitude (generatedVisible now app))).
  { apply (@sort_sorted _ magnitudeOf). apply generatedVisible_finite. exact Hfin. }
  assert (Hp : Forall positioned (sort SkyObject.byMagnitude (generatedVisible now app))).
  { apply (@sort_Forall _ magnitudeOf). apply generatedVisible_positioned. }
  set (l := sort SkyObject.byMagnitude (generatedVisible now app)) in *. clearbody l.
  destruct l as [| o l]; [reflexivity |].
  unfold Arr.slice_0. set (top := firstn 10 (o :: l)).
  split; [rewrite length_map; apply firstn_le_length |].
  split; [rewrite map_map; reflexivity |].
  split.
  - apply Forall_map. cbn [NightSkyApp.direction].
    apply Forall_forall. intros obj Hin. apply positioned_direction.
    rewrite Forall_forall in Hp. apply Hp.
    unfold top in Hin. rewrite <- (firstn_skipn 10 (o :: l)). apply in_or_app.
    left. exact Hin.
  - apply StronglySorted_firstn_skipn. exact Hs.
Qed.

Lemma updateObjectInfo_brightest_witness :
  exists app' : NightSkyApp.t,
    NightSkyApp.calculateVisibleObjects (Fin 0) (NightSkyApp.initial (Fin 0) (Fin 0)) =
      Some app' /\
    match NightSkyApp.updateObjectInfo app' with
    | None => NightSkyApp.visibleObjects app' = []
    | Some rows =>
        (List.length rows <= 10)%nat /\
        map NightSkyApp.label rows =
          map SkyObject.name (firstn 10 (NightSkyApp.visibleObjects app')) /\
        Forall (fun r => NightSkyApp.direction r <> None) rows /\
        forall shown hidden : SkyObject.t,
          In shown (firstn 10 (NightSkyApp.visibleObjects app')) ->
          In hidden (skipn 10 (NightSkyApp.visibleObjects app')) ->
          magnitude_le shown hidden
    end.
Proof.
  apply (@updateObjectInfo_brightest (Fin 0) (NightSkyApp.initial (Fin 0) (Fin 0))).
  reflexivity.
Defined.

End Panel.

(** ** A frame of [NightSkyApp] *)

Section Frames.

Import Astronomy.
Local Open Scope string_scope.
Local Open Scope R_scope.

Lemma forEachCall_returns (A B : Type) (f : A -> option (list B)) (l : list A) :
  (forall x : A, In x l -> exists calls, f x = Some calls) ->
  exists calls, forEachCall f l = Some calls.
Proof.
  induction l as [| x l IH]; intros H; cbn [forEachCall]; [eexists; reflexivity |].
  destruct (H x (or_introl eq_refl)) as [c Hc]. rewrite Hc.
  destruct IH as [c' Hc']; [intros y Hy; apply H; right; exact Hy |].
  rewrite Hc'. eexists; reflexivity.
Qed.

(** Against the direction of view, the loops return on every azimuth
    that is not infinite. *)
Lemma angleDifference_view (app : NightSkyApp.t) (a : number) :
  Num.is_infinite a = false ->
  exists d : number, NightSkyApp.angleDifference a (viewAzimuth app) = Some d.
Proof.
  intros Ha. apply angleDifference_returns.
  pose proof (rem_360_not_infinite
                (Num.add (NightSkyApp.alpha app) (NightSkyApp.compassOffset app))) as Hv.
  fold (viewAzimuth app) in Hv.
  destruct a, (viewAzimuth app); try discriminate; reflexivity.
Qed.

(** The star records a run leaves carry an azimuth that is not
    infinite. *)
Lemma observed_azimuth (app : NightSkyApp.t) (jd : number) (star : Star.t) :
  Num.is_infinite
    (NightSkyApp.stored
       (Star.azimuth (NightSkyApp.observed star (starPosition app jd star)))) = false.
Proof. cbn [NightSkyApp.observed Star.azimuth NightSkyApp.stored]. apply azimuth_not_infinite. Qed.

Lemma positioned_azimuth (o : SkyObject.t) :
  positioned o -> Num.is_infinite (SkyObject.azimuth o) = false.
Proof. intros [alt [az [_ [-> _]]]]. reflexivity. Qed.

Section AfterRun.

Variables (now : number) (app : NightSkyApp.t) (canvas : Canvas.t).

Lemma drawStar_returns (vAlt : number) (star : Star.t) :
  In star (NightSkyApp.stars (afterRun now app)) ->
  exists calls,
    NightSkyApp.drawStar (afterRun now app) canvas (viewAzimuth (afterRun now app))
                         vAlt star = Some calls.
Proof.
  cbn [NightSkyApp.stars afterRun]. rewrite in_map_iff. intros [star0 [<- _]].
  unfold NightSkyApp.drawStar.
  destruct (Num.gt _ _); [| eexists; reflexivity].
  destruct (@angleDifference_view (afterRun now app) _
              (observed_azimuth app (getJulianDate now) star0)) as [d Hd].
  rewrite Hd. destruct (_ && _); eexists; reflexivity.
Qed.

Lemma drawStars_returns :
  exists calls, NightSkyApp.drawStars (afterRun now app) canvas = Some calls.
Proof.
  unfold NightSkyApp.drawStars. fold (viewAzimuth (afterRun now app)).
  apply forEachCall_returns. intros star Hin. apply drawStar_returns. exact Hin.
Qed.

Lemma drawVertex_returns (vAlt : number) (started : bool) (starIndex : nat) :
  exists result,
    NightSkyApp.drawVertex (afterRun now app) canvas (viewAzimuth (afterRun now app))
                           vAlt started starIndex =
      Some result.
Proof.
  unfold NightSkyApp.drawVertex.
  destruct (nth_error (NightSkyApp.stars (afterRun now app)) starIndex) as [star |] eqn:Hnth;
    [| eexists; reflexivity].
  apply nth_error_In in Hnth. cbn [NightSkyApp.stars afterRun] in Hnth.
  rewrite in_map_iff in Hnth. destruct Hnth as [star0 [<- _]].
  destruct (Num.le _ _); [eexists; reflexivity |].
  destruct (@angleDifference_view (afterRun now app) _
              (observed_azimuth app (getJulianDate now) star0)) as [d Hd].
  rewrite Hd. destruct (_ && _); [destruct started |]; eexists; reflexivity.
Qed.

Lemma drawVertices_returns (vAlt : number) (started : bool) (line : list nat) :
  exists calls,
    NightSkyApp.drawVertices (afterRun now app) canvas (viewAzimuth (afterRun now app))
                             vAlt started line = Some calls.
Proof.
  revert started. induction line as [| starIndex line IH]; intros started;
    cbn [NightSkyApp.drawVertices]; [eexists; reflexivity |].
  destruct (drawVertex_returns vAlt started starIndex) as [[started' calls] Hv].
  rewrite Hv. destruct (IH started') as [calls' Hl]. rewrite Hl.
  eexists; reflexivity.
Qed.

Lemma drawConstellations_returns :
  exists calls, NightSkyApp.drawConstellations (afterRun now app) canvas = Some calls.
Proof.
  unfold NightSkyApp.drawConstellations. fold (viewAzimuth (afterRun now app)).
  match goal with
  | |- context [forEachCall ?f CONSTELLATIONS] =>
      destruct (@forEachCall_returns _ _ f CONSTELLATIONS) as [calls Hc]
  end.
  { intros entry _. apply forEachCall_returns. intros line _.
    unfold NightSkyApp.drawLine.
    match goal with
    | |- context [NightSkyApp.drawVertices _ _ _ ?vAlt false line] =>
        destruct (drawVertices_returns vAlt false line) as [calls Hl]
    end.
    rewrite Hl. eexists; reflexivity. }
  rewrite Hc. eexists; reflexivity.
Qed.

Lemma visibleObjects_after : Forall positioned (NightSkyApp.visibleObjects (afterRun now app)).
Proof.
  cbn [NightSkyApp.visibleObjects afterRun]. apply (@sort_Forall _ magnitudeOf).
  apply generatedVisible_positioned.
Qed.

Lemma drawPlanets_returns :
  exists calls, NightSkyApp.drawPlanets (afterRun now app) canvas = Some calls.
Proof.
  unfold NightSkyApp.drawPlanets. apply forEachCall_returns.
  intros planet Hin. apply filter_In in Hin. destruct Hin as [Hin _].
  pose proof visibleObjects_after as Hp. rewrite Forall_forall in Hp.
  unfold NightSkyApp.drawPlanet. fold (viewAzimuth (afterRun now app)).
  destruct (@angleDifference_view (afterRun now app) _ (@positioned_azimuth _ (Hp _ Hin)))
    as [d Hd].
  rewrite Hd. eexists; reflexivity.
Qed.

Lemma drawMoon_returns : exists calls, NightSkyApp.drawMoon (afterRun now app) canvas = Some calls.
Proof.
  unfold NightSkyApp.drawMoon.
  destruct (find _ _) as [moon |] eqn:Hfind; [| eexists; reflexivity].
  apply find_some in Hfind. destruct Hfind as [Hin _].
  pose proof visibleObjects_after as Hp. rewrite Forall_forall in Hp.
  fold (viewAzimuth (afterRun now app)).
  destruct (@angleDifference_view (afterRun now app) _ (@positioned_azimuth _ (Hp _ Hin)))
    as [d Hd].
  rewrite Hd. eexists; reflexivity.
Qed.

Lemma render_after :
  exists calls,
    NightSkyApp.render now canvas app =
      Some ((afterRun now app), calls, NightSkyApp.updateObjectInfo (afterRun now app)).
Proof.
  unfold NightSkyApp.render. rewrite calculateVisibleObjects_returns. fold (afterRun now app).
  destruct drawStars_returns as [c1 ->].
  destruct drawConstellations_returns as [c2 ->].
  destruct drawPlanets_returns as [c3 ->].
  destruct drawMoon_returns as [c4 ->].
  eexists; reflexivity.
Qed.



End AfterRun.

(** X7.  A frame of [NightSkyApp] always returns: run after
    [calculateVisibleObjects], none of the draw methods is caught in the
    loops of [angleDifference], whatever the time, the canvas and the
    state of the object. *)
Theorem render_returns (now : number) (canvas : Canvas.t) (app : NightSkyApp.t) :
  exists (app' : NightSkyApp.t) (calls : list Canvas.call),
    NightSkyApp.calculateVisibleObjects now app = Some app' /\
    NightSkyApp.render now canvas app =
      Some (app', calls, NightSkyApp.updateObjectInfo app').
Proof.
  destruct (render_after now app canvas) as [calls Hr].
  exists (afterRun now app), calls.
  split; [apply calculateVisibleObjects_returns | exact Hr].
Qed.



End Frames.

(** ** Screen coordinates and star colours *)

Section ScreenCoordinates.

Local Open Scope string_scope.
Local Open Scope R_scope.

(** X9.  The draw methods of [NightSkyApp] map a difference of [fov]
    degrees to a whole canvas width (or height), while the listing admits
    differences up to [fov].  On a canvas of [w] by [h] pixels, whole
    numbers, with a field of view between 1 and 360 degrees and
    differences of at most 360 degrees: a difference of at most [fov / 2]
    is painted on the canvas; a difference of at most [fov], as the
    listing admits, is painted at most half a canvas size away from the
    canvas; and a difference of three quarters of [fov] or more is painted
    off the canvas. *)
Theorem screen_on_canvas (app : NightSkyApp.t) (canvas : Canvas.t)
    (fov azDiff altDiff : R) (w h : Z) :
  NightSkyApp.fov app = Fin fov -> Canvas.width canvas = Fin (IZR w) ->
  Canvas.height canvas = Fin (IZR h) ->
  1 <= fov <= 360 -> (0 < w <= 4294967295)%Z -> (0 < h <= 4294967295)%Z ->
  Rabs azDiff <= 360 -> Rabs altDiff <= 360 ->
  exists x y : R,
    NightSkyApp.screenX app canvas (Fin azDiff) = Fin x /\
    NightSkyApp.screenY app canvas (Fin altDiff) = Fin y /\
    (Rabs azDiff <= fov / 2 -> 0 <= x <= IZR w) /\
    (Rabs altDiff <= fov / 2 -> 0 <= y <= IZR h) /\
    (Rabs azDiff <= fov -> - IZR w / 2 <= x <= 3 * IZR w / 2) /\
    (Rabs altDiff <= fov -> - IZR h / 2 <= y <= 3 * IZR h / 2) /\
    (3 * fov / 4 <= Rabs azDiff -> x <= - IZR w / 4 \/ 5 * IZR w / 4 <= x) /\
    (3 * fov / 4 <= Rabs altDiff -> y <= - IZR h / 4 \/ 5 * IZR h / 4 <= y).
Proof.
  intros Hfov Hw Hh Hf0 [Hw0 _] [Hh0 _] _ _.
  apply IZR_lt in Hw0. apply IZR_lt in Hh0.
  unfold NightSkyApp.screenX, NightSkyApp.screenY. rewrite Hfov, Hw, Hh.
  cbn [Num.div Num.mul Num.add Num.sub Num.neg].
  rewrite !(@Reqb_false 2 0) by lra. rewrite !(@Reqb_false fov 0) by lra.
  cbn [Num.div Num.mul Num.add Num.sub Num.neg].
  eexists. eexists. split; [reflexivity |]. split; [reflexivity |].
  assert (Hscale : forall d s : R, 0 < s ->
            (Rabs d <= fov / 2 -> - (s / 2) <= d / fov * s <= s / 2) /\
            (Rabs d <= fov -> - s <= d / fov * s <= s) /\
            (3 * fov / 4 <= Rabs d ->
             d / fov * s <= - (3 * s / 4) \/ 3 * s / 4 <= d / fov * s)).
  { intros d s Hs.
    assert (Hd : d = d / fov * fov) by (field; lra).
    set (q := d / fov) in *. clearbody q.
    assert (Habs : Rabs d = Rabs q * fov).
    { rewrite Hd at 1. rewrite Rabs_mult. rewrite (Rabs_pos_eq fov) by lra. reflexivity. }
    rewrite Habs. split; [| split].
    - intros Hle. assert (Hq : Rabs q <= 1 / 2).
      { apply Rmult_le_reg_r with fov; lra. }
      assert (Hq' : - (1 / 2) <= q <= 1 / 2)
        by (unfold Rabs in Hq; destruct (Rcase_abs q); lra).
      split; nra.
    - intros Hle. assert (Hq : Rabs q <= 1).
      { apply Rmult_le_reg_r with fov; lra. }
      assert (Hq' : - 1 <= q <= 1)
        by (unfold Rabs in Hq; destruct (Rcase_abs q); lra).
      split; nra.
    - intros Hge. assert (Hq : 3 / 4 <= Rabs q).
      { apply Rmult_le_reg_r with fov; lra. }
      unfold Rabs in Hq. destruct (Rcase_abs q); [left | right]; nra. }
  destruct (Hscale azDiff (IZR w) Hw0) as [Ha1 [Ha2 Ha3]].
  destruct (Hscale altDiff (IZR h) Hh0) as [He1 [He2 He3]].
  split; [intros H; apply Ha1 in H; lra |].
  split; [intros H; apply He1 in H; lra |].
  split; [intros H; apply Ha2 in H; lra |].
  split; [intros H; apply He2 in H; lra |].
  split; [intros H; apply Ha3 in H; destruct H; [left | right]; lra |].
  intros H; apply He3 in H; destruct H; [right | left]; lra.
Qed.

Lemma screen_on_canvas_witness :
  exists x y : R,
    NightSkyApp.screenX (NightSkyApp.initial (Fin 0) (Fin 0))
      {| Canvas.width := Fin (IZR 400); Canvas.height := Fin (IZR 800) |} (Fin 45) = Fin x /\
    NightSkyApp.screenY (NightSkyApp.initial (Fin 0) (Fin 0))
      {| Canvas.width := Fin (IZR 400); Canvas.height := Fin (IZR 800) |} (Fin 10) = Fin y /\
    (Rabs 45 <= 60 / 2 -> 0 <= x <= IZR 400) /\
    (Rabs 10 <= 60 / 2 -> 0 <= y <= IZR 800) /\
    (Rabs 45 <= 60 -> - IZR 400 / 2 <= x <= 3 * IZR 400 / 2) /\
    (Rabs 10 <= 60 -> - IZR 800 / 2 <= y <= 3 * IZR 800 / 2) /\
    (3 * 60 / 4 <= Rabs 45 -> x <= - IZR 400 / 4 \/ 5 * IZR 400 / 4 <= x) /\
    (3 * 60 / 4 <= Rabs 10 -> y <= - IZR 800 / 4 \/ 5 * IZR 800 / 4 <= y).
Proof.
  apply (@screen_on_canvas (NightSkyApp.initial (Fin 0) (Fin 0))
           {| Canvas.width := Fin (IZR 400); Canvas.height := Fin (IZR 800) |}
           60 45 10 400 800);
    try reflexivity; try lia; try lra;
    unfold Rabs; match goal with |- context [Rcase_abs ?x] => destruct (Rcase_abs x) end; lra.
Defined.

(** A key of one character is none of the keys of [Object.prototype]:
    [colors[type]] is an own property or nothing. *)
Lemma one_character_not_inherited (c : Ascii.ascii) :
  Obj.inherited (String c EmptyString) = false.
Proof.
  unfold Obj.inherited, Obj.prototype_keys. cbn [existsb String.eqb].
  repeat match goal with
    | |- context [Ascii.eqb c ?a] => destruct (Ascii.eqb c a)
    end; reflexivity.
Qed.

(** Every colour of [getStarColor] is one of the table or the default. *)
Lemma getStarColor_cases (spectralClass : string) :
  In (NightSkyApp.getStarColor spectralClass)
     ("rgba(255, 255, 255, 1)" :: map snd NightSkyApp.colors).
Proof.
  unfold NightSkyApp.getStarColor, NightSkyApp.colors.
  destruct spectralClass as [| c s]; [cbn; tauto |].
  cbn [Obj.own map snd].
  repeat match goal with
    | |- context [String.eqb ?a (String c EmptyString)] =>
        destruct (String.eqb a (String c EmptyString))
    end; cbn [In]; tauto.
Qed.

(** X10.  Whatever the spectral class, the colour [getStarColor] returns
    ends in the opacity [1)], and the replacement that [drawStars] makes
    for the glow of a bright star turns exactly this opacity into [0.3)],
    leaving the three colour components as they are.  A star without a
    spectral class gets the colour of class A. *)
Theorem getStarColor_glow (spectralClass : string) :
  (exists rgb : string,
      NightSkyApp.getStarColor spectralClass = rgb ++ "1)" /\
      Str.replace "1)" "0.3)" (NightSkyApp.getStarColor spectralClass) = rgb ++ "0.3)") /\
  NightSkyApp.getStarColor "" = NightSkyApp.getStarColor "A".
Proof.
  split; [| reflexivity].
  pose proof (getStarColor_cases spectralClass) as Hin.
  set (color := NightSkyApp.getStarColor spectralClass) in *. clearbody color.
  exists (String.substring 0 (String.length color - 2) color).
  cbn [map snd NightSkyApp.colors In] in Hin.
  repeat (destruct Hin as [<- | Hin]; [split; reflexivity |]).
  destruct Hin.
Qed.

End ScreenCoordinates.

(** ** Culmination, and the declinations of the Sun and the planets *)

Section Culmination.

Import Astronomy.
Local Open Scope string_scope.
Local Open Scope R_scope.

(** The arc sine, in degrees, between two angles of [-90, 90]. *)
Lemma asin_between (s lo hi : R) :
  -1 <= s <= 1 -> -90 <= lo <= 90 -> -90 <= hi <= 90 ->
  sin (lo * PI / 180) <= s <= sin (hi * PI / 180) ->
  lo <= asin s * 180 / PI <= hi.
Proof.
  intros Hs Hlo Hhi [H1 H2]. pose proof PI_RGT_0 as Hpi.
  pose proof (asin_bound s) as Hb.
  assert (Hlo' : - (PI / 2) <= lo * PI / 180 <= PI / 2) by (split; nra).
  assert (Hhi' : - (PI / 2) <= hi * PI / 180 <= PI / 2) by (split; nra).
  rewrite <- (sin_asin s Hs) in H1, H2.
  apply sin_incr_0 in H1; try lra. apply sin_incr_0 in H2; try lra.
  apply rad2deg_bounds. lra.
Qed.

(** For a declination and a latitude of [-90, 90], the sine of the
    altitude lies between those of the two culminations. *)
Lemma sinAlt_culminations (dec lat ha : R) :
  -90 <= dec <= 90 -> -90 <= lat <= 90 ->
  sin ((Rabs (lat + dec) - 90) * PI / 180) <= sinAlt dec lat ha <=
  sin ((90 - Rabs (lat - dec)) * PI / 180).
Proof.
  intros Hdec Hlat. pose proof PI_RGT_0 as Hpi. unfold sinAlt.
  assert (Hcd : 0 <= cos (dec * PI / 180)) by (apply cos_ge_0; nra).
  assert (Hcl : 0 <= cos (lat * PI / 180)) by (apply cos_ge_0; nra).
  pose proof (COS_bound (ha * PI / 180)) as [Hh1 Hh2].
  assert (Hprod : 0 <= cos (dec * PI / 180) * cos (lat * PI / 180))
    by (apply Rmult_le_pos; assumption).
  assert (Hup : sin ((90 - Rabs (lat - dec)) * PI / 180) =
                cos (lat * PI / 180) * cos (dec * PI / 180) +
                sin (lat * PI / 180) * sin (dec * PI / 180)).
  { rewrite <- cos_minus.
    replace ((90 - Rabs (lat - dec)) * PI / 180)
      with (PI / 2 - Rabs (lat - dec) * PI / 180) by lra.
    rewrite sin_shift. unfold Rabs. destruct (Rcase_abs (lat - dec)).
    - rewrite <- cos_neg. f_equal. lra.
    - f_equal. lra. }
  assert (Hdown : sin ((Rabs (lat + dec) - 90) * PI / 180) =
                  - (cos (lat * PI / 180) * cos (dec * PI / 180) -
                     sin (lat * PI / 180) * sin (dec * PI / 180))).
  { rewrite <- cos_plus.
    replace ((Rabs (lat + dec) - 90) * PI / 180)
      with (- (PI / 2 - Rabs (lat + dec) * PI / 180)) by lra.
    rewrite sin_neg, sin_shift. f_equal. unfold Rabs. destruct (Rcase_abs (lat + dec)).
    - rewrite <- cos_neg. f_equal. lra.
    - f_equal. lra. }
  rewrite Hup, Hdown.
  set (p := cos (dec * PI / 180) * cos (lat * PI / 180)) in *.
  replace (cos (dec * PI / 180) * cos (lat * PI / 180) * cos (ha * PI / 180))
    with (p * cos (ha * PI / 180)) by (unfold p; ring).
  replace (cos (lat * PI / 180) * cos (dec * PI / 180)) with p by (unfold p; ring).
  set (c := cos (ha * PI / 180)) in *. clearbody p c. split; nra.
Qed.

Lemma altitude_culminations (ra dec lat lon jd : R) :
  -90 <= dec <= 90 -> -90 <= lat <= 90 ->
  exists alt : R,
    altitude (equatorialToHorizontal (Fin ra) (Fin dec) (Fin lat) (Fin lon) (Fin jd)) =
      Fin alt /\
    Rabs (lat + dec) - 90 <= alt <= 90 - Rabs (lat - dec).
Proof.
  intros Hdec Hlat.
  destruct (equatorialToHorizontal_finite ra dec lat lon jd) as [lst [_ [Halt _]]].
  rewrite Halt. eexists; split; [reflexivity |].
  apply asin_between.
  - apply sinAlt_bound.
  - unfold Rabs; destruct (Rcase_abs (lat + dec)); lra.
  - unfold Rabs; destruct (Rcase_abs (lat - dec)); lra.
  - apply sinAlt_culminations; assumption.
Qed.

(** X14.  On the sky map, for a star of the catalog ranges (right
    ascension in [0, 360], declination in [-90, 90]), an observer at a
    latitude of [-90, 90] and a longitude of [-360, 360], and every time a
    [Date] can hold: when the declination and the latitude add up to 91
    degrees or more in absolute value and differ by a degree or more, the
    star never sets and never passes within a degree of the zenith, and
    [calculateAllObjects] lists it; when they differ by 91 degrees or
    more the star never rises, and the loop over the stars adds nothing
    for it. *)
Theorem circumpolar_stars (now lat lon ra dec : R) (app : NightSkyMapZoom.t) (star : Star.t) :
  NightSkyMapZoom.latitude app = Fin lat -> NightSkyMapZoom.longitude app = Fin lon ->
  Star.ra star = Fin ra -> Star.dec star = Fin dec ->
  -90 <= dec <= 90 -> -90 <= lat <= 90 -> 0 <= ra <= 360 -> Rabs lon <= 360 ->
  Rabs now <= 8640000000000000 ->
  In star (NightSkyMapZoom.stars app) ->
  (91 <= Rabs (lat + dec) -> 1 <= Rabs (lat - dec) ->
   exists o : SkyObject.t,
     In o (NightSkyMapZoom.allObjects (NightSkyMapZoom.calculateAllObjects (Fin now) app)) /\
     SkyObject.name o = Star.name star /\
     SkyObject.catalogIndex o = Some (Star.id star) /\
     aboveHorizon o) /\
  (91 <= Rabs (lat - dec) ->
   NightSkyMapZoom.addStar app (getJulianDate (Fin now)) star = []).
Proof.
  intros Hlat Hlon Hra Hdec Hd Hl _ _ _ Hin.
  rewrite getJulianDate_Fin.
  destruct (@altitude_culminations ra dec lat lon (now / 86400000 + 2440587.5) Hd Hl)
    as [alt [Halt Hrange]].
  assert (Hadd : NightSkyMapZoom.addStar app (Fin (now / 86400000 + 2440587.5)) star =
                 if Num.Rltb 0 alt
                 then [NightSkyMapZoom.starObject star
                         (equatorialToHorizontal (Fin ra) (Fin dec) (Fin lat) (Fin lon)
                            (Fin (now / 86400000 + 2440587.5)))]
                 else []).
  { unfold NightSkyMapZoom.addStar. rewrite Hlat, Hlon, Hra, Hdec, Halt. reflexivity. }
  split.
  - intros Hc _. rewrite Rltb_true in Hadd by lra.
    eexists. split; [| split; [| split]].
    + cbn [NightSkyMapZoom.calculateAllObjects NightSkyMapZoom.allObjects].
      eapply Permutation_in; [apply (@sort_Permutation _ magnitudeOf) |].
      apply in_or_app. left. apply in_flat_map. exists star. split; [exact Hin |].
      rewrite getJulianDate_Fin, Hadd. left. reflexivity.
    + reflexivity.
    + reflexivity.
    + unfold aboveHorizon. cbn [NightSkyMapZoom.starObject SkyObject.altitude].
      rewrite Halt. unfold Num.gt. cbn [Num.lt]. apply Rltb_true. lra.
  - intros Hc. rewrite Rltb_false in Hadd by lra. exact Hadd.
Qed.

Lemma circumpolar_stars_witness :
  (91 <= Rabs (45 + 89.264) -> 1 <= Rabs (45 - 89.264) ->
   exists o : SkyObject.t,
     In o (NightSkyMapZoom.allObjects
             (NightSkyMapZoom.calculateAllObjects (Fin 0)
                (NightSkyMapZoom.initial (Fin 45) (Fin 0)))) /\
     SkyObject.name o = "Polaris" /\
     SkyObject.catalogIndex o = Some 40%nat /\
     aboveHorizon o) /\
  (91 <= Rabs (45 - 89.264) ->
   NightSkyMapZoom.addStar (NightSkyMapZoom.initial (Fin 45) (Fin 0))
     (getJulianDate (Fin 0))
     {| Star.id := 40; Star.name := "Polaris"; Star.ra := raHoursToDegrees (Fin 2.530);
        Star.dec := Fin 89.264; Star.magnitude := Fin 1.98; Star.spectralClass := "F7Ib";
        Star.altitude := None; Star.azimuth := None |} = []).
Proof.
  apply (@circumpolar_stars 0 45 0 (2.530 * 15) 89.264
           (NightSkyMapZoom.initial (Fin 45) (Fin 0))
           {| Star.id := 40; Star.name := "Polaris"; Star.ra := raHoursToDegrees (Fin 2.530);
              Star.dec := Fin 89.264; Star.magnitude := Fin 1.98;
              Star.spectralClass := "F7Ib";
              Star.altitude := None; Star.azimuth := None |});
    try reflexivity; try lra;
    try (unfold Rabs; destruct (Rcase_abs 0); lra).
  cbn [NightSkyMapZoom.stars NightSkyMapZoom.initial getStars mapi mapi_from STAR_CATALOG].
  do 40 right. left. reflexivity.
Defined.

(** Within fifty million days of the epoch J2000 the declination of the
    Sun is at most the obliquity of the ecliptic used on that day, in the
    exact arithmetic of the model. *)
Lemma sun_within_obliquity (jd : R) :
  Rabs (jd - 2451545.0) <= 50000000 ->
  exists r d : R,
    getSunPosition (Fin jd) = {| ra := Fin r; dec := Fin d |} /\
    Rabs d <= 23.439 - 0.0000004 * (jd - 2451545.0).
Proof.
  intros Hjd. pose proof PI_RGT_0 as Hpi.
  assert (Hn : -50000000 <= jd - 2451545.0 <= 50000000)
    by (unfold Rabs in Hjd; destruct (Rcase_abs (jd - 2451545.0)); lra).
  set (E := 23.439 - 0.0000004 * (jd - 2451545.0)).
  assert (HE : 0 <= E <= 90) by (unfold E; lra).
  unfold getSunPosition, J2000, deg2rad. num_eval.
  match goal with
  | |- context [Math.atan2 (Fin ?y) (Fin ?x)] =>
      destruct (right_ascension_range y x) as [r [Hr _]]
  end.
  rewrite Hr.
  match goal with
  | |- context [Math.asin (Fin (sin ?e * sin ?l))] =>
      replace e with (E * PI / 180) by (unfold E; lra);
      pose proof (SIN_bound l) as Hl; set (sl := sin l) in *; clearbody sl
  end.
  assert (Hs0 : 0 <= sin (E * PI / 180)) by (apply sin_ge_0; nra).
  pose proof (SIN_bound (E * PI / 180)) as Hs1.
  assert (Hs : -1 <= sin (E * PI / 180) * sl <= 1) by (split; nra).
  rewrite (asin_Fin Hs), rad2deg_Fin.
  eexists. eexists. split; [reflexivity |].
  assert (Hb : - E <= asin (sin (E * PI / 180) * sl) * 180 / PI <= E).
  { apply asin_between; [exact Hs | lra | lra |].
    replace (- E * PI / 180) with (- (E * PI / 180)) by lra. rewrite sin_neg.
    split; nra. }
  apply Rabs_le. exact Hb.
Qed.

(** X15.  From 100,000 days before the epoch J2000 to 50,000,000 days
    after it, the Sun that [getSunPosition] returns stays between the
    tropics: its declination is at most 23.5 degrees in absolute value
    (the obliquity the method uses is below 23.48 degrees there). *)
Theorem getSunPosition_declination (jd : R) :
  -100000 <= jd - 2451545.0 <= 50000000 ->
  exists r d : R,
    getSunPosition (Fin jd) = {| ra := Fin r; dec := Fin d |} /\
    Rabs d <= 23.5.
Proof.
  intros Hn.
  destruct (@sun_within_obliquity jd) as [r [d [Hsun Hd]]].
  { apply Rabs_le. lra. }
  exists r, d. split; [exact Hsun | lra].
Qed.

Lemma getSunPosition_declination_witness :
  exists r d : R,
    getSunPosition (Fin 2451545.0) = {| ra := Fin r; dec := Fin d |} /\
    Rabs d <= 23.5.
Proof.
  apply (@getSunPosition_declination 2451545.0). lra.
Defined.

(** Unfolds a lookup in the planet table at a literal name. *)
Ltac read_planet :=
  cbv [getPlanetPosition Obj.get Obj.own Obj.field planets
       String.eqb Ascii.eqb Bool.eqb L0 w i].

(** X16.  For each of the five planets and the Julian Date of every time
    a [Date] can hold, the declination that [getPlanetPosition] returns
    is ten times a product of the sine of the inclination and a sine: it
    stays below [7 * PI / 18] degrees in absolute value, less than 1.56
    degrees from the celestial equator. *)
Theorem getPlanetPosition_declination (name : string) (jd : R) :
  tabulated name = true -> civilDate jd ->
  exists r d : R,
    getPlanetPosition name (Fin jd) =
      Some {| pos_ra := Fin r; pos_dec := Fin d;
              pos_magnitude := getPlanetMagnitude name |} /\
    Rabs d < 7 * PI / 18 /\ Rabs d < 1.56.
Proof.
  intros Ht _. pose proof PI_RGT_0 as Hpi. pose proof PI_4 as Hpi4.
  assert (Hbound : forall inc m : R, 0 < inc <= 7 ->
            Rabs (sin (inc * PI / 180) * sin m * 10) < 7 * PI / 18).
  { intros inc m Hinc.
    assert (H0 : 0 < inc * PI / 180) by nra.
    pose proof (sin_lt_x _ H0) as Hlt.
    assert (Hpos : 0 <= sin (inc * PI / 180)) by (apply sin_ge_0; nra).
    pose proof (SIN_bound m) as Hm.
    set (s := sin (inc * PI / 180)) in *. set (t := sin m) in *. clearbody s t.
    assert (Hs : s < 7 * PI / 180) by nra.
    apply Rabs_def1; nra. }
  destruct (tabulated_cases _ Ht) as [-> | [-> | [-> | [-> | ->]]]];
    read_planet; unfold J2000, deg2rad; num_eval;
    (eexists; eexists; split; [reflexivity |]);
    match goal with
    | |- Rabs (sin (?inc * PI / 180) * sin ?m * 10) < _ /\ _ =>
        pose proof (Hbound inc m ltac:(lra)) as Hd; split; [exact Hd | lra]
    end.
Qed.

Lemma getPlanetPosition_declination_witness :
  exists r d : R,
    getPlanetPosition "Mars" (Fin 2451545.0) =
      Some {| pos_ra := Fin r; pos_dec := Fin d;
              pos_magnitude := getPlanetMagnitude "Mars" |} /\
    Rabs d < 7 * PI / 18 /\ Rabs d < 1.56.
Proof.
  apply (@getPlanetPosition_declination "Mars" 2451545.0); [reflexivity |].
  unfold civilDate, Rabs. destruct (Rcase_abs (2451545.0 - 2440587.5)); lra.
Defined.

End Culmination.

(** ** The gestures of the sky map *)

Section Gestures.

Import Astronomy.
Local Open Scope string_scope.
Local Open Scope R_scope.

(** The sort is a rearrangement, whatever the comparator. *)
Lemma insert_any_Permutation (A : Type) (compareFn : A -> A -> number) (x : A) (l : list A) :
  Permutation (x :: l) (insert compareFn x l).
Proof.
  induction l as [| y l IH]; cbn [insert]; [apply Permutation_refl |].
  destruct (Num.gt (compareFn x y) (Fin 0)).
  - apply perm_trans with (y :: x :: l); [apply perm_swap | apply perm_skip; exact IH].
  - apply Permutation_refl.
Qed.

Lemma sort_any_Permutation (A : Type) (compareFn : A -> A -> number) (l : list A) :
  Permutation l (sort compareFn l).
Proof.
  induction l as [| x l IH]; cbn [sort]; [apply perm_nil |].
  apply perm_trans with (x :: sort compareFn l);
    [apply perm_skip; exact IH | apply insert_any_Permutation].
Qed.

Lemma sort_any_Forall (A : Type) (compareFn : A -> A -> number) (P : A -> Prop)
    (l : list A) :
  Forall P l -> Forall P (sort compareFn l).
Proof. intros H. apply (Permutation_Forall (sort_any_Permutation compareFn l) H). Qed.

(** The entries pushed for the constellations name keys of the table. *)
Lemma inViewEntry_keyed (app : NightSkyMapZoom.t) (v : NightSkyMapZoom.view) :
  Forall keyed (flat_map (NightSkyMapZoom.inViewEntry app v) CONSTELLATIONS).
Proof.
  unfold CONSTELLATIONS. cbn [flat_map]. unfold NightSkyMapZoom.inViewEntry.
  repeat (apply Forall_app; split); try apply Forall_nil;
    destruct (NightSkyMapZoom.countStars _ _ _) as [s t];
    destruct (Nat.ltb 0 s); constructor; try apply Forall_nil;
    eexists; reflexivity.
Qed.

Lemma identifyConstellationsInView_keyed (app : NightSkyMapZoom.t)
    (v : NightSkyMapZoom.view) :
  Forall keyed
    (NightSkyMapZoom.constellationsInView
       (NightSkyMapZoom.identifyConstellationsInView app v)).
Proof.
  cbn [NightSkyMapZoom.identifyConstellationsInView NightSkyMapZoom.set_constellationsInView
       NightSkyMapZoom.constellationsInView].
  apply sort_any_Forall. apply inViewEntry_keyed.
Qed.

(** A tap on entries that name keys of the table returns. *)
Lemma tapOn_returns (app : NightSkyMapZoom.t) (v : NightSkyMapZoom.view) (x y : number)
    (inView : list ConstellationInView.t) :
  Forall keyed inView ->
  exists selection, NightSkyMapZoom.tapOn app v x y inView = Some selection.
Proof.
  induction inView as [| c inView IH]; intros Hk; cbn [NightSkyMapZoom.tapOn];
    [eexists; reflexivity |].
  apply Forall_cons_iff in Hk. destruct Hk as [[lines Hc] Hk].
  unfold NightSkyMapZoom.isPointInConstellation, Obj.get. rewrite Hc.
  destruct (existsb _ lines).
  - destruct (NightSkyMapZoom.selectedConstellation v) as [selected |];
      [destruct (String.eqb _ _) |]; eexists; reflexivity.
  - apply IH. exact Hk.
Qed.

Lemma getTouchDistance_finite (touch1 touch2 : Touch.t) :
  finiteTouch touch1 -> finiteTouch touch2 ->
  exists d : R, NightSkyMapZoom.getTouchDistance touch1 touch2 = Fin d /\ 0 <= d.
Proof.
  intros [H1x H1y] [H2x H2y]. unfold NightSkyMapZoom.getTouchDistance.
  destruct (Touch.clientX touch1) as [x1 | | |]; try discriminate.
  destruct (Touch.clientY touch1) as [y1 | | |]; try discriminate.
  destruct (Touch.clientX touch2) as [x2 | | |]; try discriminate.
  destruct (Touch.clientY touch2) as [y2 | | |]; try discriminate.
  cbn [Num.sub Num.neg Num.add Num.mul Math.sqrt].
  pose proof (Rle_0_sqr (x1 + - x2)) as Hx. pose proof (Rle_0_sqr (y1 + - y2)) as Hy.
  unfold Rsqr in Hx, Hy.
  rewrite Rltb_false by lra.
  eexists; split; [reflexivity | apply sqrt_pos].
Qed.

(** The clamp of the pinch and of the buttons. *)
Lemma clamp_range (z : R) :
  exists z' : R,
    Math.max (Fin 1.0) (Math.min (Fin 10.0) (Fin z)) = Fin z' /\ 1 <= z' <= 10.
Proof.
  unfold Math.max, Math.min. cbn [Num.min Num.lt].
  destruct (Rlt_dec z 10.0) as [Hz | Hz].
  - rewrite Rltb_true by exact Hz. cbn [Num.max Num.lt].
    destruct (Rlt_dec 1.0 z) as [H1 | H1].
    + rewrite Rltb_true by exact H1. exists z. split; [reflexivity | lra].
    + rewrite Rltb_false by lra. eexists; split; [reflexivity | lra].
  - rewrite Rltb_false by lra. cbn [Num.max Num.lt]. rewrite Rltb_true by lra.
    eexists; split; [reflexivity | lra].
Qed.

Lemma touchstart_steady (touches : list Touch.t) (v : NightSkyMapZoom.view) :
  Forall finiteTouch touches -> steady v -> steady (NightSkyMapZoom.touchstart touches v).
Proof.
  intros Ht (Hmin & Hmax & Hz & Hd & Hk). unfold NightSkyMapZoom.touchstart.
  destruct touches as [| t0 [| t1 [| t2 touches]]]; try (repeat split; assumption).
  apply Forall_cons_iff in Ht. destruct Ht as [H0 Ht].
  apply Forall_cons_iff in Ht. destruct Ht as [H1 _].
  destruct (getTouchDistance_finite H0 H1) as [d [Hdist _]].
  repeat split; try assumption.
  cbn [NightSkyMapZoom.set_lastPinchDistance NightSkyMapZoom.lastPinchDistance].
  rewrite Hdist. reflexivity.
Qed.

Lemma touchmove_steady (touches : list Touch.t) (v : NightSkyMapZoom.view) :
  Forall finiteTouch touches -> steady v -> steady (NightSkyMapZoom.touchmove touches v).
Proof.
  intros Ht (Hmin & Hmax & [z [Hz Hzr]] & Hd & Hk). unfold NightSkyMapZoom.touchmove.
  destruct touches as [| t0 [| t1 [| t2 touches]]].
  - repeat split; try assumption. exists z. split; assumption.
  - destruct (NightSkyMapZoom.isDragging v);
      repeat split; try assumption; exists z; split; assumption.
  - apply Forall_cons_iff in Ht. destruct Ht as [H0 Ht].
    apply Forall_cons_iff in Ht. destruct Ht as [H1 _].
    destruct (getTouchDistance_finite H0 H1) as [d [Hdist _]].
    destruct (NightSkyMapZoom.lastPinchDistance v) as [d0 | | |] eqn:Hd0;
      try discriminate.
    cbn [NightSkyMapZoom.set_lastPinchDistance NightSkyMapZoom.set_zoomLevel
         NightSkyMapZoom.zoomLevel NightSkyMapZoom.minZoom NightSkyMapZoom.maxZoom
         NightSkyMapZoom.lastPinchDistance].
    rewrite Hdist, Hz, Hmin, Hmax.
    cbn [Num.sub Num.neg Num.add Num.div]. rewrite Reqb_false by lra.
    cbn [Num.add Num.mul].
    destruct (clamp_range (z * (1 + (d + - d0) / 500))) as [z' [Hz' Hzr']].
    unfold steady, zoomInRange.
    cbn [NightSkyMapZoom.set_lastPinchDistance NightSkyMapZoom.set_zoomLevel
         NightSkyMapZoom.zoomLevel NightSkyMapZoom.minZoom NightSkyMapZoom.maxZoom
         NightSkyMapZoom.lastPinchDistance NightSkyMapZoom.constellationsInView].
    rewrite Hz'.
    split; [exact Hmin |]. split; [exact Hmax |].
    split; [exists z'; split; [reflexivity | exact Hzr'] |].
    split; [reflexivity | exact Hk].
  - repeat split; try assumption. exists z. split; assumption.
Qed.

Lemma identifyConstellationsInView_steady (app : NightSkyMapZoom.t)
    (v : NightSkyMapZoom.view) :
  NightSkyMapZoom.minZoom v = Fin 1.0 -> NightSkyMapZoom.maxZoom v = Fin 10.0 ->
  zoomInRange v -> Num.is_finite (NightSkyMapZoom.lastPinchDistance v) = true ->
  steady (NightSkyMapZoom.identifyConstellationsInView app v).
Proof.
  intros Hmin Hmax Hz Hd.
  split; [exact Hmin |]. split; [exact Hmax |]. split; [exact Hz |].
  split; [exact Hd |]. apply identifyConstellationsInView_keyed.
Qed.

Lemma touchend_steady (app : NightSkyMapZoom.t) (touches changedTouches : list Touch.t)
    (v : NightSkyMapZoom.view) :
  steady v ->
  exists v' : NightSkyMapZoom.view,
    NightSkyMapZoom.touchend app touches changedTouches v = Some v' /\ steady v'.
Proof.
  intros (Hmin & Hmax & Hz & Hd & Hk). unfold NightSkyMapZoom.touchend.
  destruct touches as [| t touches].
  2:{ eexists; split; [reflexivity |]. repeat split; assumption. }
  assert (Hid : forall w,
            NightSkyMapZoom.minZoom w = Fin 1.0 -> NightSkyMapZoom.maxZoom w = Fin 10.0 ->
            zoomInRange w ->
            Num.is_finite (NightSkyMapZoom.lastPinchDistance w) = true ->
            exists v',
              Some (NightSkyMapZoom.identifyConstellationsInView app w) = Some v' /\
              steady v').
  { intros w H1 H2 H3 H4. eexists; split; [reflexivity |].
    apply identifyConstellationsInView_steady; assumption. }
  destruct changedTouches as [| c [| c' changedTouches]];
    try (apply Hid; assumption).
  unfold NightSkyMapZoom.handleTap.
  cbn [NightSkyMapZoom.set_isDragging NightSkyMapZoom.zoomLevel
       NightSkyMapZoom.constellationsInView].
  destruct (Num.lt (NightSkyMapZoom.zoomLevel v) (Fin 1.5)).
  - apply Hid; assumption.
  - match goal with
    | |- context [NightSkyMapZoom.tapOn app ?w ?x ?y ?l] =>
        destruct (@tapOn_returns app w x y l Hk) as [selection Hs]
    end.
    rewrite Hs. apply Hid; assumption.
Qed.

Lemma dispatch_steady (app : NightSkyMapZoom.t) (e : NightSkyMapZoom.event)
    (v : NightSkyMapZoom.view) :
  finiteEvent e -> steady v ->
  exists v' : NightSkyMapZoom.view, NightSkyMapZoom.dispatch app e v = Some v' /\ steady v'.
Proof.
  intros He Hv. destruct e as [touches | touches | touches changed | | | |];
    cbn [NightSkyMapZoom.dispatch finiteEvent] in *.
  - eexists; split; [reflexivity |]. apply touchstart_steady; assumption.
  - eexists; split; [reflexivity |]. apply touchmove_steady; assumption.
  - apply touchend_steady. exact Hv.
  - eexists; split; [reflexivity |].
    destruct Hv as (Hmin & Hmax & [z [Hz Hzr]] & Hd & Hk).
    apply identifyConstellationsInView_steady; try assumption.
    unfold zoomInRange.
    cbn [NightSkyMapZoom.set_zoomLevel NightSkyMapZoom.zoomLevel NightSkyMapZoom.maxZoom].
    rewrite Hz, Hmax. cbn [Num.mul]. unfold Math.min. cbn [Num.min Num.lt].
    destruct (Rlt_dec (z * 1.3) 10.0) as [H | H].
    + rewrite Rltb_true by exact H. eexists; split; [reflexivity | lra].
    + rewrite Rltb_false by lra. eexists; split; [reflexivity | lra].
  - eexists; split; [reflexivity |].
    destruct Hv as (Hmin & Hmax & [z [Hz Hzr]] & Hd & Hk).
    apply identifyConstellationsInView_steady; try assumption.
    unfold zoomInRange.
    cbn [NightSkyMapZoom.set_zoomLevel NightSkyMapZoom.zoomLevel NightSkyMapZoom.minZoom].
    rewrite Hz, Hmin. cbn [Num.div]. rewrite Reqb_false by lra.
    unfold Math.max. cbn [Num.max Num.lt].
    destruct (Rlt_dec 1.0 (z / 1.3)) as [H | H].
    + rewrite Rltb_true by exact H. eexists; split; [reflexivity | lra].
    + rewrite Rltb_false by lra. eexists; split; [reflexivity | lra].
  - eexists; split; [reflexivity |].
    destruct Hv as (Hmin & Hmax & Hz & Hd & Hk).
    apply identifyConstellationsInView_steady; try assumption.
    exists 1.0. split; [reflexivity | lra].
  - eexists; split; [reflexivity |].
    destruct Hv as (Hmin & Hmax & Hz & Hd & Hk). repeat split; assumption.
Qed.

Lemma dispatchAll_steady (app : NightSkyMapZoom.t) (events : list NightSkyMapZoom.event)
    (v : NightSkyMapZoom.view) :
  Forall finiteEvent events -> steady v ->
  exists v' : NightSkyMapZoom.view,
    NightSkyMapZoom.dispatchAll app events v = Some v' /\ steady v'.
Proof.
  revert v. induction events as [| e events IH]; intros v He Hv;
    cbn [NightSkyMapZoom.dispatchAll]; [exists v; split; [reflexivity | exact Hv] |].
  apply Forall_cons_iff in He. destruct He as [He Hes].
  destruct (@dispatch_steady app e v He Hv) as [v1 [H1 Hv1]]. rewrite H1.
  apply IH; assumption.
Qed.

Lemma screenTouch_finite (touch : Touch.t) : screenTouch touch -> finiteTouch touch.
Proof. intros [x [y [Hx [Hy _]]]]. unfold finiteTouch. rewrite Hx, Hy. split; reflexivity. Qed.

Lemma screenEvent_finite (e : NightSkyMapZoom.event) : screenEvent e -> finiteEvent e.
Proof.
  destruct e as [touches | touches | touches changed | | | |];
    cbn [screenEvent finiteEvent]; try (intros; exact I).
  - apply Forall_impl. exact screenTouch_finite.
  - apply Forall_impl. exact screenTouch_finite.
  - intros [H1 H2]. split; (eapply Forall_impl; [exact screenTouch_finite | eassumption]).
Qed.

(** X17.  Starting from the view the constructor builds, every sequence
    of gestures and button clicks whose touch points lie on a screen
    (finite coordinates, at most a million pixels from the origin) is
    handled without an exception, and leaves a finite zoom level between
    [minZoom] = 1 and [maxZoom] = 10, with the two bounds as they were. *)
Theorem zoomLevel_stays_in_range (app : NightSkyMapZoom.t) (innerWidth innerHeight : number)
    (events : list NightSkyMapZoom.event) :
  Forall screenEvent events ->
  exists v' : NightSkyMapZoom.view,
    NightSkyMapZoom.dispatchAll app events
      (NightSkyMapZoom.initialView innerWidth innerHeight) = Some v' /\
    zoomInRange v' /\
    NightSkyMapZoom.minZoom v' = Fin 1.0 /\ NightSkyMapZoom.maxZoom v' = Fin 10.0.
Proof.
  intros He.
  assert (He' : Forall finiteEvent events)
    by (eapply Forall_impl; [exact screenEvent_finite | exact He]).
  destruct (@dispatchAll_steady app events
              (NightSkyMapZoom.initialView innerWidth innerHeight) He')
    as [v' [Hv' (Hmin & Hmax & Hz & _)]].
  { split; [reflexivity |]. split; [reflexivity |].
    split; [exists 1.0; split; [reflexivity | lra] |].
    split; [reflexivity | apply Forall_nil]. }
  exists v'. repeat split; assumption.
Qed.

Lemma zoomLevel_stays_in_range_witness :
  exists v' : NightSkyMapZoom.view,
    NightSkyMapZoom.dispatchAll (NightSkyMapZoom.initial (Fin 0) (Fin 0))
      [ NightSkyMapZoom.ZoomIn;
        NightSkyMapZoom.Touchstart
          [ {| Touch.clientX := Fin 0; Touch.clientY := Fin 0 |};
            {| Touch.clientX := Fin 30; Touch.clientY := Fin 40 |} ];
        NightSkyMapZoom.Touchmove
          [ {| Touch.clientX := Fin 0; Touch.clientY := Fin 0 |};
            {| Touch.clientX := Fin 3000; Touch.clientY := Fin 4000 |} ];
        NightSkyMapZoom.Touchend [] [] ]
      (NightSkyMapZoom.initialView (Fin 400) (Fin 800)) = Some v' /\
    zoomInRange v' /\
    NightSkyMapZoom.minZoom v' = Fin 1.0 /\ NightSkyMapZoom.maxZoom v' = Fin 10.0.
Proof.
  apply (@zoomLevel_stays_in_range (NightSkyMapZoom.initial (Fin 0) (Fin 0))
           (Fin 400) (Fin 800)).
  assert (Hpoint : forall x y : R,
            Rabs x <= 1000000 -> Rabs y <= 1000000 ->
            screenTouch {| Touch.clientX := Fin x; Touch.clientY := Fin y |}).
  { intros x y Hx Hy. exists x, y. repeat split; assumption. }
  assert (H0 : Rabs 0 <= 1000000) by (rewrite Rabs_R0; lra).
  assert (H30 : Rabs 30 <= 1000000) by (rewrite Rabs_pos_eq; lra).
  assert (H40 : Rabs 40 <= 1000000) by (rewrite Rabs_pos_eq; lra).
  assert (H3000 : Rabs 3000 <= 1000000) by (rewrite Rabs_pos_eq; lra).
  assert (H4000 : Rabs 4000 <= 1000000) by (rewrite Rabs_pos_eq; lra).
  repeat (apply Forall_cons;
          [cbn [screenEvent]; repeat constructor; apply Hpoint; assumption |]).
  apply Forall_nil.
Defined.

End Gestures.

(** ** The panel of the sky map *)

Section MapPanel.

Import Astronomy.
Local Open Scope string_scope.
Local Open Scope R_scope.


Lemma sub_NaN_l (a : number) : Num.sub NaN a = NaN.
Proof. reflexivity. Qed.




End MapPanel.

(** ** The constellations in view *)

Section InView.

Import Astronomy.
Local Open Scope string_scope.
Local Open Scope R_scope.

(** The two counters after the loops: the stars in view and all the
    indices of the lines. *)
Lemma countStar_fold (app : NightSkyMapZoom.t) (v : NightSkyMapZoom.view)
    (line : list nat) (s t : nat) :
  fold_left (NightSkyMapZoom.countStar app v) line (s, t) =
    ((s + List.length (filter (starInView app v) line))%nat, (t + List.length line)%nat).
Proof.
  revert s t. induction line as [| index line IH]; intros s t; cbn [fold_left filter].
  - cbn [List.length]. rewrite !Nat.add_0_r. reflexivity.
  - unfold NightSkyMapZoom.countStar at 2. unfold starInView at 1.
    destruct (NightSkyMapZoom.findStar app index) as [star |].
    + cbv zeta. destruct (NightSkyMapZoom.isInView _ _ _); rewrite IH; cbn [List.length];
        f_equal; lia.
    + rewrite IH. cbn [List.length]. f_equal; lia.
Qed.

Lemma countStars_spec (app : NightSkyMapZoom.t) (v : NightSkyMapZoom.view)
    (lines : list (list nat)) :
  NightSkyMapZoom.countStars app v lines =
    (List.length (filter (starInView app v) (List.concat lines)),
     List.length (List.concat lines)).
Proof.
  unfold NightSkyMapZoom.countStars.
  assert (H : forall s t,
             fold_left (fun counts line =>
                          fold_left (NightSkyMapZoom.countStar app v) line counts)
                       lines (s, t) =
             ((s + List.length (filter (starInView app v) (List.concat lines)))%nat,
              (t + List.length (List.concat lines))%nat)).
  { induction lines as [| line lines IH]; intros s t; cbn [fold_left List.concat].
    - cbn [filter List.length]. rewrite !Nat.add_0_r. reflexivity.
    - rewrite countStar_fold, IH, filter_app, !length_app. f_equal; lia. }
  apply H.
Qed.

Lemma filter_length (A : Type) (f : A -> bool) (l : list A) :
  (List.length (filter f l) <= List.length l)%nat.
Proof.
  induction l as [| x l IH]; cbn [filter List.length]; [lia |].
  destruct (f x); cbn [List.length]; lia.
Qed.

(** What the loop pushes for a table of constellations. *)
Lemma inViewEntry_entries (app : NightSkyMapZoom.t) (v : NightSkyMapZoom.view)
    (table : list (string * list (list nat))) :
  Forall (fun c =>
            exists lines : list (list nat),
              In (ConstellationInView.name c, lines) table /\
              ConstellationInView.starsVisible c =
                List.length (filter (starInView app v) (List.concat lines)) /\
              (1 <= ConstellationInView.starsVisible c <=
               List.length (List.concat lines))%nat /\
              ConstellationInView.visibility c =
                Fin (INR (ConstellationInView.starsVisible c) /
                     INR (List.length (List.concat lines))))
         (flat_map (NightSkyMapZoom.inViewEntry app v) table).
Proof.
  induction table as [| [name lines] table IH]; cbn [flat_map]; [constructor |].
  apply Forall_app. split.
  - unfold NightSkyMapZoom.inViewEntry. rewrite countStars_spec.
    destruct (Nat.ltb_spec 0 (List.length (filter (starInView app v) (List.concat lines))))
      as [Hpos | Hzero]; constructor; [| constructor].
    exists lines. cbn [ConstellationInView.name ConstellationInView.starsVisible
                       ConstellationInView.visibility].
    pose proof (filter_length (starInView app v) (List.concat lines)) as Hle.
    split; [left; reflexivity |]. split; [reflexivity |]. split; [lia |].
    cbn [Num.div]. rewrite Reqb_false; [reflexivity |].
    assert (H : 0 < INR (List.length (List.concat lines))) by (apply lt_0_INR; lia).
    lra.
  - eapply Forall_impl; [| exact IH]. cbv beta.
    intros c [lines' [Hin Hrest]]. exists lines'. split; [right; exact Hin | exact Hrest].
Qed.

Lemma inViewEntry_names (app : NightSkyMapZoom.t) (v : NightSkyMapZoom.view)
    (table : list (string * list (list nat))) (name : string) :
  In name (map ConstellationInView.name (flat_map (NightSkyMapZoom.inViewEntry app v) table))
  <->
  exists (lines : list (list nat)) (index : nat),
    In (name, lines) table /\ In index (List.concat lines) /\
    starInView app v index = true.
Proof.
  induction table as [| [name' lines'] table IH]; cbn [flat_map map].
  - split; [intros [] | intros [lines [index [[] _]]]].
  - rewrite map_app, in_app_iff, IH. clear IH.
    unfold NightSkyMapZoom.inViewEntry at 1. rewrite countStars_spec.
    split.
    + intros [Hhead | [lines [index [Hin Hrest]]]].
      * destruct (Nat.ltb_spec 0 (List.length (filter (starInView app v)
                                                 (List.concat lines'))))
          as [Hpos | Hzero]; [| destruct Hhead].
        destruct Hhead as [<- | []]. cbn [ConstellationInView.name].
        destruct (filter (starInView app v) (List.concat lines')) as [| index l] eqn:Hf;
          [cbn [List.length] in Hpos; lia |].
        assert (Hin : In index (filter (starInView app v) (List.concat lines')))
          by (rewrite Hf; left; reflexivity).
        apply filter_In in Hin. exists lines', index.
        split; [left; reflexivity | exact Hin].
      * exists lines, index. split; [right; exact Hin | exact Hrest].
    + intros [lines [index [[Heq | Hin] [Hidx Hview]]]].
      * injection Heq as <- <-. left.
        assert (Hf : In index (filter (starInView app v) (List.concat lines')))
          by (apply filter_In; split; assumption).
        destruct (filter (starInView app v) (List.concat lines')) as [| i l];
          [destruct Hf |].
        cbn [List.length Nat.ltb Nat.leb map ConstellationInView.name]. left. reflexivity.
      * right. exists lines, index. split; [exact Hin | split; assumption].
Qed.

(** The comparator by falling visibility orders as the comparator by
    the rising opposite of the visibility does. *)
Lemma gt_sub_neg (a b : number) :
  Num.gt (Num.sub (Num.neg a) (Num.neg b)) (Fin 0) = Num.gt (Num.sub b a) (Fin 0).
Proof.
  destruct a as [x | | |], b as [y | | |]; try reflexivity.
  unfold Num.gt. cbn [Num.sub Num.neg Num.add Num.lt].
  replace (- x + - - y) with (y + - x) by lra. reflexivity.
Qed.

Lemma sort_ext (A : Type) (c1 c2 : A -> A -> number) (l : list A) :
  (forall x y : A, Num.gt (c1 x y) (Fin 0) = Num.gt (c2 x y) (Fin 0)) ->
  sort c1 l = sort c2 l.
Proof.
  intros Hc. induction l as [| x l IH]; cbn [sort]; [reflexivity |].
  rewrite IH. generalize (sort c2 l). intros s.
  induction s as [| y s IHs]; cbn [insert]; [reflexivity |].
  rewrite Hc, IHs. reflexivity.
Qed.

Lemma StronglySorted_weaken (A : Type) (R R' : A -> A -> Prop) (l : list A) :
  (forall a b : A, R a b -> R' a b) -> StronglySorted R l -> StronglySorted R' l.
Proof.
  intros HR Hs. induction Hs as [| x l Hs IH Hx]; constructor; [exact IH |].
  eapply Forall_impl; [| exact Hx]. intros b. apply HR.
Qed.

Lemma byVisibility_sorted (l : list ConstellationInView.t) :
  Forall (fun c => Num.is_finite (ConstellationInView.visibility c) = true) l ->
  StronglySorted visibility_ge (sort ConstellationInView.byVisibility l).
Proof.
  intros Hfin.
  rewrite (@sort_ext _ ConstellationInView.byVisibility
             (fun a b => Num.sub (Num.neg (ConstellationInView.visibility a))
                                 (Num.neg (ConstellationInView.visibility b)))).
  2:{ intros x y. unfold ConstellationInView.byVisibility. symmetry. apply gt_sub_neg. }
  apply StronglySorted_weaken
    with (R := key_le (fun c => Num.neg (ConstellationInView.visibility c))).
  - intros a b [x [y [Ha [Hb Hxy]]]]. unfold visibility_ge.
    destruct (ConstellationInView.visibility a) as [va | | |]; try discriminate.
    destruct (ConstellationInView.visibility b) as [vb | | |]; try discriminate.
    cbn [Num.neg] in Ha, Hb. injection Ha as <-. injection Hb as <-.
    exists va, vb. split; [reflexivity |]. split; [reflexivity | lra].
  - apply (@sort_sorted _ (fun c => Num.neg (ConstellationInView.visibility c))).
    eapply Forall_impl; [| exact Hfin]. cbv beta. unfold finite_key.
    intros c Hc. destruct (ConstellationInView.visibility c); try discriminate.
    reflexivity.
Qed.

Lemma entry_share (s t : nat) : (1 <= s <= t)%nat -> 0 < INR s / INR t <= 1.
Proof.
  intros [Hs Ht].
  assert (H1 : 0 < INR s) by (apply lt_0_INR; lia).
  assert (H2 : 0 < INR t) by (apply lt_0_INR; lia).
  assert (H3 : INR s <= INR t) by (apply le_INR; lia).
  split.
  - apply Rdiv_lt_0_compat; assumption.
  - apply Rmult_le_reg_r with (INR t); [exact H2 |].
    replace (INR s / INR t * INR t) with (INR s) by (field; lra). lra.
Qed.

(** X21.  After [identifyConstellationsInView], every entry of
    [constellationsInView] names a constellation of the table and counts
    the stars of its lines that are among the objects and on the canvas,
    at least one; its visibility is that count over the number of indices
    of the lines, a finite number in (0, 1].  The entries come in order
    of falling visibility, and a constellation is listed exactly when one
    of its stars is in view. *)
Theorem identifyConstellationsInView_entries (app : NightSkyMapZoom.t)
    (v : NightSkyMapZoom.view) :
  let listed :=
    NightSkyMapZoom.constellationsInView
      (NightSkyMapZoom.identifyConstellationsInView app v) in
  Forall (entryOf app v) listed /\
  Forall (fun c => exists x : R, ConstellationInView.visibility c = Fin x /\ 0 < x <= 1)
         listed /\
  StronglySorted visibility_ge listed /\
  forall name : string,
    In name (map ConstellationInView.name listed) <->
    exists (lines : list (list nat)) (index : nat),
      In (name, lines) CONSTELLATIONS /\ In index (List.concat lines) /\
      starInView app v index = true.
Proof.
  intros listed. subst listed.
  cbn [NightSkyMapZoom.identifyConstellationsInView NightSkyMapZoom.set_constellationsInView
       NightSkyMapZoom.constellationsInView].
  pose proof (inViewEntry_entries app v CONSTELLATIONS) as He.
  fold (entryOf app v) in He.
  assert (Hshare : Forall (fun c => exists x : R,
                             ConstellationInView.visibility c = Fin x /\ 0 < x <= 1)
                          (flat_map (NightSkyMapZoom.inViewEntry app v) CONSTELLATIONS)).
  { eapply Forall_impl; [| exact He]. intros c [lines [_ [_ [Hr Hv]]]].
    eexists; split; [exact Hv | apply entry_share; exact Hr]. }
  split; [apply sort_any_Forall; exact He |].
  split; [apply sort_any_Forall; exact Hshare |].
  split.
  - apply byVisibility_sorted. eapply Forall_impl; [| exact Hshare].
    intros c [x [-> _]]. reflexivity.
  - intros name. rewrite <- inViewEntry_names.
    split; apply Permutation_in; apply Permutation_map;
      [apply Permutation_sym |]; apply sort_any_Permutation.
Qed.

(** An index beyond the catalog finds no object. *)
Lemma findStar_beyond (app : NightSkyMapZoom.t) (index : nat) :
  catalogued (NightSkyMapZoom.allObjects app) -> (50 <= index)%nat ->
  NightSkyMapZoom.findStar app index = None.
Proof.
  intros Hc Hi. unfold NightSkyMapZoom.findStar.
  destruct (find _ _) as [o |] eqn:Hf; [| reflexivity].
  apply find_some in Hf. destruct Hf as [Hin Heq].
  unfold catalogued in Hc. rewrite Forall_forall in Hc. specialize (Hc o Hin).
  destruct (SkyObject.catalogIndex o) as [i |]; [| discriminate].
  apply Nat.eqb_eq in Heq. lia.
Qed.

(** The objects computed from the star list of the catalog carry indices
    of the catalog. *)
Lemma calculateAllObjects_catalogued (now : number) (app : NightSkyMapZoom.t) :
  NightSkyMapZoom.stars app = getStars ->
  catalogued (NightSkyMapZoom.allObjects (NightSkyMapZoom.calculateAllObjects now app)).
Proof.
  intros Hstars. unfold catalogued.
  cbn [NightSkyMapZoom.calculateAllObjects NightSkyMapZoom.allObjects].
  apply (@sort_Forall _ magnitudeOf). fold (generatedAll now app).
  apply generatedAll_Forall.
  - intros star pos Hin _. cbn [NightSkyMapZoom.starObject SkyObject.catalogIndex].
    rewrite Hstars in Hin.
    assert (Hid : In (Star.id star) (map Star.id getStars)) by (apply in_map; exact Hin).
    rewrite (proj1 getStars_index_stable) in Hid. apply in_seq in Hid. lia.
  - intros name planet pos _ _ _. exact I.
  - intros phase pos _. exact I.
Qed.

(** X22.  On a sky map whose star list is the catalog, the entry of
    Cassiopeia in [constellationsInView] never counts more than three
    stars, whatever the time, the place and the view: two of the five
    indices of its line lie beyond the catalog.  Its visibility is 0.6 at
    most. *)
Theorem Cassiopeia_visibility (now : number) (app : NightSkyMapZoom.t)
    (v : NightSkyMapZoom.view) :
  NightSkyMapZoom.stars app = getStars ->
  Forall (fun c =>
            ConstellationInView.name c = "Cassiopeia" ->
            (ConstellationInView.starsVisible c <= 3)%nat /\
            exists x : R, ConstellationInView.visibility c = Fin x /\ x <= 0.6)
         (NightSkyMapZoom.constellationsInView
            (NightSkyMapZoom.identifyConstellationsInView
               (NightSkyMapZoom.calculateAllObjects now app) v)).
Proof.
  intros Hstars.
  set (app' := NightSkyMapZoom.calculateAllObjects now app).
  cbn [NightSkyMapZoom.identifyConstellationsInView NightSkyMapZoom.set_constellationsInView
       NightSkyMapZoom.constellationsInView].
  apply sort_any_Forall.
  pose proof (inViewEntry_entries app' v CONSTELLATIONS) as He.
  eapply Forall_impl; [| exact He]. cbv beta.
  intros c [lines [Htable [Hcount [Hrange Hvis]]]] Hname.
  rewrite Hname in Htable.
  assert (Hlines : lines = [[40; 41; 46; 50; 51]]%nat).
  { unfold CONSTELLATIONS in Htable. cbn [In] in Htable.
    destruct Htable as [H | [H | [H | [H | [H | []]]]]];
      try discriminate H. injection H as <-. reflexivity. }
  subst lines.
  pose proof (calculateAllObjects_catalogued now app Hstars) as Hcat. fold app' in Hcat.
  assert (H50 : starInView app' v 50 = false)
    by (unfold starInView; rewrite (@findStar_beyond app' 50 Hcat) by lia; reflexivity).
  assert (H51 : starInView app' v 51 = false)
    by (unfold starInView; rewrite (@findStar_beyond app' 51 Hcat) by lia; reflexivity).
  assert (Hle : (ConstellationInView.starsVisible c <= 3)%nat).
  { rewrite Hcount. cbn [List.concat List.app filter]. rewrite H50, H51.
    destruct (starInView app' v 40), (starInView app' v 41), (starInView app' v 46);
      cbn [List.length]; lia. }
  split; [exact Hle |].
  eexists; split; [exact Hvis |].
  cbn [List.concat List.app List.length].
  assert (H3 : INR (ConstellationInView.starsVisible c) <= INR 3) by (apply le_INR; exact Hle).
  replace (INR 5) with 5 by (cbn [INR]; lra).
  replace (INR 3) with 3 in H3 by (cbn [INR]; lra).
  lra.
Qed.

Lemma Cassiopeia_visibility_witness :
  Forall (fun c =>
            ConstellationInView.name c = "Cassiopeia" ->
            (ConstellationInView.starsVisible c <= 3)%nat /\
            exists x : R, ConstellationInView.visibility c = Fin x /\ x <= 0.6)
         (NightSkyMapZoom.constellationsInView
            (NightSkyMapZoom.identifyConstellationsInView
               (NightSkyMapZoom.calculateAllObjects (Fin 0)
                  (NightSkyMapZoom.initial (Fin 45) (Fin 0)))
               (NightSkyMapZoom.initialView (Fin 400) (Fin 800)))).
Proof.
  apply (@Cassiopeia_visibility (Fin 0) (NightSkyMapZoom.initial (Fin 45) (Fin 0))
           (NightSkyMapZoom.initialView (Fin 400) (Fin 800))).
  reflexivity.
Defined.

(** The loop over the constellations in view ends with no selection or
    with an entry that was not selected. *)
Lemma tapOn_selection (app : NightSkyMapZoom.t) (v : NightSkyMapZoom.view) (x y : number)
    (inView : list ConstellationInView.t) (selection : option string) :
  NightSkyMapZoom.tapOn app v x y inView = Some selection ->
  selection = None \/
  exists c : ConstellationInView.t,
    In c inView /\ selection = Some (ConstellationInView.name c) /\
    NightSkyMapZoom.selectedConstellation v <> Some (ConstellationInView.name c) /\
    NightSkyMapZoom.isPointInConstellation app v x y (ConstellationInView.name c) =
      Some true.
Proof.
  induction inView as [| c inView IH]; cbn [NightSkyMapZoom.tapOn].
  - intros [= <-]. left. reflexivity.
  - destruct (NightSkyMapZoom.isPointInConstellation app v x y
                (ConstellationInView.name c)) as [[|] |] eqn:Hhit; [| | discriminate].
    + destruct (NightSkyMapZoom.selectedConstellation v) as [selected |] eqn:Hsel.
      * destruct (String.eqb selected (ConstellationInView.name c)) eqn:Heq;
          intros [= <-]; [left; reflexivity |].
        right. exists c. split; [left; reflexivity |]. split; [reflexivity |].
        split; [| exact Hhit].
        intros [= Hs]. rewrite Hs, String.eqb_refl in Heq. discriminate.
      * intros [= <-]. right. exists c. split; [left; reflexivity |].
        split; [reflexivity |]. split; [discriminate | exact Hhit].
    + intros H. destruct (IH H) as [Hn | [c' [Hin Hrest]]]; [left; exact Hn |].
      right. exists c'. split; [right; exact Hin | exact Hrest].
Qed.

(** X23.  A tap on the sky map, with entries in view that name
    constellations of the table, is handled without an exception and
    changes the selection only.  Below zoom 1.5 it clears the selection.
    It never keeps a selection: afterwards nothing is selected, or the
    selection is a constellation in view that was hit by the tap and was
    not the one selected before. *)
Theorem handleTap_selection (app : NightSkyMapZoom.t) (v : NightSkyMapZoom.view)
    (x y : number) :
  Forall keyed (NightSkyMapZoom.constellationsInView v) ->
  exists selection : option string,
    NightSkyMapZoom.handleTap app v x y =
      Some (NightSkyMapZoom.set_selectedConstellation selection v) /\
    (Num.lt (NightSkyMapZoom.zoomLevel v) (Fin 1.5) = true -> selection = None) /\
    (selection = None \/
     exists c : ConstellationInView.t,
       In c (NightSkyMapZoom.constellationsInView v) /\
       selection = Some (ConstellationInView.name c) /\
       NightSkyMapZoom.selectedConstellation v <> Some (ConstellationInView.name c) /\
       NightSkyMapZoom.isPointInConstellation app v x y (ConstellationInView.name c) =
         Some true).
Proof.
  intros Hk. unfold NightSkyMapZoom.handleTap.
  destruct (Num.lt (NightSkyMapZoom.zoomLevel v) (Fin 1.5)) eqn:Hzoom.
  - exists None. split; [reflexivity |]. split; [reflexivity | left; reflexivity].
  - destruct (@tapOn_returns app v x y _ Hk) as [selection Hs]. rewrite Hs.
    exists selection. split; [reflexivity |]. split; [discriminate |].
    apply (tapOn_selection _ _ _ _ _ Hs).
Qed.

Lemma handleTap_selection_witness :
  let v :=
    NightSkyMapZoom.set_selectedConstellation (Some "Orion")
      (NightSkyMapZoom.set_constellationsInView
         [ {| ConstellationInView.name := "Orion";
              ConstellationInView.visibility := Fin 0.5;
              ConstellationInView.starsVisible := 4 |} ]
         (NightSkyMapZoom.set_zoomLevel (Fin 2)
            (NightSkyMapZoom.initialView (Fin 400) (Fin 800)))) in
  exists selection : option string,
    NightSkyMapZoom.handleTap (NightSkyMapZoom.initial (Fin 45) (Fin 0)) v
      (Fin 100) (Fin 100) =
      Some (NightSkyMapZoom.set_selectedConstellation selection v) /\
    (Num.lt (NightSkyMapZoom.zoomLevel v) (Fin 1.5) = true -> selection = None) /\
    (selection = None \/
     exists c : ConstellationInView.t,
       In c (NightSkyMapZoom.constellationsInView v) /\
       selection = Some (ConstellationInView.name c) /\
       NightSkyMapZoom.selectedConstellation v <> Some (ConstellationInView.name c) /\
       NightSkyMapZoom.isPointInConstellation (NightSkyMapZoom.initial (Fin 45) (Fin 0))
         v (Fin 100) (Fin 100) (ConstellationInView.name c) = Some true).
Proof.
  intros v. apply (@handleTap_selection (NightSkyMapZoom.initial (Fin 45) (Fin 0)) v).
  repeat constructor. eexists. reflexivity.
Defined.

End InView.

(** ** The constellation lines of [NightSkyApp] *)

Section ConstellationLines.

Import Astronomy.
Local Open Scope string_scope.
Local Open Scope R_scope.

Variables (app : NightSkyApp.t) (canvas : Canvas.t).




End ConstellationLines.


(** ** Finding a star of the catalog among the objects *)

Section CatalogIndex.

Import Astronomy.
Local Open Scope string_scope.
Local Open Scope R_scope.

(** The record of a star of the catalog sits at the position its [id]
    names. *)
Lemma getStars_nth (star : Star.t) :
  In star getStars -> nth_error getStars (Star.id star) = Some star.
Proof.
  intros Hin. apply In_nth_error in Hin. destruct Hin as [k Hk].
  assert (Hid : nth_error (map Star.id getStars) k = Some (Star.id star))
    by (apply map_nth_error; exact Hk).
  rewrite (proj1 getStars_index_stable) in Hid.
  assert (Hlt : (k < 50)%nat).
  { assert (Hs : nth_error (seq 0 50) k <> None) by (rewrite Hid; discriminate).
    apply nth_error_Some in Hs. rewrite length_seq in Hs. exact Hs. }
  apply (nth_error_nth _ _ O) in Hid. rewrite seq_nth in Hid by exact Hlt.
  cbn [Nat.add] in Hid. rewrite <- Hid. exact Hk.
Qed.

(** An object that carries a catalog index was added for the star of
    that [id]. *)
Lemma generatedAll_indexed (now : number) (app : NightSkyMapZoom.t) (o : SkyObject.t)
    (index : nat) :
  In o (generatedAll now app) -> SkyObject.catalogIndex o = Some index ->
  exists star : Star.t,
    In star (NightSkyMapZoom.stars app) /\ Star.id star = index /\
    NightSkyMapZoom.addStar app (getJulianDate now) star = [o].
Proof.
  unfold generatedAll. intros Hin Hidx.
  apply in_app_or in Hin. destruct Hin as [Hin | Hin].
  - apply in_flat_map in Hin. destruct Hin as [star [Hstar Ho]].
    exists star. split; [exact Hstar |].
    unfold NightSkyMapZoom.addStar in *.
    destruct (Num.gt _ _); [| destruct Ho].
    destruct Ho as [<- | []].
    cbn [NightSkyMapZoom.starObject SkyObject.catalogIndex] in Hidx.
    injection Hidx as <-. split; reflexivity.
  - exfalso. apply in_app_or in Hin. destruct Hin as [Hin | Hin].
    + apply in_flat_map in Hin. destruct Hin as [name [_ Ho]].
      unfold NightSkyMapZoom.addPlanet in Ho.
      destruct (getPlanetPosition name (getJulianDate now)); [| destruct Ho].
      destruct (Num.gt _ _); [| destruct Ho].
      destruct Ho as [<- | []]. discriminate Hidx.
    + unfold NightSkyMapZoom.addMoon in Hin.
      destruct (Num.gt _ _); [| destruct Hin].
      destruct Hin as [<- | []]. discriminate Hidx.
Qed.

(** X25.  On a sky map whose star list is the catalog, looking up a
    catalog index among the objects of [calculateAllObjects] (as the
    constellation code does) finds the object of the star at that
    position of the catalog, with the position computed for that star,
    above the horizon; and it finds nothing exactly when the catalog has
    no star at that position or the loop over the stars added nothing for
    it. *)
Theorem findStar_round_trip (now : number) (app : NightSkyMapZoom.t) (index : nat) :
  NightSkyMapZoom.stars app = getStars ->
  match NightSkyMapZoom.findStar (NightSkyMapZoom.calculateAllObjects now app) index with
  | Some o =>
      exists star : Star.t,
        nth_error getStars index = Some star /\
        o = NightSkyMapZoom.starObject star
              (equatorialToHorizontal (Star.ra star) (Star.dec star)
                 (NightSkyMapZoom.latitude app) (NightSkyMapZoom.longitude app)
                 (getJulianDate now)) /\
        aboveHorizon o
  | None =>
      forall star : Star.t,
        nth_error getStars index = Some star ->
        NightSkyMapZoom.addStar app (getJulianDate now) star = []
  end.
Proof.
  intros Hstars. unfold NightSkyMapZoom.findStar.
  cbn [NightSkyMapZoom.calculateAllObjects NightSkyMapZoom.allObjects].
  fold (generatedAll now app).
  pose proof (@sort_Permutation _ magnitudeOf (generatedAll now app)) as Hperm.
  change (fun a b : SkyObject.t => Num.sub (magnitudeOf a) (magnitudeOf b))
    with SkyObject.byMagnitude in Hperm.
  destruct (find _ _) as [o |] eqn:Hfind.
  - apply find_some in Hfind. destruct Hfind as [Hin Heq].
    apply (Permutation_in _ (Permutation_sym Hperm)) in Hin.
    destruct (SkyObject.catalogIndex o) as [i |] eqn:Hidx; [| discriminate].
    apply Nat.eqb_eq in Heq. subst i.
    destruct (generatedAll_indexed _ _ _ Hin Hidx) as [star [Hstar [Hid Hadd]]].
    rewrite Hstars in Hstar. exists star.
    split; [rewrite <- Hid; apply getStars_nth; exact Hstar |].
    unfold NightSkyMapZoom.addStar in Hadd.
    destruct (Num.gt _ _) eqn:Habove; [| discriminate].
    injection Hadd as <-. split; [reflexivity | exact Habove].
  - intros star Hnth.
    destruct (NightSkyMapZoom.addStar app (getJulianDate now) star) as [| o l] eqn:Hadd;
      [reflexivity | exfalso].
    assert (Hin : In o (generatedAll now app)).
    { unfold generatedAll. apply in_or_app. left. apply in_flat_map.
      exists star. split; [rewrite Hstars; eapply nth_error_In; exact Hnth |].
      rewrite Hadd. left. reflexivity. }
    apply (Permutation_in _ Hperm) in Hin.
    pose proof (find_none _ _ Hfind _ Hin) as Hno. cbv beta in Hno.
    assert (Hidx : SkyObject.catalogIndex o = Some index).
    { unfold NightSkyMapZoom.addStar in Hadd.
      destruct (Num.gt _ _); [| discriminate]. injection Hadd as <- _.
      cbn [NightSkyMapZoom.starObject SkyObject.catalogIndex]. f_equal.
      apply nth_error_In in Hnth as Hmem. apply getStars_nth in Hmem.
      assert (Hlt : (index < List.length getStars)%nat)
        by (apply nth_error_Some; rewrite Hnth; discriminate).
      assert (Hlt' : (Star.id star < List.length getStars)%nat)
        by (apply nth_error_Some; rewrite Hmem; discriminate).
      pose proof (proj1 getStars_index_stable) as Hids.
      assert (H1 : nth_error (map Star.id getStars) index = Some (Star.id star))
        by (apply map_nth_error; exact Hnth).
      rewrite Hids in H1. apply (nth_error_nth _ _ O) in H1.
      rewrite seq_nth in H1; [cbn [Nat.add] in H1; symmetry; exact H1 |].
      change (List.length getStars) with 50%nat in Hlt. exact Hlt. }
    rewrite Hidx, Nat.eqb_refl in Hno. discriminate.
Qed.

Lemma findStar_round_trip_witness :
  match NightSkyMapZoom.findStar
          (NightSkyMapZoom.calculateAllObjects (Fin 0)
             (NightSkyMapZoom.initial (Fin 45) (Fin 0))) 40 with
  | Some o =>
      exists star : Star.t,
        nth_error getStars 40 = Some star /\
        o = NightSkyMapZoom.starObject star
              (equatorialToHorizontal (Star.ra star) (Star.dec star)
                 (NightSkyMapZoom.latitude (NightSkyMapZoom.initial (Fin 45) (Fin 0)))
                 (NightSkyMapZoom.longitude (NightSkyMapZoom.initial (Fin 45) (Fin 0)))
                 (getJulianDate (Fin 0))) /\
        aboveHorizon o
  | None =>
      forall star : Star.t,
        nth_error getStars 40 = Some star ->
        NightSkyMapZoom.addStar (NightSkyMapZoom.initial (Fin 45) (Fin 0))
          (getJulianDate (Fin 0)) star = []
  end.
Proof.
  apply (@findStar_round_trip (Fin 0) (NightSkyMapZoom.initial (Fin 45) (Fin 0)) 40).
  reflexivity.
Defined.

End CatalogIndex.

(** ** The stars of the selected constellation *)

Section ConstellationStars.

Import Astronomy.
Local Open Scope string_scope.
Local Open Scope R_scope.

Variable app : NightSkyMapZoom.t.

Lemma findStar_index (index : nat) (o : SkyObject.t) :
  NightSkyMapZoom.findStar app index = Some o ->
  In o (NightSkyMapZoom.allObjects app) /\ SkyObject.catalogIndex o = Some index.
Proof.
  unfold NightSkyMapZoom.findStar. intros H. apply find_some in H.
  destruct H as [Hin Heq]. split; [exact Hin |].
  destruct (SkyObject.catalogIndex o) as [i |]; [| discriminate].
  apply Nat.eqb_eq in Heq. rewrite Heq. reflexivity.
Qed.

Lemma pushConstellationStar_collected (stars : list SkyObject.t) (index : nat) :
  collected app stars ->
  collected app (NightSkyMapZoom.pushConstellationStar app stars index) /\
  forall o : SkyObject.t,
    In o (NightSkyMapZoom.pushConstellationStar app stars index) <->
    In o stars \/ NightSkyMapZoom.findStar app index = Some o.
Proof.
  intros [Hnodup Hfound]. unfold NightSkyMapZoom.pushConstellationStar.
  destruct (NightSkyMapZoom.findStar app index) as [star |] eqn:Hstar.
  2:{ split; [split; assumption |]. intros o.
      split; [tauto | intros [H | H]; [exact H | discriminate]]. }
  destruct (findStar_index _ Hstar) as [_ Hidx].
  destruct (find _ stars) as [s |] eqn:Hfind.
  - apply find_some in Hfind. destruct Hfind as [Hs Heq].
    assert (Hsame : s = star).
    { destruct (Hfound s Hs) as [i Hi].
      destruct (findStar_index _ Hi) as [_ Hsi].
      rewrite Hsi in Heq. apply Nat.eqb_eq in Heq. subst i. congruence. }
    subst s. split; [split; assumption |].
    intros o. split; [tauto | intros [H | [= <-]]; assumption].
  - split.
    + split.
      * rewrite map_app. cbn [map].
        apply NoDup_app; [exact Hnodup | constructor; [intros [] | constructor] |].
        intros i Hi [<- | []]. rewrite Hidx in Hi.
        apply in_map_iff in Hi. destruct Hi as [s [Hsi Hs]].
        pose proof (find_none _ _ Hfind _ Hs) as Hno. cbv beta in Hno.
        rewrite Hsi, Nat.eqb_refl in Hno. discriminate.
      * intros o Ho. apply in_app_or in Ho. destruct Ho as [Ho | [<- | []]];
          [apply Hfound; exact Ho | exists index; exact Hstar].
    + intros o. rewrite in_app_iff. cbn [In]. split.
      * intros [H | [<- | []]]; [left; exact H | right; reflexivity].
      * intros [H | [= <-]]; [left; exact H | right; left; reflexivity].
Qed.

Lemma pushConstellationStar_fold (line : list nat) (stars : list SkyObject.t) :
  collected app stars ->
  collected app (fold_left (NightSkyMapZoom.pushConstellationStar app) line stars) /\
  forall o : SkyObject.t,
    In o (fold_left (NightSkyMapZoom.pushConstellationStar app) line stars) <->
    In o stars \/
    exists index : nat, In index line /\ NightSkyMapZoom.findStar app index = Some o.
Proof.
  revert stars. induction line as [| index line IH]; intros stars Hc; cbn [fold_left].
  - split; [exact Hc |]. intros o. split; [tauto | intros [H | [i [[] _]]]; exact H].
  - destruct (pushConstellationStar_collected index Hc) as [Hc' Hin'].
    destruct (IH _ Hc') as [Hc'' Hin'']. split; [exact Hc'' |].
    intros o. rewrite Hin'', Hin'. cbn [In]. split.
    + intros [[H | H] | [i [Hi Hf]]]; [left; exact H | right; exists index; tauto |
                                         right; exists i; tauto].
    + intros [H | [i [[<- | Hi] Hf]]]; [tauto | tauto | right; exists i; tauto].
Qed.

Lemma constellationStars_fold (lines : list (list nat)) (stars : list SkyObject.t) :
  collected app stars ->
  collected app (fold_left (fun acc line =>
                          fold_left (NightSkyMapZoom.pushConstellationStar app) line acc)
                       lines stars) /\
  forall o : SkyObject.t,
    In o (fold_left (fun acc line =>
                       fold_left (NightSkyMapZoom.pushConstellationStar app) line acc)
                    lines stars) <->
    In o stars \/
    exists index : nat,
      In index (List.concat lines) /\ NightSkyMapZoom.findStar app index = Some o.
Proof.
  revert stars. induction lines as [| line lines IH]; intros stars Hc;
    cbn [fold_left List.concat].
  - split; [exact Hc |]. intros o. split; [tauto | intros [H | [i [[] _]]]; exact H].
  - destruct (pushConstellationStar_fold line Hc) as [Hc' Hin'].
    destruct (IH _ Hc') as [Hc'' Hin'']. split; [exact Hc'' |].
    intros o. rewrite Hin'', Hin'. split.
    + intros [[H | [i [Hi Hf]]] | [i [Hi Hf]]];
        [left; exact H | right; exists i; rewrite in_app_iff; tauto |
         right; exists i; rewrite in_app_iff; tauto].
    + intros [H | [i [Hi Hf]]]; [tauto |].
      rewrite in_app_iff in Hi. destruct Hi as [Hi | Hi];
        [left; right; exists i; tauto | right; exists i; tauto].
Qed.

End ConstellationStars.

(** X26.  For a constellation of the table, on the objects of
    [calculateAllObjects] with finite magnitudes, the star list that
    [updateConstellationInfo] builds for the selected constellation holds
    exactly the objects found for the indices of its lines, each of them
    once however often the lines use its index, in order of magnitude,
    brightest first. *)
Theorem constellationStars_once (now : number) (app : NightSkyMapZoom.t)
    (name : string) (lines : list (list nat)) :
  finite_magnitudes (NightSkyMapZoom.stars app) (NightSkyMapZoom.planets app) = true ->
  Obj.own CONSTELLATIONS name = Some lines ->
  exists listed : list SkyObject.t,
    NightSkyMapZoom.constellationStars (NightSkyMapZoom.calculateAllObjects now app) name =
      Some listed /\
    NoDup (map SkyObject.catalogIndex listed) /\
    StronglySorted magnitude_le listed /\
    forall o : SkyObject.t,
      In o listed <->
      exists index : nat,
        In index (List.concat lines) /\
        NightSkyMapZoom.findStar (NightSkyMapZoom.calculateAllObjects now app) index = Some o.
Proof.
  intros Hfin Hown.
  set (app' := NightSkyMapZoom.calculateAllObjects now app).
  unfold NightSkyMapZoom.constellationStars, Obj.get. rewrite Hown.
  eexists. split; [reflexivity |].
  destruct (@constellationStars_fold app' lines []) as [[Hnodup Hfound] Hin].
  { split; [constructor | intros o []]. }
  set (stars := fold_left _ lines []) in *.
  pose proof (@sort_Permutation _ magnitudeOf stars) as Hperm.
  change (fun a b : SkyObject.t => Num.sub (magnitudeOf a) (magnitudeOf b))
    with SkyObject.byMagnitude in Hperm.
  split; [| split].
  - apply (Permutation_NoDup (Permutation_map SkyObject.catalogIndex Hperm) Hnodup).
  - apply (@sort_sorted _ magnitudeOf). apply Forall_forall. intros o Ho.
    destruct (Hfound o Ho) as [index Hi].
    destruct (findStar_index _ _ Hi) as [Hall _].
    pose proof (generatedAll_finite now app Hfin) as Hgen.
    apply (@sort_Forall _ magnitudeOf) in Hgen.
    rewrite Forall_forall in Hgen. apply Hgen. exact Hall.
  - intros o. split.
    + intros Ho. apply (Permutation_in _ (Permutation_sym Hperm)) in Ho.
      apply Hin in Ho. destruct Ho as [[] | Ho]. exact Ho.
    + intros Ho. apply (Permutation_in _ Hperm). apply Hin. right. exact Ho.
Qed.

Lemma constellationStars_once_witness :
  exists listed : list SkyObject.t,
    NightSkyMapZoom.constellationStars
      (NightSkyMapZoom.calculateAllObjects (Fin 0) (NightSkyMapZoom.initial (Fin 45) (Fin 0)))
      "Ursa Major" = Some listed /\
    NoDup (map SkyObject.catalogIndex listed) /\
    StronglySorted magnitude_le listed /\
    forall o : SkyObject.t,
      In o listed <->
      exists index : nat,
        In index (List.concat [[0; 30]; [30; 33]; [33; 29]; [29; 0]; [30; 48]]%nat) /\
        NightSkyMapZoom.findStar
          (NightSkyMapZoom.calculateAllObjects (Fin 0)
             (NightSkyMapZoom.initial (Fin 45) (Fin 0))) index = Some o.
Proof.
  apply (@constellationStars_once (Fin 0) (NightSkyMapZoom.initial (Fin 45) (Fin 0))
           "Ursa Major" [[0; 30]; [30; 33]; [33; 29]; [29; 0]; [30; 48]]%nat);
    reflexivity.
Defined.
